(** * CoreAssist connector registry and tool dispatch

    A shallow embedding of [backend/registry.py], of the credential lookups
    of [backend/auth/store.py] and of the [/tools/call] handler of
    [backend/main.py], with the properties of the routing core proved
    about it.

    Conventions.
    - A Python [dict] whose iteration order matters (the registry's
      [connectors], a JSON object) is an association list in insertion
      order; the credential store's dictionaries, which are only looked
      up, are [gmap]s.
    - Code that can raise returns a [res]; [Raise e] carries the class
      of the exception and the text of [str(e)].
    - Values read from [manifest.json] are untyped JSON; every dynamic
      check Python performs on them (attribute lookup, subscripting,
      iteration) is written out with the exception it raises. *)

From Stdlib Require Import String Ascii List ZArith Bool Lia.
From stdpp Require Import base option list gmap strings pretty.

Open Scope string_scope.
Open Scope list_scope.

#[local] Set Warnings "-register-all".

(** ** Exceptions and results *)

(** The exception classes the modelled code raises or tells apart.  Only
    descendants of [Exception] are modelled, since the handlers of the
    code are [except ValueError] and [except Exception].
    [JSONDecodeError] and pydantic's [ValidationError] are subclasses of
    [ValueError]; [OtherException] records whether its class is. *)
Inductive exn_class : Type :=
  | FileNotFoundError
  | ImportError
  | AttributeError
  | KeyError
  | TypeError
  | ValueError
  | JSONDecodeError
  | ValidationError
  | OtherException (name : string) (value_error : bool).

Record exn : Type := Exn { exn_cls : exn_class; exn_str : string }.

(** [isinstance(e, ValueError)] *)
Definition is_ValueError (e : exn) : bool :=
  match exn_cls e with
  | ValueError | JSONDecodeError | ValidationError => true
  | OtherException _ b => b
  | _ => false
  end.

Inductive res (A : Type) : Type :=
  | Ok (a : A)
  | Raise (e : exn).
Arguments Ok {A} a.
Arguments Raise {A} e.

#[global] Instance res_ret : MRet res := fun A a => Ok a.
#[global] Instance res_bind : MBind res := fun A B f m =>
  match m with
  | Ok a => f a
  | Raise e => Raise e
  end.

Definition is_Ok {A} (r : res A) : bool :=
  match r with Ok _ => true | Raise _ => false end.

(** ** Strings *)

(** [c in s] for a one-character [c] *)
Fixpoint str_contains (c : ascii) (s : string) : bool :=
  match s with
  | EmptyString => false
  | String a r => if Ascii.eqb a c then true else str_contains c r
  end.

Definition cons_head (a : ascii) (parts : list string) : list string :=
  match parts with
  | [] => [String a EmptyString]
  | h :: t => String a h :: t
  end.

(** [s.split(sep)] for a one-character separator *)
Fixpoint str_split (sep : ascii) (s : string) : list string :=
  match s with
  | EmptyString => [EmptyString]
  | String a r =>
      if Ascii.eqb a sep then EmptyString :: str_split sep r
      else cons_head a (str_split sep r)
  end.

(** [s.split(sep, maxsplit)] *)
Fixpoint str_split_max (sep : ascii) (s : string) (maxsplit : nat) : list string :=
  match s with
  | EmptyString => [EmptyString]
  | String a r =>
      match maxsplit with
      | O => [s]
      | S n =>
          if Ascii.eqb a sep then EmptyString :: str_split_max sep r n
          else cons_head a (str_split_max sep r maxsplit)
      end
  end.

(** [s.startswith(c)] for a one-character [c] *)
Definition str_startswith (c : ascii) (s : string) : bool :=
  match s with
  | EmptyString => false
  | String a _ => Ascii.eqb a c
  end.

Definition ascii_upper (a : ascii) : ascii :=
  let n := nat_of_ascii a in
  if (97 <=? n)%nat && (n <=? 122)%nat then ascii_of_nat (n - 32) else a.

Definition ascii_lower (a : ascii) : ascii :=
  let n := nat_of_ascii a in
  if (65 <=? n)%nat && (n <=? 90)%nat then ascii_of_nat (n + 32) else a.

Fixpoint str_lower (s : string) : string :=
  match s with
  | EmptyString => EmptyString
  | String a r => String (ascii_lower a) (str_lower r)
  end.

(** [s.capitalize()] on ASCII text: first character upper-cased, the
    rest lower-cased. *)
Definition str_capitalize (s : string) : string :=
  match s with
  | EmptyString => EmptyString
  | String a r => String (ascii_upper a) (str_lower r)
  end.

(** [sep.join(parts)] with the empty separator *)
Definition str_join (parts : list string) : string :=
  fold_right String.append EmptyString parts.

Definition dot : ascii := "."%char.
Definition underscore : ascii := "_"%char.

(** ** Insertion-ordered dictionaries *)

Definition pydict (V : Type) : Type := list (string * V).

Section PyDict.
Context {V : Type}.

(** [d.get(k)] / [k in d] *)
Fixpoint dict_get (k : string) (d : pydict V) : option V :=
  match d with
  | [] => None
  | (k', v) :: r => if String.eqb k' k then Some v else dict_get k r
  end.

Definition dict_mem (k : string) (d : pydict V) : bool :=
  match dict_get k d with Some _ => true | None => false end.

(** [d[k] = v]: an existing key keeps its position, a new key goes
    last. *)
Fixpoint dict_set (k : string) (v : V) (d : pydict V) : pydict V :=
  match d with
  | [] => [(k, v)]
  | (k', v') :: r =>
      if String.eqb k' k then (k, v) :: r else (k', v') :: dict_set k v r
  end.

(** [del d[k]] *)
Fixpoint dict_del (k : string) (d : pydict V) : pydict V :=
  match d with
  | [] => []
  | (k', v') :: r =>
      if String.eqb k' k then r else (k', v') :: dict_del k r
  end.

Definition dict_keys (d : pydict V) : list string := map fst d.
Definition dict_values (d : pydict V) : list V := map snd d.
End PyDict.

(** ** JSON values, as [json.load] produces them *)

(** A float is kept as decimal mantissa and exponent; the code never
    computes with numbers. *)
Inductive json : Type :=
  | JNull
  | JBool (b : bool)
  | JInt (z : Z)
  | JFloat (mantissa exponent : Z)
  | JStr (s : string)
  | JArr (items : list json)
  | JObj (fields : list (string * json)).

(** [type(v).__name__], for the messages of the exceptions *)
Definition type_name (v : json) : string :=
  match v with
  | JNull => "NoneType"
  | JBool _ => "bool"
  | JInt _ => "int"
  | JFloat _ _ => "float"
  | JStr _ => "str"
  | JArr _ => "list"
  | JObj _ => "dict"
  end.

(** [v == s] for a string [s] *)
Definition json_eq_str (v : json) (s : string) : bool :=
  match v with
  | JStr s' => String.eqb s' s
  | _ => false
  end.

Fixpoint str_chars (s : string) : list json :=
  match s with
  | EmptyString => []
  | String a r => JStr (String a EmptyString) :: str_chars r
  end.

(** [for x in v] *)
Definition py_iter (v : json) : res (list json) :=
  match v with
  | JArr items => Ok items
  | JStr s => Ok (str_chars s)
  | JObj fields => Ok (map JStr (dict_keys fields))
  | _ => Raise (Exn TypeError ("'" +:+ type_name v +:+ "' object is not iterable"))
  end.

(** [v[k]] for a string key [k] *)
Definition py_getitem (v : json) (k : string) : res json :=
  match v with
  | JObj fields =>
      match dict_get k fields with
      | Some x => Ok x
      | None => Raise (Exn KeyError ("'" +:+ k +:+ "'"))
      end
  | JStr _ => Raise (Exn TypeError "string indices must be integers")
  | JArr _ => Raise (Exn TypeError "list indices must be integers or slices, not str")
  | _ => Raise (Exn TypeError ("'" +:+ type_name v +:+ "' object is not subscriptable"))
  end.

(** [v.get(k, default)] *)
Definition py_get (v : json) (k : string) (dflt : json) : res json :=
  match v with
  | JObj fields => Ok (default dflt (dict_get k fields))
  | _ => Raise (Exn AttributeError
                  ("'" +:+ type_name v +:+ "' object has no attribute 'get'"))
  end.

(** [v.copy()]: dictionaries and lists have the method. *)
Definition py_copy (v : json) : res json :=
  match v with
  | JObj fields => Ok (JObj fields)
  | JArr items => Ok (JArr items)
  | _ => Raise (Exn AttributeError
                  ("'" +:+ type_name v +:+ "' object has no attribute 'copy'"))
  end.

(** [v[k] = x] for a string key [k] *)
Definition py_setitem (v : json) (k : string) (x : json) : res json :=
  match v with
  | JObj fields => Ok (JObj (dict_set k x fields))
  | JArr _ => Raise (Exn TypeError "list indices must be integers or slices, not str")
  | _ => Raise (Exn TypeError
                  ("'" +:+ type_name v +:+ "' object does not support item assignment"))
  end.

(** ** The Python runtime the code calls into

    Library functions whose results the code only forwards: the text an
    f-string gives a value that is not a string, the JSON parser, and the
    message of pydantic's validation error. *)
Class PyRuntime : Type := {
  py_repr : json -> string;
  json_loads : string -> option json;
  json_error_str : string -> string;
  validation_error_str : json -> string
}.

(** [f"{v}"] *)
Definition py_format `{PyRuntime} (v : json) : string :=
  match v with
  | JStr s => s
  | _ => py_repr v
  end.

(** ** Connectors ([registry.py], class [Connector]) *)

(** A loaded connector: its name, the manifest read at construction and
    the [execute] method of its class. *)
Record Connector : Type := {
  connector_name : string;
  manifest : json;
  execute : string -> pydict json -> option (pydict json) -> res json
}.

(** [Connector.get_tools] *)
Definition get_tools (self : Connector) : res json :=
  py_get (manifest self) "tools" (JArr []).

Section Namespacing.
Context `{PyRuntime}.

(** The body of the loop of [get_namespaced_tools]. *)
Definition namespace_tool (name : string) (tool : json) : res json :=
  namespaced_tool ← py_copy tool;
  tool_name ← py_getitem tool "name";
  py_setitem namespaced_tool "name" (JStr (name +:+ "." +:+ py_format tool_name)).

Fixpoint namespaced_loop (name : string) (items tools : list json)
  : res (list json) :=
  match items with
  | [] => Ok tools
  | tool :: rest =>
      namespaced_tool ← namespace_tool name tool;
      namespaced_loop name rest (tools ++ [namespaced_tool])
  end.

(** [Connector.get_namespaced_tools] *)
Definition get_namespaced_tools (self : Connector) : res (list json) :=
  catalog ← get_tools self;
  items ← py_iter catalog;
  namespaced_loop (connector_name self) items [].
End Namespacing.

(** ** The registry ([registry.py], class [ConnectorRegistry]) *)

(** The inner loop of [get_connector_for_tool]:
    [for tool in ...: if tool['name'] == name: return connector]. *)
Fixpoint find_tool (items : list json) (name : string) : res bool :=
  match items with
  | [] => Ok false
  | tool :: rest =>
      n ← py_getitem tool "name";
      if json_eq_str n name then Ok true else find_tool rest name
  end.

(** Does [connector] list a tool called [name]? *)
Definition provides (connector : Connector) (name : string) : res bool :=
  catalog ← get_tools connector;
  items ← py_iter catalog;
  find_tool items name.

(** The loop of the bare-name branch over [self.connectors.values()]. *)
Fixpoint scan_connectors (cs : list Connector) (tool_name : string)
  : res (option Connector) :=
  match cs with
  | [] => Ok None
  | connector :: rest =>
      found ← provides connector tool_name;
      if found : bool then Ok (Some connector) else scan_connectors rest tool_name
  end.

(** [ConnectorRegistry.get_connector_for_tool] *)
Definition get_connector_for_tool (connectors : pydict Connector)
    (tool_name : string) : res (option Connector) :=
  if str_contains dot tool_name then
    match str_split_max dot tool_name 1 with
    | [connector_name; actual_tool_name] =>
        match dict_get connector_name connectors with
        | Some connector =>
            found ← provides connector actual_tool_name;
            Ok (if found : bool then Some connector else None)
        | None => Ok None
        end
    | _ => Raise (Exn ValueError "not enough values to unpack (expected 2, got 1)")
    end
  else scan_connectors (dict_values connectors) tool_name.

(** [ConnectorRegistry.get_all_tools] *)
Section AllTools.
Context `{PyRuntime}.

Fixpoint all_tools_loop (cs : list Connector) (all_tools : list json)
  : res (list json) :=
  match cs with
  | [] => Ok all_tools
  | connector :: rest =>
      namespaced ← get_namespaced_tools connector;
      catalog ← get_tools connector;
      items ← py_iter catalog;
      all_tools_loop rest ((all_tools ++ namespaced) ++ items)
  end.

Definition get_all_tools (connectors : pydict Connector) : res (list json) :=
  all_tools_loop (dict_values connectors) [].
End AllTools.

(** [ConnectorRegistry.list_connectors] *)
Definition list_connectors (connectors : pydict Connector) : list string :=
  dict_keys connectors.

(** [ConnectorRegistry.execute_tool] *)
Definition last_part (parts : list string) : string :=
  List.last parts EmptyString.

Definition execute_tool (connectors : pydict Connector) (tool_name : string)
    (parameters : pydict json) (auth_data : option (pydict json)) : res json :=
  found ← get_connector_for_tool connectors tool_name;
  match found with
  | None => Raise (Exn ValueError ("No connector found for tool: " +:+ tool_name))
  | Some connector =>
      let actual_tool_name :=
        if str_contains dot tool_name
        then last_part (str_split_max dot tool_name 1)
        else tool_name in
      execute connector actual_tool_name parameters auth_data
  end.

(** ** The connector source tree

    What the loader reads from disk, under the directory [connectors]
    next to [registry.py]. *)

(** A connector class found in an executed module.  The connector
    classes of the repository derive from [Connector] and their
    constructors call [Connector.__init__] and then assign one attribute;
    a class is therefore given by its [execute] method. *)
Record py_class : Type := {
  cls_execute : string -> pydict json -> option (pydict json) -> res json
}.

(** [connector.py]: whether [spec_from_file_location] yields a spec with
    a loader, and what executing the module gives, either an exception
    or the attributes of the module. *)
Record module_source : Type := {
  spec_available : bool;
  exec_module : res (pydict py_class)
}.

(** A directory [connectors/<name>]: the two files the loader looks for,
    each possibly absent. *)
Record connector_dir : Type := {
  connector_py : option module_source;
  manifest_json : option string
}.

Inductive fs_node : Type :=
  | File
  | Dir (d : connector_dir).

(** The entries of [connectors] in the order [iterdir] yields them, or
    [None] when the directory does not exist. *)
Record file_system : Type := {
  connectors_dir : option (pydict fs_node)
}.

Definition is_dir (n : fs_node) : bool :=
  match n with Dir _ => true | File => false end.

(** The directory at [connectors/<name>], if there is one. *)
Definition dir_at (fs : file_system) (name : string) : option connector_dir :=
  entries ← connectors_dir fs;
  node ← dict_get name entries;
  match node with Dir d => Some d | File => None end.

(** ** Loading

    The state the registry's methods change: [self.connectors] and the
    lines printed so far. *)
Record registry_state : Type := {
  connectors : pydict Connector;
  stdout : list string
}.

Definition print (line : string) (st : registry_state) : registry_state :=
  {| connectors := connectors st; stdout := stdout st ++ [line] |}.

Section Loading.
Context `{PyRuntime}.
Variable fs : file_system.

(** [Connector._load_manifest] *)
Definition _load_manifest (name : string) : res json :=
  match dir_at fs name ≫= manifest_json with
  | None =>
      Raise (Exn FileNotFoundError
               ("No manifest.json found for connector " +:+ name))
  | Some text =>
      match json_loads text with
      | Some v => Ok v
      | None => Raise (Exn JSONDecodeError (json_error_str text))
      end
  end.

(** [connector_class(connector_name)], through [Connector.__init__] *)
Definition instantiate (cls : py_class) (name : string) : res Connector :=
  m ← _load_manifest name;
  Ok {| connector_name := name; manifest := m; execute := cls_execute cls |}.

(** The class name the loader derives from the connector name. *)
Definition connector_class_name (name : string) : string :=
  str_join (map str_capitalize (str_split underscore name)) +:+ "Connector".

(** The part of [_load_connector] before the registry is touched. *)
Definition load_instance (name : string) : res Connector :=
  match dir_at fs name ≫= connector_py with
  | None => Raise (Exn FileNotFoundError ("No connector.py found for " +:+ name))
  | Some src =>
      if negb (spec_available src) then
        Raise (Exn ImportError ("Could not load connector module for " +:+ name))
      else
        module ← exec_module src;
        match dict_get (connector_class_name name) module with
        | None =>
            Raise (Exn AttributeError
                     ("No " +:+ connector_class_name name +:+ " class found in "
                      +:+ name))
        | Some connector_class => instantiate connector_class name
        end
  end.

(** [ConnectorRegistry._load_connector]: the exception, if any, and
    the state left behind. *)
Definition _load_connector (name : string) (st : registry_state)
  : res unit * registry_state :=
  match load_instance name with
  | Raise e => (Raise e, st)
  | Ok connector_instance =>
      (Ok tt,
       print ("Loaded connector: " +:+ name)
         {| connectors := dict_set name connector_instance (connectors st);
            stdout := stdout st |})
  end.

(** The body of the loop of [_load_connectors], with its [try]. *)
Definition load_candidate (st : registry_state) (entry : string * fs_node)
  : registry_state :=
  let '(name, node) := entry in
  if is_dir node && negb (str_startswith underscore name) then
    match _load_connector name st with
    | (Ok _, st') => st'
    | (Raise e, st') =>
        print ("Failed to load connector " +:+ name +:+ ": " +:+ exn_str e) st'
    end
  else st.

(** [ConnectorRegistry._load_connectors] *)
Definition _load_connectors (st : registry_state) : registry_state :=
  match connectors_dir fs with
  | None => st
  | Some entries => fold_left load_candidate entries st
  end.

(** [ConnectorRegistry.__init__] *)
Definition new_registry (out : list string) : registry_state :=
  _load_connectors {| connectors := []; stdout := out |}.

(** [ConnectorRegistry.reload_connector] *)
Definition reload_connector (name : string) (st : registry_state)
  : res unit * registry_state :=
  let st1 :=
    if dict_mem name (connectors st)
    then {| connectors := dict_del name (connectors st); stdout := stdout st |}
    else st in
  _load_connector name st1.
End Loading.

(** ** The credential store ([auth/store.py], class [AuthStore])

    Only the user table and the credential table take part in a tool
    call.  Time stamps are integers. *)

(** The value [store_connector_credentials] writes:
    [{"credentials": ..., "stored_at": ...}]. *)
Record cred_entry : Type := {
  credentials : pydict json;
  stored_at : Z
}.

Record AuthStore : Type := {
  users : gmap string (pydict json);
  connector_credentials : gmap string (gmap string cred_entry)
}.

(** [AuthStore.create_user]: the two fixed keys, then [**user_data]. *)
Definition create_user (user_id : string) (user_data : pydict json) (now : Z)
    (self : AuthStore) : AuthStore :=
  let record :=
    fold_left (fun d kv => dict_set (fst kv) (snd kv) d) user_data
      [("user_id", JStr user_id); ("created_at", JInt now)] in
  {| users := <[user_id := record]> (users self);
     connector_credentials := connector_credentials self |}.

(** [AuthStore.get_user] *)
Definition get_user (self : AuthStore) (user_id : string) : option (pydict json) :=
  users self !! user_id.

(** [AuthStore.store_connector_credentials] *)
Definition store_connector_credentials (user_id connector_name : string)
    (creds : pydict json) (now : Z) (self : AuthStore) : AuthStore :=
  let user_creds := default ∅ (connector_credentials self !! user_id) in
  {| users := users self;
     connector_credentials :=
       <[user_id := <[connector_name := {| credentials := creds; stored_at := now |}]>
                      user_creds]>
         (connector_credentials self) |}.

(** [AuthStore.get_connector_credentials].  The test [if cred_data]
    always passes: a stored entry is a dictionary with two keys. *)
Definition get_connector_credentials (self : AuthStore)
    (user_id connector_name : string) : option (pydict json) :=
  let user_creds := default ∅ (connector_credentials self !! user_id) in
  match user_creds !! connector_name with
  | Some cred_data => Some (credentials cred_data)
  | None => None
  end.

(** ** The call endpoint ([main.py], [call_tool]) *)

Record ToolCallRequest : Type := {
  tool_name : string;
  parameters : pydict json;
  user_id : option string
}.

Record ToolCallResponse : Type := {
  success : bool;
  result : pydict json;
  error : option string
}.

(** Truth value of a string and of a dictionary. *)
Definition str_truthy (s : string) : bool :=
  match s with EmptyString => false | _ => true end.

Definition dict_truthy {V} (d : pydict V) : bool :=
  match d with [] => false | _ => true end.

(** The connector name [call_tool] takes from the tool name:
    [tool_name.split('.')[0] if '.' in tool_name else None]. *)
Definition credential_connector (tool_name : string) : option string :=
  if str_contains dot tool_name
  then Some (hd EmptyString (str_split dot tool_name))
  else None.

(** The first statements of the [try] block: the credentials handed to
    the registry. *)
Definition call_auth_data (store : AuthStore) (request : ToolCallRequest)
    : option (pydict json) :=
  match user_id request with
  | Some uid =>
      if str_truthy uid then
        match get_user store uid with
        | Some user_data =>
            if dict_truthy user_data then
              match credential_connector (tool_name request) with
              | Some connector_name =>
                  if str_truthy connector_name
                  then get_connector_credentials store uid connector_name
                  else None
              | None => None
              end
            else None
        | None => None
        end
      else None
  | None => None
  end.

Section Facade.
Context `{PyRuntime}.

(** [ToolCallResponse(success=True, result=result)]: the model accepts
    a dictionary for [result] and rejects anything else. *)
Definition success_response (r : json) : res ToolCallResponse :=
  match r with
  | JObj d => Ok {| success := true; result := d; error := None |}
  | _ => Raise (Exn ValidationError (validation_error_str r))
  end.

(** The [try] block of [call_tool]. *)
Definition call_tool_body (registry : pydict Connector) (store : AuthStore)
    (request : ToolCallRequest) : res ToolCallResponse :=
  let auth_data := call_auth_data store request in
  r ← execute_tool registry (tool_name request) (parameters request) auth_data;
  success_response r.

(** [call_tool], with its two handlers. *)
Definition call_tool (registry : pydict Connector) (store : AuthStore)
    (request : ToolCallRequest) : ToolCallResponse :=
  match call_tool_body registry store request with
  | Ok response => response
  | Raise e =>
      if is_ValueError e then
        {| success := false; result := [];
           error := Some ("Tool not found: " +:+ exn_str e) |}
      else
        {| success := false; result := [];
           error := Some ("Tool execution failed: " +:+ exn_str e) |}
  end.
End Facade.

(** ** Vocabulary of the properties *)

(** The text before the first [.] and the text after it. *)
Fixpoint unit_part (s : string) : string :=
  match s with
  | EmptyString => EmptyString
  | String a r => if Ascii.eqb a dot then EmptyString else String a (unit_part r)
  end.

Fixpoint tool_part (s : string) : string :=
  match s with
  | EmptyString => EmptyString
  | String a r => if Ascii.eqb a dot then r else tool_part r
  end.

(** The tools a manifest lists, when it has the shape of the data
    model. *)
Definition catalog (c : Connector) : list json :=
  match manifest c with
  | JObj fields =>
      match dict_get "tools" fields with
      | Some (JArr items) => items
      | _ => []
      end
  | _ => []
  end.

(** A tool descriptor: an object with a [name]. *)
Definition tool_ok (t : json) : bool :=
  match t with
  | JObj d => dict_mem "name" d
  | _ => false
  end.

(** A manifest in the shape of the data model: an object whose [tools],
    when present, is a list of tool descriptors. *)
Definition catalog_ok (c : Connector) : bool :=
  match manifest c with
  | JObj fields =>
      match dict_get "tools" fields with
      | None => true
      | Some (JArr items) => forallb tool_ok items
      | Some _ => false
      end
  | _ => false
  end.

(** The descriptor [t] is named exactly [name]. *)
Definition named (name : string) (t : json) : bool :=
  match t with
  | JObj d =>
      match dict_get "name" d with
      | Some v => json_eq_str v name
      | None => false
      end
  | _ => false
  end.

(** The connector's own catalog has a tool named exactly [name]. *)
Definition declares (c : Connector) (name : string) : bool :=
  existsb (named name) (catalog c).

(** ** The connectors of the repository, for the examples

    [SlackConnector.execute] and [GoogleTasksConnector.execute] up to
    their private methods, which build sample data and are a parameter
    here. *)

Definition auth_missing (auth_data : option (pydict json)) : bool :=
  match auth_data with
  | None => true
  | Some d => negb (dict_truthy d) || negb (dict_mem "access_token" d)
  end.

Definition slack_execute
    (methods : string -> pydict json -> option (pydict json) -> res json)
    (tool_name : string) (parameters : pydict json)
    (auth_data : option (pydict json)) : res json :=
  if auth_missing auth_data then
    Ok (JObj [("error", JStr "OAuth token required for Slack API");
              ("auth_required", JBool true);
              ("auth_url", JStr "TODO: Implement OAuth2 flow");
              ("message", JStr "Please authenticate with Slack first")])
  else if String.eqb tool_name "send_message" then
    methods "_send_message" parameters auth_data
  else if String.eqb tool_name "list_channels" then
    methods "_list_channels" parameters auth_data
  else if String.eqb tool_name "get_user_info" then
    methods "_get_user_info" parameters auth_data
  else if String.eqb tool_name "set_status" then
    methods "_set_status" parameters auth_data
  else Ok (JObj [("error", JStr ("Unknown tool: " +:+ tool_name))]).

Definition google_tasks_execute
    (methods : string -> pydict json -> option (pydict json) -> res json)
    (tool_name : string) (parameters : pydict json)
    (auth_data : option (pydict json)) : res json :=
  if auth_missing auth_data then
    Ok (JObj [("error", JStr "OAuth token required for Google Tasks API");
              ("auth_required", JBool true);
              ("auth_url", JStr "TODO: Implement OAuth2 flow");
              ("message", JStr "Please authenticate with Google Tasks first")])
  else if String.eqb tool_name "list_task_lists" then
    methods "_list_task_lists" [] auth_data
  else if String.eqb tool_name "create_task_list" then
    methods "_create_task_list" parameters auth_data
  else if String.eqb tool_name "list_tasks" then
    methods "_list_tasks" parameters auth_data
  else if String.eqb tool_name "create_task" then
    methods "_create_task" parameters auth_data
  else if String.eqb tool_name "complete_task" then
    methods "_complete_task" parameters auth_data
  else Ok (JObj [("error", JStr ("Unknown tool: " +:+ tool_name))]).

(** Sample data standing for what the private methods return. *)
Definition sample_methods (method : string) (parameters : pydict json)
    (auth_data : option (pydict json)) : res json :=
  Ok (JObj [("ok", JBool true); ("method", JStr method)]).

(** A tool descriptor as a manifest writes it. *)
Definition descriptor (name description : string) : pydict json :=
  [("name", JStr name); ("description", JStr description);
   ("parameters", JObj [("type", JStr "object")])].

Definition manifest_of (tools : list (pydict json)) : json :=
  JObj [("info", JObj []); ("tools", JArr (map JObj tools))].

Definition slack_unit : Connector :=
  {| connector_name := "slack";
     manifest := manifest_of [descriptor "send_message" "Send a message";
                              descriptor "list_channels" "List channels"];
     execute := slack_execute sample_methods |}.

Definition google_tasks_unit : Connector :=
  {| connector_name := "google_tasks";
     manifest := manifest_of [descriptor "create_task" "Create a task";
                              descriptor "send_message" "Send a reminder"];
     execute := google_tasks_execute sample_methods |}.

(** Both units registered, [slack] first. *)
Definition two_units : pydict Connector :=
  [("slack", slack_unit); ("google_tasks", google_tasks_unit)].

(** A unit whose manifest names a tool with a [.] in it, registered
    after [slack]. *)
Definition dotted_unit : Connector :=
  {| connector_name := "files";
     manifest := manifest_of [descriptor "slack.upload" "Upload a file"];
     execute := slack_execute sample_methods |}.

Definition with_dotted_tool : pydict Connector :=
  [("slack", slack_unit); ("files", dotted_unit)].

(** The [name] entry of a descriptor. *)
Definition tool_name_of (t : json) : json :=
  match t with
  | JObj d => default JNull (dict_get "name" d)
  | _ => JNull
  end.

(** The descriptor [t] with its name put under the namespace
    [unit_name]. *)
Definition renamed `{PyRuntime} (unit_name : string) (t : json) : json :=
  match t with
  | JObj d =>
      JObj (dict_set "name"
              (JStr (unit_name +:+ "." +:+ py_format (tool_name_of t))) d)
  | _ => t
  end.

Definition namespaced_catalog `{PyRuntime} (c : Connector) : list json :=
  map (renamed (connector_name c)) (catalog c).

(** What one unit contributes to the aggregated catalog. *)
Definition unit_listing `{PyRuntime} (c : Connector) : list json :=
  namespaced_catalog c ++ catalog c.

(** Two dictionaries that differ at most in the value of [name]. *)
Definition same_but_name (d d' : pydict json) : Prop :=
  dict_keys d' = dict_keys d /\
  forall k, k <> "name" -> dict_get k d' = dict_get k d.

(** A runtime for the examples.  Its parser knows the documents listed;
    the examples format string names only, and [py_repr] is exact on
    [None], booleans and integers. *)
Definition runtime_of (documents : pydict json) : PyRuntime :=
  {| py_repr v :=
       match v with
       | JNull => "None"
       | JBool true => "True"
       | JBool false => "False"
       | JInt z => pretty z
       | _ => "<" +:+ type_name v +:+ ">"
       end;
     json_loads text := dict_get text documents;
     json_error_str text := "Expecting value: line 1 column 1 (char 0)";
     validation_error_str v :=
       "1 validation error for ToolCallResponse" |}.

(** The scenario of the specification: [slack] with [send_message] and
    [tasks] with [create_task]. *)
Definition scenario_slack : Connector :=
  {| connector_name := "slack";
     manifest := manifest_of [descriptor "send_message" "Send a message"];
     execute := slack_execute sample_methods |}.

Definition scenario_tasks : Connector :=
  {| connector_name := "tasks";
     manifest := manifest_of [descriptor "create_task" "Create a task"];
     execute := google_tasks_execute sample_methods |}.

Definition scenario : pydict Connector :=
  [("slack", scenario_slack); ("tasks", scenario_tasks)].

(** ** Tool descriptors as objects

    [get_namespaced_tools] copies each descriptor and assigns into the
    copy.  To see what the call leaves of the manifest the descriptors
    are objects in a store here: the catalog is a list of addresses, a
    copy is a fresh object, an assignment updates the object it is made
    on.  Values nested in a descriptor are shared by the shallow copy
    and never written to. *)

Abbreviation heap := (gmap nat json).

(** The object at an address; the catalog of a loaded manifest has no
    dangling address. *)
Definition h_read (h : heap) (l : nat) : json := default JNull (h !! l).

Definition res_map {A B} (f : A -> B) (r : res A) : res B :=
  match r with
  | Ok a => Ok (f a)
  | Raise e => Raise e
  end.

Section Objects.
Context `{PyRuntime}.

(** [tool.copy()] *)
Definition h_copy (l : nat) (h : heap) : res nat * heap :=
  match py_copy (h_read h l) with
  | Ok v => let l' := fresh (dom h) in (Ok l', <[l' := v]> h)
  | Raise e => (Raise e, h)
  end.

(** [obj[k] = x] *)
Definition h_setitem (l : nat) (k : string) (x : json) (h : heap)
  : res unit * heap :=
  match py_setitem (h_read h l) k x with
  | Ok v => (Ok tt, <[l := v]> h)
  | Raise e => (Raise e, h)
  end.

(** The body of the loop, on objects. *)
Definition h_namespace_tool (name : string) (tool : nat) (h : heap)
  : res nat * heap :=
  match h_copy tool h with
  | (Raise e, h1) => (Raise e, h1)
  | (Ok namespaced_tool, h1) =>
      match py_getitem (h_read h1 tool) "name" with
      | Raise e => (Raise e, h1)
      | Ok tool_name =>
          match h_setitem namespaced_tool "name"
                  (JStr (name +:+ "." +:+ py_format tool_name)) h1 with
          | (Raise e, h2) => (Raise e, h2)
          | (Ok _, h2) => (Ok namespaced_tool, h2)
          end
      end
  end.

Fixpoint h_namespaced_loop (name : string) (items tools : list nat) (h : heap)
  : res (list nat) * heap :=
  match items with
  | [] => (Ok tools, h)
  | tool :: rest =>
      match h_namespace_tool name tool h with
      | (Raise e, h1) => (Raise e, h1)
      | (Ok namespaced_tool, h1) =>
          h_namespaced_loop name rest (tools ++ [namespaced_tool]) h1
      end
  end.

(** [get_namespaced_tools] over the objects of a catalog. *)
Definition h_get_namespaced_tools (name : string) (catalog : list nat) (h : heap)
  : res (list nat) * heap :=
  h_namespaced_loop name catalog [] h.
End Objects.

(** The two descriptors of [slack_unit] as objects. *)
Definition slack_objects : heap :=
  <[1%nat := JObj (descriptor "list_channels" "List channels")]>
    (<[0%nat := JObj (descriptor "send_message" "Send a message")]> ∅).

(** The entries [_load_connectors] tries to load. *)
Definition candidate (entry : string * fs_node) : bool :=
  is_dir (snd entry) && negb (str_startswith underscore (fst entry)).

(** What holds of [self.connectors] at all times: it is a dictionary
    (no key twice) and every unit is registered under its own name. *)
Definition registry_ok (connectors : pydict Connector) : Prop :=
  NoDup (dict_keys connectors) /\
  forall k c, dict_get k connectors = Some c -> connector_name c = k.

(** ** A source tree for the examples *)

(** Text between double quotes. *)
Definition quoted (s : string) : string :=
  String (ascii_of_nat 34) (s +:+ String (ascii_of_nat 34) EmptyString).

(** [{"tools": [{<key>: <value>}]}] *)
Definition one_tool_text (key value : string) : string :=
  "{" +:+ quoted "tools" +:+ ": [{" +:+ quoted key +:+ ": " +:+ quoted value
  +:+ "}]}".

Definition one_tool_doc (key value : string) : json :=
  JObj [("tools", JArr [JObj [(key, JStr value)]])].

(** [{"info": {}}], a manifest without a [tools] list. *)
Definition no_tools_text : string := "{" +:+ quoted "info" +:+ ": {}}".
Definition no_tools_doc : json := JObj [("info", JObj [])].

(** The documents the example parser reads; any other text, such as
    ["{"], is not JSON to it. *)
Definition documents : pydict json :=
  [(one_tool_text "name" "send_message", one_tool_doc "name" "send_message");
   (one_tool_text "name" "create_task", one_tool_doc "name" "create_task");
   (one_tool_text "description" "no name here",
    one_tool_doc "description" "no name here");
   (no_tools_text, no_tools_doc)].

Definition example_runtime : PyRuntime := runtime_of documents.

(** A module defining one class. *)
Definition module_with (class_name : string)
    (exec : string -> pydict json -> option (pydict json) -> res json)
  : module_source :=
  {| spec_available := true;
     exec_module := Ok [(class_name, {| cls_execute := exec |})] |}.

Definition unit_dir (class_name : string) (manifest_text : option string)
  : fs_node :=
  Dir {| connector_py := Some (module_with class_name (slack_execute sample_methods));
         manifest_json := manifest_text |}.

(** Two units that load, around entries that are skipped or fail in
    each of the ways [_load_connector] can fail. *)
Definition example_tree : file_system :=
  {| connectors_dir := Some
       [("slack", unit_dir "SlackConnector"
                    (Some (one_tool_text "name" "send_message")));
        ("__pycache__", Dir {| connector_py := None; manifest_json := None |});
        ("README.md", File);
        ("no_module", Dir {| connector_py := None;
                             manifest_json := Some no_tools_text |});
        ("wrong_class", unit_dir "Helper" (Some no_tools_text));
        ("no_manifest", unit_dir "NoManifestConnector" None);
        ("bad_json", unit_dir "BadJsonConnector" (Some "{"));
        ("empty", unit_dir "EmptyConnector" (Some no_tools_text));
        ("nameless", unit_dir "NamelessConnector"
                       (Some (one_tool_text "description" "no name here")));
        ("google_tasks", unit_dir "GoogleTasksConnector"
                           (Some (one_tool_text "name" "create_task")))] |}.

(** A tree without the [connectors] directory. *)
Definition empty_tree : file_system := {| connectors_dir := None |}.

(** The tool name a unit is called with: the namespace taken off. *)
Definition bare_name (tool_name : string) : string :=
  if str_contains dot tool_name then tool_part tool_name else tool_name.

(** A credential store with one user, who has connected Google Tasks. *)
Definition empty_store : AuthStore :=
  {| users := ∅; connector_credentials := ∅ |}.

Definition alice_token : pydict json := [("access_token", JStr "ya29.token")].

Definition alice_store : AuthStore :=
  store_connector_credentials "alice" "google_tasks" alice_token 1700000000
    (create_user "alice" [("email", JStr "alice@example.com")] 1700000000
       empty_store).

(** A tree of two units that both declare [send_message]. *)
Definition twin_tree : file_system :=
  {| connectors_dir := Some
       [("slack", unit_dir "SlackConnector"
                    (Some (one_tool_text "name" "send_message")));
        ("google_tasks", unit_dir "GoogleTasksConnector"
                           (Some (one_tool_text "name" "send_message")))] |}.

(** The unit the loader makes of either directory of [twin_tree]. *)
Definition twin (name : string) : Connector :=
  {| connector_name := name;
     manifest := one_tool_doc "name" "send_message";
     execute := slack_execute sample_methods |}.

(** ** Vocabulary of the further properties *)

(** A candidate entry of the source tree that loads. *)
Definition loads `{PyRuntime} (fs : file_system) (entry : string * fs_node) : bool :=
  candidate entry && is_Ok (load_instance fs (fst entry)).

(** The response [call_tool] gives when no unit serves the name. *)
Definition not_found_response (tool_name : string) : ToolCallResponse :=
  {| success := false; result := [];
     error := Some ("Tool not found: No connector found for tool: " +:+ tool_name) |}.

(** ** The rest of the credential store ([auth/store.py]) *)

(** [AuthStore.delete_connector_credentials].  The user's dictionary is
    the one in the store, so the deletion shows there. *)
Definition delete_connector_credentials (user_id connector_name : string)
    (self : AuthStore) : bool * AuthStore :=
  let user_creds := default ∅ (connector_credentials self !! user_id) in
  match user_creds !! connector_name with
  | Some _ =>
      (true,
       {| users := users self;
          connector_credentials :=
            <[user_id := delete connector_name user_creds]>
              (connector_credentials self) |})
  | None => (false, self)
  end.

(** What a session record holds: plain data, or a [datetime], kept in
    microseconds. *)
Inductive pyval : Type :=
  | VJson (v : json)
  | VDatetime (t : Z).

(** [timedelta(hours=24)] *)
Definition one_day : Z := 86400000000.

(** [AuthStore.create_session].  [session_id] is the text of the fresh
    UUID; the clock is read twice, for [created_at] and for
    [expires_at]. *)
Definition create_session (user_id : string)
    (session_data : option (pydict pyval)) (session_id : string)
    (now_created now_expires : Z) (sessions : pydict (pydict pyval))
  : string * pydict (pydict pyval) :=
  let extra :=
    match session_data with
    | Some d => if dict_truthy d then d else []
    | None => []
    end in
  let record :=
    fold_left (fun d kv => dict_set (fst kv) (snd kv) d) extra
      [("session_id", VJson (JStr session_id));
       ("user_id", VJson (JStr user_id));
       ("created_at", VDatetime now_created);
       ("expires_at", VDatetime (now_expires + one_day))] in
  (session_id, dict_set session_id record sessions).

(** [session["expires_at"] < now] *)
Definition expires_before (session : pydict pyval) (now : Z) : res bool :=
  match dict_get "expires_at" session with
  | None => Raise (Exn KeyError "'expires_at'")
  | Some (VDatetime t) => Ok (t <? now)%Z
  | Some (VJson v) =>
      Raise (Exn TypeError
               ("'<' not supported between instances of '" +:+ type_name v
                +:+ "' and 'datetime.datetime'"))
  end.

(** [AuthStore.get_session]: the answer and the sessions left. *)
Definition get_session (session_id : string) (now : Z)
    (sessions : pydict (pydict pyval))
  : res (option (pydict pyval)) * pydict (pydict pyval) :=
  match dict_get session_id sessions with
  | None => (Ok None, sessions)
  | Some session =>
      if dict_truthy session then
        match expires_before session now with
        | Raise e => (Raise e, sessions)
        | Ok true => (Ok None, dict_del session_id sessions)
        | Ok false => (Ok (Some session), sessions)
        end
      else (Ok (Some session), sessions)
  end.

(** [AuthStore.invalidate_session] *)
Definition invalidate_session (session_id : string)
    (sessions : pydict (pydict pyval)) : bool * pydict (pydict pyval) :=
  if dict_mem session_id sessions
  then (true, dict_del session_id sessions)
  else (false, sessions).

(** The list comprehension of [cleanup_expired_sessions]. *)
Fixpoint expired_sessions (items : pydict (pydict pyval)) (now : Z)
  : res (list string) :=
  match items with
  | [] => Ok []
  | (session_id, session) :: rest =>
      expired ← expires_before session now;
      ids ← expired_sessions rest now;
      Ok (if expired : bool then session_id :: ids else ids)
  end.

(** [AuthStore.cleanup_expired_sessions] *)
Definition cleanup_expired_sessions (now : Z) (sessions : pydict (pydict pyval))
  : res nat * pydict (pydict pyval) :=
  match expired_sessions sessions now with
  | Raise e => (Raise e, sessions)
  | Ok ids =>
      (Ok (length ids), fold_left (fun ss session_id => dict_del session_id ss) ids sessions)
  end.

(** The dictionary [get_stats] returns. *)
Record store_stats : Type := {
  total_users : nat;
  active_sessions : nat;
  total_connector_credentials : nat
}.

(** [AuthStore.get_stats] *)
Definition get_stats (self : AuthStore) (sessions : pydict (pydict pyval))
  : store_stats :=
  {| total_users := size (users self);
     active_sessions := length sessions;
     total_connector_credentials :=
       map_fold (fun _ (user_creds : gmap string cred_entry) total =>
                   (size user_creds + total)%nat)
         0%nat (connector_credentials self) |}.

(** The whole store: the two tables, the sessions and the secret. *)
Record auth_state : Type := {
  tables : AuthStore;
  sessions : pydict (pydict pyval);
  shared_secret : string
}.

(** [AuthStore.__init__], given the value of [SHARED_SECRET] in the
    environment. *)
Definition AuthStore_init (env_secret : option string) : res auth_state :=
  match env_secret with
  | Some secret =>
      if str_truthy secret then
        Ok {| tables := empty_store; sessions := []; shared_secret := secret |}
      else Raise (Exn ValueError "SHARED_SECRET environment variable is required")
  | None => Raise (Exn ValueError "SHARED_SECRET environment variable is required")
  end.

(** [AuthStore.verify_shared_secret] *)
Definition verify_shared_secret (self : auth_state) (provided_secret : string) : bool :=
  String.eqb provided_secret (shared_secret self).

(** ** The other endpoints of [main.py] *)

(** What an endpoint gives: its response, or an [HTTPException]. *)
Inductive http (A : Type) : Type :=
  | Responds (a : A)
  | HTTPException (status_code : nat) (detail : string).
Arguments Responds {A} a.
Arguments HTTPException {A} status_code detail.

(** [verify_auth], the dependency of the [POST] endpoints. *)
Definition verify_auth (store : auth_state) (x_auth : option string) : http bool :=
  match x_auth with
  | None => HTTPException 401 "Missing X-Auth header"
  | Some header =>
      if negb (str_truthy header) then
        HTTPException 401 "Missing X-Auth header"
      else if negb (verify_shared_secret store header) then
        HTTPException 401 "Invalid authentication"
      else Responds true
  end.

(** A session record with a [datetime] under [expires_at], as
    [create_session] writes it. *)
Definition has_expiry (session : pydict pyval) : bool :=
  match dict_get "expires_at" session with
  | Some (VDatetime _) => true
  | _ => false
  end.

(** The session of this entry has expired at [now]. *)
Definition expired_at (now : Z) (entry : string * pydict pyval) : bool :=
  match dict_get "expires_at" (snd entry) with
  | Some (VDatetime t) => (t <? now)%Z
  | _ => false
  end.

Definition live_at (now : Z) (entry : string * pydict pyval) : bool :=
  negb (expired_at now entry).

(** The number of (user, unit) pairs with stored credentials. *)
Definition credential_count (self : AuthStore) : nat :=
  map_fold (fun _ (user_creds : gmap string cred_entry) total =>
              (size user_creds + total)%nat)
    0%nat (connector_credentials self).

(** [len(v)] *)
Definition py_len (v : json) : res nat :=
  match v with
  | JArr items => Ok (length items)
  | JStr s => Ok (String.length s)
  | JObj fields => Ok (length fields)
  | _ => Raise (Exn TypeError
                  ("object of type '" +:+ type_name v +:+ "' has no len()"))
  end.

(** The dictionaries among [values], if all of them are. *)
Fixpoint as_dicts (values : list json) : option (list (pydict json)) :=
  match values with
  | [] => Some []
  | JObj d :: rest => ds ← as_dicts rest; Some (d :: ds)
  | _ :: _ => None
  end.

Record HealthResponse : Type := {
  status : string;
  connectors_loaded : nat;
  total_tools : nat;
  auth_stats : store_stats
}.

Module ManifestResponse.
Record t : Type := {
  tools : list (pydict json);
  connectors : list string;
  supports_namespaced_calls : bool
}.
End ManifestResponse.

(** One entry of the answer of [/connectors]. *)
Module ConnectorInfo.
Record t : Type := {
  name : string;
  tools_count : nat;
  tools : list json;
  manifest : json
}.
End ConnectorInfo.

Section Endpoints.
Context `{PyRuntime}.

(** [health_check]: the answer and the sessions left by the cleanup it
    starts with. *)
Definition health_check (registry : pydict Connector) (store : AuthStore)
    (ss : pydict (pydict pyval)) (now : Z)
  : http HealthResponse * pydict (pydict pyval) :=
  match cleanup_expired_sessions now ss with
  | (Raise e, ss') =>
      (HTTPException 500 ("Health check failed: " +:+ exn_str e), ss')
  | (Ok _, ss') =>
      match get_all_tools registry with
      | Raise e =>
          (HTTPException 500 ("Health check failed: " +:+ exn_str e), ss')
      | Ok all_tools =>
          (Responds {| status := "healthy";
                       connectors_loaded := length (list_connectors registry);
                       total_tools := length all_tools;
                       auth_stats := get_stats store ss' |},
           ss')
      end
  end.

(** [get_tools_manifest].  The response model takes a list of
    dictionaries for [tools]. *)
Definition get_tools_manifest (registry : pydict Connector)
  : http ManifestResponse.t :=
  match get_all_tools registry with
  | Raise e => HTTPException 500 ("Failed to generate manifest: " +:+ exn_str e)
  | Ok all_tools =>
      match as_dicts all_tools with
      | Some dicts =>
          Responds {| ManifestResponse.tools := dicts;
                      ManifestResponse.connectors := list_connectors registry;
                      ManifestResponse.supports_namespaced_calls := true |}
      | None =>
          HTTPException 500
            ("Failed to generate manifest: "
             +:+ validation_error_str (JArr all_tools))
      end
  end.
End Endpoints.

(** [[tool["name"] for tool in tools]] *)
Fixpoint tool_names (items : list json) : res (list json) :=
  match items with
  | [] => Ok []
  | tool :: rest =>
      n ← py_getitem tool "name";
      names ← tool_names rest;
      Ok (n :: names)
  end.

(** The body of the loop of the endpoint [list_connectors] of
    [main.py]. *)
Definition connector_info (connector_name : string) (connector : Connector)
  : res ConnectorInfo.t :=
  tools ← get_tools connector;
  count ← py_len tools;
  items ← py_iter tools;
  names ← tool_names items;
  info ← py_get (manifest connector) "info" (JObj []);
  Ok {| ConnectorInfo.name := connector_name;
        ConnectorInfo.tools_count := count;
        ConnectorInfo.tools := names;
        ConnectorInfo.manifest := info |}.

Fixpoint connectors_info (names : list string) (registry : pydict Connector)
    (acc : list ConnectorInfo.t) : res (list ConnectorInfo.t) :=
  match names with
  | [] => Ok acc
  | connector_name :: rest =>
      match dict_get connector_name registry with
      | None => Raise (Exn KeyError ("'" +:+ connector_name +:+ "'"))
      | Some connector =>
          info ← connector_info connector_name connector;
          connectors_info rest registry (acc ++ [info])
      end
  end.

(** The endpoint [list_connectors] of [main.py]: the entries and
    [total_connectors]. *)
Definition list_connectors_endpoint (registry : pydict Connector)
  : res (list ConnectorInfo.t * nat) :=
  infos ← connectors_info (list_connectors registry) registry [];
  Ok (infos, length infos).

(** The endpoint [reload_connector] of [main.py]. *)
Definition reload_connector_endpoint `{PyRuntime} (fs : file_system)
    (connector_name : string) (st : registry_state)
  : http string * registry_state :=
  match reload_connector fs connector_name st with
  | (Ok _, st') =>
      (Responds ("Connector " +:+ connector_name +:+ " reloaded successfully"), st')
  | (Raise e, st') =>
      (HTTPException 500
         ("Failed to reload connector " +:+ connector_name +:+ ": " +:+ exn_str e),
       st')
  end.

(** The number of tools the registered units declare. *)
Definition declared_tools (registry : pydict Connector) : nat :=
  list_sum (map (fun c => length (catalog c)) (dict_values registry)).

Definition is_dict (v : json) : bool :=
  match v with JObj _ => true | _ => false end.

(** The [info] block of a manifest, or the empty dictionary. *)
Definition info_of (c : Connector) : json :=
  match manifest c with
  | JObj fields => default (JObj []) (dict_get "info" fields)
  | _ => JObj []
  end.

(** What [/connectors] says of a unit with a well-formed manifest. *)
Definition info_entry (entry : string * Connector) : ConnectorInfo.t :=
  {| ConnectorInfo.name := fst entry;
     ConnectorInfo.tools_count := length (catalog (snd entry));
     ConnectorInfo.tools := map tool_name_of (catalog (snd entry));
     ConnectorInfo.manifest := info_of (snd entry) |}.

(** ** Bearer tokens ([auth_utils.py]) *)

(** [bool(v)] *)
Definition py_truthy (v : json) : bool :=
  match v with
  | JNull => false
  | JBool b => b
  | JInt z => negb (z =? 0)%Z
  | JFloat m _ => negb (m =? 0)%Z
  | JStr s => str_truthy s
  | JArr items => match items with [] => false | _ => true end
  | JObj fields => dict_truthy fields
  end.

(** [s[n:]] *)
Fixpoint str_drop (n : nat) (s : string) : string :=
  match n, s with
  | O, _ => s
  | S n', String _ r => str_drop n' r
  | S _, EmptyString => EmptyString
  end.

(** The HTTP client: what [client.post(url, json=body)] gives, an
    exception or a status code with what [response.json()] would give. *)
Definition http_post : Type := string -> json -> res (nat * res json).

(** What a dependency gives: a value, an [HTTPException], or an
    exception that nothing handles. *)
Inductive outcome (A : Type) : Type :=
  | Returns (a : A)
  | Refuses (status_code : nat) (detail : string)
  | Crashes (e : exn).
Arguments Returns {A} a.
Arguments Refuses {A} status_code detail.
Arguments Crashes {A} e.

Section BearerTokens.
Variable post : http_post.
Variable auth_service_url : string.

(** [AuthService.validate_token]: the answer and the lines printed. *)
Definition validate_token (token : string) : option json * list string :=
  let failed (e : exn) := (None, ["Error validating token: " +:+ exn_str e]) in
  match post (auth_service_url +:+ "/api/validate-token")
          (JObj [("token", JStr token)]) with
  | Raise e => failed e
  | Ok (status_code, body) =>
      if (status_code =? 200)%nat then
        match body with
        | Raise e => failed e
        | Ok data =>
            match py_get data "valid" JNull with
            | Raise e => failed e
            | Ok valid => if py_truthy valid then (Some data, []) else (None, [])
            end
        end
      else (None, [])
  end.

(** [user_data["user"]] in the three dependencies *)
Definition user_of (user_data : json) : outcome json :=
  match py_getitem user_data "user" with
  | Ok user => Returns user
  | Raise e => Crashes e
  end.

(** [get_current_user] *)
Definition get_current_user (authorization : option string)
  : outcome json * list string :=
  match authorization with
  | None => (Refuses 401 "Missing Authorization header", [])
  | Some header =>
      if negb (str_truthy header) then
        (Refuses 401 "Missing Authorization header", [])
      else if negb (String.prefix "Bearer " header) then
        (Refuses 401
           "Invalid authorization header format. Expected: Bearer <token>", [])
      else
        let token := str_drop 7 header in
        match validate_token token with
        | (None, printed) => (Refuses 401 "Invalid or expired token", printed)
        | (Some user_data, printed) =>
            if negb (py_truthy user_data)
            then (Refuses 401 "Invalid or expired token", printed)
            else (user_of user_data, printed)
        end
  end.

(** [get_current_user_optional] *)
Definition get_current_user_optional (authorization : option string)
  : outcome (option json) * list string :=
  match authorization with
  | None => (Returns None, [])
  | Some header =>
      if negb (str_truthy header) || negb (String.prefix "Bearer " header) then
        (Returns None, [])
      else
        let token := str_drop 7 header in
        match validate_token token with
        | (None, printed) => (Returns None, printed)
        | (Some user_data, printed) =>
            if py_truthy user_data then
              (match user_of user_data with
               | Returns user => Returns (Some user)
               | Refuses status_code detail => Refuses status_code detail
               | Crashes e => Crashes e
               end, printed)
            else (Returns None, printed)
        end
  end.

(** How [verify_auth_flexible] says who got in. *)
Inductive credential : Type :=
  | AsUser (user : json)
  | AsSharedSecret.

(** The fall-back of [verify_auth_flexible] on the shared secret;
    [env_secret] is [os.environ.get("SHARED_SECRET")]. *)
Definition shared_secret_fallback (env_secret : option string)
    (x_auth : option string) : outcome credential :=
  let refused :=
    Refuses 401
      "Authentication required. Provide either X-Auth header with shared secret or Authorization header with Bearer token." in
  match x_auth with
  | Some header =>
      if str_truthy header then
        match env_secret with
        | Some shared_secret =>
            if str_truthy shared_secret && String.eqb header shared_secret
            then Returns AsSharedSecret
            else refused
        | None => refused
        end
      else refused
  | None => refused
  end.

(** [verify_auth_flexible] *)
Definition verify_auth_flexible (env_secret : option string)
    (x_auth authorization : option string) : outcome credential * list string :=
  match authorization with
  | Some header =>
      if str_truthy header && String.prefix "Bearer " header then
        let token := str_drop 7 header in
        match validate_token token with
        | (Some user_data, printed) =>
            if py_truthy user_data then
              (match user_of user_data with
               | Returns user => Returns (AsUser user)
               | Refuses status_code detail => Refuses status_code detail
               | Crashes e => Crashes e
               end, printed)
            else (shared_secret_fallback env_secret x_auth, printed)
        | (None, printed) => (shared_secret_fallback env_secret x_auth, printed)
        end
      else (shared_secret_fallback env_secret x_auth, [])
  | None => (shared_secret_fallback env_secret x_auth, [])
  end.
End BearerTokens.

(** ** More for the examples *)

(** [GoogleCalendarConnector.execute], like the other two up to its
    private methods. *)
Definition google_calendar_execute
    (methods : string -> pydict json -> option (pydict json) -> res json)
    (tool_name : string) (parameters : pydict json)
    (auth_data : option (pydict json)) : res json :=
  if auth_missing auth_data then
    Ok (JObj [("error", JStr "OAuth token required for Google Calendar API");
              ("auth_required", JBool true);
              ("auth_url", JStr "TODO: Implement OAuth2 flow");
              ("message", JStr "Please authenticate with Google Calendar first")])
  else if String.eqb tool_name "list_calendars" then
    methods "_list_calendars" [] auth_data
  else if String.eqb tool_name "create_event" then
    methods "_create_event" parameters auth_data
  else if String.eqb tool_name "list_events" then
    methods "_list_events" parameters auth_data
  else Ok (JObj [("error", JStr ("Unknown tool: " +:+ tool_name))]).

(** The map the three connectors return to a call without a token. *)
Definition auth_required (service : string) : pydict json :=
  [("error", JStr ("OAuth token required for " +:+ service +:+ " API"));
   ("auth_required", JBool true);
   ("auth_url", JStr "TODO: Implement OAuth2 flow");
   ("message", JStr ("Please authenticate with " +:+ service +:+ " first"))].

(** An authentication service that knows one token: it answers as
    [validate_api_token] of [auth_service/routes.py] does. *)
Definition one_token_service (known_token : string) (user : json) : http_post :=
  fun url body =>
    match body with
    | JObj [("token", JStr token)] =>
        if negb (str_truthy token) then
          Ok (400%nat, Ok (JObj [("valid", JBool false);
                                 ("error", JStr "No token provided")]))
        else if String.eqb token known_token then
          Ok (200%nat, Ok (JObj [("valid", JBool true); ("user", user)]))
        else
          Ok (401%nat, Ok (JObj [("valid", JBool false);
                                 ("error", JStr "Invalid token")]))
    | _ => Ok (400%nat, Ok (JObj [("valid", JBool false)]))
    end.

(** Every character of [s] is ASCII. *)
Fixpoint str_ascii (s : string) : bool :=
  match s with
  | EmptyString => true
  | String a r => (nat_of_ascii a <? 128)%nat && str_ascii r
  end.

(** * Properties *)

(** ** Splitting a tool name at its first separator *)

Lemma str_split_max_0 sep s : str_split_max sep s 0 = [s].
Proof. destruct s; reflexivity. Qed.

Lemma str_split_max_1 s :
  str_contains dot s = true ->
  str_split_max dot s 1 = [unit_part s; tool_part s].
Proof.
  induction s as [|a r IH]; simpl; [discriminate|].
  destruct (Ascii.eqb a dot) eqn:E.
  - intros _. now rewrite str_split_max_0.
  - intros Hc. rewrite (IH Hc). reflexivity.
Qed.

Lemma str_split_hd s : hd EmptyString (str_split dot s) = unit_part s.
Proof.
  induction s as [|a r IH]; simpl; [reflexivity|].
  destruct (Ascii.eqb a dot); [reflexivity|].
  destruct (str_split dot r) as [|p ps] eqn:E; simpl in *.
  - destruct r; simpl in E; [discriminate|].
    destruct (Ascii.eqb _ dot); [discriminate|].
    destruct (str_split dot r); discriminate.
  - now rewrite IH.
Qed.

Lemma unit_part_no_dot s : str_contains dot (unit_part s) = false.
Proof.
  induction s as [|a r IH]; simpl; [reflexivity|].
  destruct (Ascii.eqb a dot) eqn:E; simpl; [reflexivity|].
  now rewrite E.
Qed.

Lemma split_join s :
  str_contains dot s = true ->
  s = unit_part s +:+ String dot (tool_part s).
Proof.
  induction s as [|a r IH]; simpl; [discriminate|].
  destruct (Ascii.eqb a dot) eqn:E.
  - intros _. apply Ascii.eqb_eq in E. now subst a.
  - intros Hc. change (String a r = String a (unit_part r +:+ String dot (tool_part r))).
    f_equal. now apply IH.
Qed.

Lemma split_unique p q :
  str_contains dot p = false ->
  unit_part (p +:+ String dot q) = p /\ tool_part (p +:+ String dot q) = q.
Proof.
  induction p as [|a r IH]; simpl.
  - intros _. split; reflexivity.
  - destruct (Ascii.eqb a dot) eqn:E; [discriminate|].
    intros Hc. destruct (IH Hc) as [-> ->]. split; reflexivity.
Qed.

Lemma join_contains p q : str_contains dot (p +:+ String dot q) = true.
Proof.
  induction p as [|a r IH]; simpl.
  - reflexivity.
  - destruct (Ascii.eqb a dot); [reflexivity|exact IH].
Qed.

(** ** Dictionaries *)

Section PyDictFacts.
Context {V : Type}.
Implicit Types (d : pydict V) (k : string) (v : V).

Lemma dict_get_set_eq k v d : dict_get k (dict_set k v d) = Some v.
Proof.
  induction d as [|[k' v'] r IH]; simpl.
  - now rewrite String.eqb_refl.
  - destruct (String.eqb k' k) eqn:E; simpl.
    + now rewrite String.eqb_refl.
    + now rewrite E.
Qed.

Lemma dict_get_set_ne k k' v d :
  k <> k' -> dict_get k' (dict_set k v d) = dict_get k' d.
Proof.
  intros Hne. induction d as [|[k0 v0] r IH]; simpl.
  - destruct (String.eqb_spec k k'); [contradiction|reflexivity].
  - destruct (String.eqb_spec k0 k) as [->|Hk]; simpl.
    + destruct (String.eqb_spec k k'); [contradiction|reflexivity].
    + destruct (String.eqb k0 k'); [reflexivity|exact IH].
Qed.

Lemma dict_get_del_ne k k' d :
  k <> k' -> dict_get k' (dict_del k d) = dict_get k' d.
Proof.
  intros Hne. induction d as [|[k0 v0] r IH]; simpl; [reflexivity|].
  destruct (String.eqb_spec k0 k) as [->|Hk]; simpl.
  - destruct (String.eqb_spec k k'); [contradiction|reflexivity].
  - destruct (String.eqb k0 k'); [reflexivity|exact IH].
Qed.

(** With a present key, assignment changes no key and no position. *)
Lemma dict_keys_set_present k v d :
  dict_mem k d = true -> dict_keys (dict_set k v d) = dict_keys d.
Proof.
  unfold dict_mem, dict_keys.
  induction d as [|[k0 v0] r IH]; simpl; [discriminate|].
  destruct (String.eqb_spec k0 k) as [->|Hk]; simpl; [reflexivity|].
  intros Hm. f_equal. now apply IH.
Qed.
End PyDictFacts.

(** ** Reading a well-formed catalog *)

Lemma get_tools_ok c :
  catalog_ok c = true -> get_tools c = Ok (JArr (catalog c)).
Proof.
  unfold catalog_ok, get_tools, catalog, py_get.
  destruct (manifest c) as [| | | | | |fields]; try discriminate.
  destruct (dict_get "tools" fields) as [[| | | | |items|]|]; try discriminate;
    reflexivity.
Qed.

Lemma catalog_ok_tools c :
  catalog_ok c = true -> forallb tool_ok (catalog c) = true.
Proof.
  unfold catalog_ok, catalog.
  destruct (manifest c) as [| | | | | |fields]; try discriminate.
  destruct (dict_get "tools" fields) as [[| | | | |items|]|]; try discriminate;
    auto.
Qed.

Lemma find_tool_ok items name :
  forallb tool_ok items = true ->
  find_tool items name = Ok (existsb (named name) items).
Proof.
  induction items as [|t rest IH]; simpl; [reflexivity|].
  intros Hok. apply andb_prop in Hok as [Ht Hrest].
  destruct t as [| | | | | |d]; try discriminate.
  unfold tool_ok, dict_mem in Ht. simpl.
  destruct (dict_get "name" d) as [v|]; [|discriminate]. simpl.
  destruct (json_eq_str v name); [reflexivity|]. now apply IH.
Qed.

Lemma provides_ok c name :
  catalog_ok c = true -> provides c name = Ok (declares c name).
Proof.
  intros Hok. unfold provides, declares.
  rewrite (get_tools_ok _ Hok). simpl.
  apply find_tool_ok. now apply catalog_ok_tools.
Qed.

Lemma scan_connectors_ok cs name :
  Forall (fun c => catalog_ok c = true) cs ->
  scan_connectors cs name = Ok (List.find (fun c => declares c name) cs).
Proof.
  induction 1 as [|c rest Hc _ IH]; simpl; [reflexivity|].
  rewrite (provides_ok _ _ Hc). simpl.
  destruct (declares c name); [reflexivity|exact IH].
Qed.

(** The namespaced branch looks at one registry entry only. *)
Lemma resolve_dotted connectors tool_name :
  str_contains dot tool_name = true ->
  get_connector_for_tool connectors tool_name =
  match dict_get (unit_part tool_name) connectors with
  | Some connector =>
      found ← provides connector (tool_part tool_name);
      Ok (if found : bool then Some connector else None)
  | None => Ok None
  end.
Proof.
  intros Hdot. unfold get_connector_for_tool.
  rewrite Hdot, (str_split_max_1 _ Hdot). reflexivity.
Qed.

Lemma find_first {A} (f : A -> bool) (l : list A) (x : A) :
  List.find f l = Some x <->
  exists before after,
    l = before ++ x :: after /\ f x = true /\
    forall y, In y before -> f y = false.
Proof.
  induction l as [|a r IH]; simpl.
  - split; [discriminate|]. intros (b & t & Heq & _). now destruct b.
  - destruct (f a) eqn:Fa.
    + split.
      * intros [= ->]. exists [], r. repeat split; auto. intros y [].
      * intros ([|b0 b] & t & Heq & Hx & Hb); simpl in Heq; injection Heq as -> ->.
        -- reflexivity.
        -- specialize (Hb _ (or_introl eq_refl)). congruence.
    + rewrite IH. split.
      * intros (b & t & -> & Hx & Hb). exists (a :: b), t.
        repeat split; auto. intros y [<-|Hy]; auto.
      * intros ([|b0 b] & t & Heq & Hx & Hb); simpl in Heq; injection Heq as -> ->.
        -- congruence.
        -- exists b, t. repeat split; auto. intros y Hy. apply Hb. now right.
Qed.

Lemma find_none_all {A} (f : A -> bool) (l : list A) :
  (forall y, In y l -> f y = false) -> List.find f l = None.
Proof.
  induction l as [|a r IH]; simpl; [reflexivity|].
  intros Hall. rewrite (Hall a) by now left. apply IH. intros y Hy.
  apply Hall. now right.
Qed.

(** ** Name resolution *)

(** C1.  A tool name with a [.] is split at the first [.] into a unit
    name and a bare name; when the entry registered under the unit name
    has a well-formed catalog, [get_connector_for_tool] returns a unit
    exactly when it is the one registered under the unit name and its own
    catalog has a tool named exactly the bare name, and returns nothing in
    every other case. *)
Theorem resolve_namespaced (connectors : pydict Connector) (tool_name : string) :
  str_contains dot tool_name = true ->
  (forall c, dict_get (unit_part tool_name) connectors = Some c ->
             catalog_ok c = true) ->
  tool_name = unit_part tool_name +:+ "." +:+ tool_part tool_name /\
  str_contains dot (unit_part tool_name) = false /\
  (forall u,
      get_connector_for_tool connectors tool_name = Ok (Some u) <->
      dict_get (unit_part tool_name) connectors = Some u /\
      declares u (tool_part tool_name) = true) /\
  ((forall u, ~ (dict_get (unit_part tool_name) connectors = Some u /\
                 declares u (tool_part tool_name) = true)) ->
   get_connector_for_tool connectors tool_name = Ok None).
Proof.
  intros Hdot Hok.
  split; [exact (split_join _ Hdot)|].
  split; [apply unit_part_no_dot|].
  rewrite (resolve_dotted _ _ Hdot).
  destruct (dict_get (unit_part tool_name) connectors) as [c|] eqn:Hget.
  - rewrite (provides_ok _ _ (Hok c eq_refl)). simpl.
    destruct (declares c (tool_part tool_name)) eqn:Hd; split.
    + intros u. split.
      * intros [= <-]. now split.
      * intros [[= <-] _]. reflexivity.
    + intros Hnone. exfalso. apply (Hnone c). now split.
    + intros u. split; [discriminate|].
      intros [[= <-] Hu]. congruence.
    + reflexivity.
  - split.
    + intros u. split; [discriminate|]. intros [Hu _]. discriminate.
    + reflexivity.
Qed.

Lemma resolve_namespaced_witness :
  get_connector_for_tool two_units "google_tasks.send_message"
  = Ok (Some google_tasks_unit).
Proof.
  apply (resolve_namespaced two_units "google_tasks.send_message").
  - reflexivity.
  - intros c [= <-]. reflexivity.
  - split; reflexivity.
Defined.

(** C2.  A tool name without a [.] is looked for in the registered
    units in registration order: over well-formed catalogs,
    [get_connector_for_tool] returns the first unit whose catalog has a
    tool of that exact name, so of two units declaring the name the one
    registered first is returned, and it returns nothing when no
    registered unit declares the name. *)
Theorem resolve_bare (connectors : pydict Connector) (tool_name : string) :
  str_contains dot tool_name = false ->
  Forall (fun c => catalog_ok c = true) (dict_values connectors) ->
  get_connector_for_tool connectors tool_name
  = Ok (List.find (fun c => declares c tool_name) (dict_values connectors)) /\
  (forall u,
      get_connector_for_tool connectors tool_name = Ok (Some u) <->
      exists before after,
        dict_values connectors = before ++ u :: after /\
        declares u tool_name = true /\
        forall c, In c before -> declares c tool_name = false) /\
  ((forall c, In c (dict_values connectors) -> declares c tool_name = false) ->
   get_connector_for_tool connectors tool_name = Ok None).
Proof.
  intros Hdot Hok.
  assert (Heq : get_connector_for_tool connectors tool_name
                = Ok (List.find (fun c => declares c tool_name)
                        (dict_values connectors))).
  { unfold get_connector_for_tool. rewrite Hdot.
    now apply scan_connectors_ok. }
  rewrite Heq. split; [reflexivity|]. split.
  - intros u. split.
    + intros [= Hf]. now apply find_first in Hf.
    + intros Hex. f_equal. now apply find_first.
  - intros Hnone. f_equal. now apply find_none_all.
Qed.

Lemma resolve_bare_witness :
  get_connector_for_tool two_units "send_message" = Ok (Some slack_unit).
Proof.
  apply (resolve_bare two_units "send_message").
  - reflexivity.
  - repeat constructor.
  - exists [], [google_tasks_unit]. repeat split. intros c [].
Defined.

(** C10.  For a tool name with a [.] only the namespaced reading is
    tried: the result depends on the registry through the entry under
    the prefix alone, a unit is returned only if it is that entry, and a
    registered tool whose own name contains a [.] does not resolve by
    that name when the prefix is not a registered unit declaring the
    suffix. *)
Theorem dotted_name_never_scanned (connectors : pydict Connector)
    (tool_name : string) :
  str_contains dot tool_name = true ->
  (forall connectors' : pydict Connector,
      dict_get (unit_part tool_name) connectors'
      = dict_get (unit_part tool_name) connectors ->
      get_connector_for_tool connectors' tool_name
      = get_connector_for_tool connectors tool_name) /\
  (forall u,
      get_connector_for_tool connectors tool_name = Ok (Some u) ->
      dict_get (unit_part tool_name) connectors = Some u) /\
  (forall owner,
      In owner (dict_values connectors) ->
      declares owner tool_name = true ->
      (forall c, dict_get (unit_part tool_name) connectors = Some c ->
                 catalog_ok c = true /\
                 declares c (tool_part tool_name) = false) ->
      get_connector_for_tool connectors tool_name = Ok None).
Proof.
  intros Hdot. split; [|split].
  - intros connectors' Hsame.
    rewrite !(resolve_dotted _ _ Hdot), Hsame. reflexivity.
  - intros u. rewrite (resolve_dotted _ _ Hdot).
    destruct (dict_get (unit_part tool_name) connectors) as [c|];
      [|discriminate].
    destruct (provides c (tool_part tool_name)) as [[|]|e]; simpl;
      try discriminate.
    now intros [= <-].
  - intros owner _ _ Hprefix. rewrite (resolve_dotted _ _ Hdot).
    destruct (dict_get (unit_part tool_name) connectors) as [c|];
      [|reflexivity].
    destruct (Hprefix c eq_refl) as [Hok Hno].
    rewrite (provides_ok _ _ Hok), Hno. reflexivity.
Qed.

Lemma dotted_name_never_scanned_witness :
  declares dotted_unit "slack.upload" = true /\
  get_connector_for_tool with_dotted_tool "slack.upload" = Ok None.
Proof.
  split; [reflexivity|].
  apply (dotted_name_never_scanned with_dotted_tool "slack.upload" eq_refl)
    with (owner := dotted_unit).
  - right. left. reflexivity.
  - reflexivity.
  - intros c [= <-]. split; reflexivity.
Defined.

(** ** The namespaced catalog and the aggregated catalog *)

Section CatalogFacts.
Context `{PyRuntime}.

Lemma namespace_tool_ok name t :
  tool_ok t = true -> namespace_tool name t = Ok (renamed name t).
Proof.
  destruct t as [| | | | | |d]; try discriminate.
  unfold tool_ok, dict_mem, namespace_tool, renamed, tool_name_of. simpl.
  destruct (dict_get "name" d) as [n|]; [|discriminate]. reflexivity.
Qed.

Lemma namespaced_loop_ok name items tools :
  forallb tool_ok items = true ->
  namespaced_loop name items tools = Ok (tools ++ map (renamed name) items).
Proof.
  revert tools. induction items as [|t rest IH]; intros tools; simpl.
  - intros _. now rewrite app_nil_r.
  - intros Hok. apply andb_prop in Hok as [Ht Hrest].
    rewrite (namespace_tool_ok _ _ Ht). simpl.
    rewrite (IH _ Hrest), <- app_assoc. reflexivity.
Qed.

Lemma get_namespaced_tools_ok c :
  catalog_ok c = true -> get_namespaced_tools c = Ok (namespaced_catalog c).
Proof.
  intros Hok. unfold get_namespaced_tools.
  rewrite (get_tools_ok _ Hok). simpl.
  now rewrite (namespaced_loop_ok _ _ _ (catalog_ok_tools _ Hok)).
Qed.

Lemma all_tools_loop_ok cs all_tools :
  Forall (fun c => catalog_ok c = true) cs ->
  all_tools_loop cs all_tools = Ok (all_tools ++ flat_map unit_listing cs).
Proof.
  intros Hok. revert all_tools.
  induction Hok as [|c rest Hc _ IH]; intros all_tools; simpl.
  - now rewrite app_nil_r.
  - rewrite (get_namespaced_tools_ok _ Hc), (get_tools_ok _ Hc). simpl.
    rewrite IH. unfold unit_listing. now rewrite <- !app_assoc.
Qed.

Lemma renamed_same_but_name name d :
  dict_mem "name" d = true ->
  exists d', renamed name (JObj d) = JObj d' /\
    dict_get "name" d'
    = Some (JStr (name +:+ "." +:+ py_format (tool_name_of (JObj d)))) /\
    same_but_name d d'.
Proof.
  intros Hm. eexists. split; [reflexivity|]. split.
  - apply dict_get_set_eq.
  - split.
    + now apply dict_keys_set_present.
    + intros k Hk. apply dict_get_set_ne. congruence.
Qed.

End CatalogFacts.

(** C6.  [get_all_tools] goes through the registered units in
    registration order and appends, for each, first its namespaced
    catalog and then its own catalog; with [slack] declaring
    [send_message] and [tasks] declaring [create_task], registered in
    that order, the four descriptors are named [slack.send_message],
    [send_message], [tasks.create_task] and [create_task]. *)
Theorem get_all_tools_order `{PyRuntime} (connectors : pydict Connector) :
  Forall (fun c => catalog_ok c = true) (dict_values connectors) ->
  get_all_tools connectors
  = Ok (flat_map (fun c => namespaced_catalog c ++ catalog c)
          (dict_values connectors)) /\
  (forall slack tasks send create,
      connectors = [("slack", slack); ("tasks", tasks)] ->
      connector_name slack = "slack" ->
      connector_name tasks = "tasks" ->
      catalog slack = [JObj send] ->
      catalog tasks = [JObj create] ->
      dict_get "name" send = Some (JStr "send_message") ->
      dict_get "name" create = Some (JStr "create_task") ->
      exists tools,
        get_all_tools connectors = Ok tools /\
        map tool_name_of tools
        = [JStr "slack.send_message"; JStr "send_message";
           JStr "tasks.create_task"; JStr "create_task"]).
Proof.
  intros Hok.
  assert (Hall : get_all_tools connectors
                 = Ok (flat_map unit_listing (dict_values connectors))).
  { unfold get_all_tools. now rewrite all_tools_loop_ok. }
  split; [exact Hall|].
  intros slack tasks send create -> Hs Ht Hcs Hct Hsend Hcreate.
  eexists. split; [exact Hall|].
  simpl. unfold unit_listing, namespaced_catalog.
  rewrite Hs, Ht, Hcs, Hct. simpl.
  rewrite !dict_get_set_eq, Hsend, Hcreate. reflexivity.
Qed.

Lemma get_all_tools_order_witness :
  @get_all_tools (runtime_of []) scenario
  = Ok [JObj (descriptor "slack.send_message" "Send a message");
        JObj (descriptor "send_message" "Send a message");
        JObj (descriptor "tasks.create_task" "Create a task");
        JObj (descriptor "create_task" "Create a task")] /\
  exists tools,
    @get_all_tools (runtime_of []) scenario = Ok tools /\
    map tool_name_of tools
    = [JStr "slack.send_message"; JStr "send_message";
       JStr "tasks.create_task"; JStr "create_task"].
Proof.
  assert (Hok : Forall (fun c => catalog_ok c = true) (dict_values scenario))
    by (repeat constructor).
  split.
  - exact (proj1 (@get_all_tools_order (runtime_of []) scenario Hok)).
  - apply (proj2 (@get_all_tools_order (runtime_of []) scenario Hok)
             scenario_slack scenario_tasks
             (descriptor "send_message" "Send a message")
             (descriptor "create_task" "Create a task"));
      reflexivity.
Defined.

(** ** The namespaced catalog on objects *)

Section ObjectFacts.
Context `{PyRuntime}.

(** One iteration leaves every object that existed unchanged, and its
    result, read from the store, is what [namespace_tool] computes from
    the descriptor. *)
Lemma h_namespace_tool_step name tool (h : heap) :
  let '(r, h1) := h_namespace_tool name tool h in
  (forall l, is_Some (h !! l) -> h1 !! l = h !! l) /\
  res_map (h_read h1) r = namespace_tool name (h_read h tool) /\
  (forall l', r = Ok l' -> h !! l' = None /\ is_Some (h1 !! l')).
Proof.
  unfold h_namespace_tool, h_copy, namespace_tool.
  destruct (py_copy (h_read h tool)) as [v|e] eqn:Hcopy; simpl;
    [|split; [auto|split; [reflexivity|discriminate]]].
  set (l' := fresh (dom h)).
  assert (Hfresh : h !! l' = None).
  { apply not_elem_of_dom. apply is_fresh. }
  assert (Hframe : forall l, is_Some (h !! l) -> <[l' := v]> h !! l = h !! l).
  { intros l [x Hx]. rewrite lookup_insert_ne; [reflexivity|]. congruence. }
  assert (Htool : h_read (<[l' := v]> h) tool = h_read h tool).
  { unfold h_read. destruct (h !! tool) as [x|] eqn:Hx.
    - rewrite Hframe, Hx; eauto.
    - destruct (decide (l' = tool)) as [->|Hne].
      + unfold h_read in Hcopy. rewrite Hx in Hcopy. discriminate.
      + now rewrite lookup_insert_ne, Hx. }
  rewrite Htool.
  destruct (py_getitem (h_read h tool) "name") as [n|e] eqn:Hname; simpl;
    [|split; [auto|split; [reflexivity|discriminate]]].
  unfold h_setitem, h_read at 1. rewrite lookup_insert_eq. simpl.
  destruct (py_setitem v "name" _) as [v'|e] eqn:Hset; simpl;
    [|split; [auto|split; [reflexivity|discriminate]]].
  split; [|split].
  - intros l Hl. rewrite lookup_insert_ne; [now apply Hframe|].
    destruct Hl as [x Hx]. congruence.
  - unfold h_read. now rewrite lookup_insert_eq.
  - intros ? [= <-]. split; [exact Hfresh|].
    rewrite lookup_insert_eq. eauto.
Qed.

Lemma h_namespaced_loop_spec name items : forall tools (h : heap),
  Forall (fun l => is_Some (h !! l)) items ->
  Forall (fun l => is_Some (h !! l)) tools ->
  let '(r, h') := h_namespaced_loop name items tools h in
  (forall l, is_Some (h !! l) -> h' !! l = h !! l) /\
  res_map (map (h_read h')) r
  = namespaced_loop name (map (h_read h) items) (map (h_read h) tools) /\
  (forall out, r = Ok out ->
     exists new, out = tools ++ new /\ length new = length items /\
       Forall (fun l => h !! l = None) new).
Proof.
  induction items as [|tool rest IH]; intros tools h Hitems Htools; simpl.
  - split; [auto|]. split; [reflexivity|].
    intros out [= <-]. exists []. rewrite app_nil_r. auto.
  - pose proof (h_namespace_tool_step name tool h) as Hstep.
    destruct (h_namespace_tool name tool h) as [[nt|e] h1].
    + destruct Hstep as (Hframe & Hsim & Hnew).
      destruct (Hnew nt eq_refl) as [Hnone Hsome].
      simpl in Hsim. rewrite <- Hsim. simpl.
      assert (Hkeep : forall l, is_Some (h !! l) -> is_Some (h1 !! l)).
      { intros l Hl. now rewrite Hframe. }
      assert (Hrd : forall ls, Forall (fun l => is_Some (h !! l)) ls ->
                               map (h_read h1) ls = map (h_read h) ls).
      { intros ls Hls. apply map_ext_Forall. eapply Forall_impl; [exact Hls|].
        intros l Hl. simpl. unfold h_read. now rewrite Hframe. }
      inversion Hitems as [|? ? Htool Hrest]; subst.
      specialize (IH (tools ++ [nt]) h1).
      destruct (h_namespaced_loop name rest (tools ++ [nt]) h1) as [r h'].
      destruct IH as (Hframe' & Hsim' & Hnew').
      * eapply Forall_impl; [exact Hrest|]. auto.
      * apply Forall_app. split; [eapply Forall_impl; [exact Htools|]; auto|].
        constructor; [exact Hsome|constructor].
      * split; [|split].
        -- intros l Hl. rewrite Hframe' by auto. now apply Hframe.
        -- rewrite Hsim', map_app, (Hrd rest Hrest), (Hrd tools Htools).
           reflexivity.
        -- intros out Hout. destruct (Hnew' out Hout) as (new & -> & Hlen & Hn).
           exists (nt :: new). rewrite <- app_assoc. simpl.
           split; [reflexivity|]. split; [now rewrite Hlen|].
           constructor; [exact Hnone|].
           eapply Forall_impl; [exact Hn|]. intros l Hl. simpl in Hl.
           destruct (h !! l) eqn:Hhl; [|reflexivity].
           rewrite Hframe in Hl by eauto. congruence.
    + destruct Hstep as (Hframe & Hsim & _). simpl in Hsim.
      rewrite <- Hsim. simpl. split; [auto|]. split; [reflexivity|].
      discriminate.
Qed.

End ObjectFacts.

(** C9.  For a unit with a well-formed catalog, [get_namespaced_tools]
    returns as many descriptors as [get_tools], in the same order, each
    with its [name] rewritten to the unit name, a [.] and the tool name,
    with the same keys and every other field identical; run on the
    objects of the catalog it returns fresh objects and leaves every
    object that existed, so the unit's own catalog, unchanged. *)
Theorem get_namespaced_tools_renames `{PyRuntime} (self : Connector) :
  catalog_ok self = true ->
  get_tools self = Ok (JArr (catalog self)) /\
  (exists out,
      get_namespaced_tools self = Ok out /\
      length out = length (catalog self) /\
      forall i t, catalog self !! i = Some t ->
        exists d d',
          t = JObj d /\ out !! i = Some (JObj d') /\
          dict_get "name" d'
          = Some (JStr (connector_name self +:+ "." +:+
                        py_format (tool_name_of t))) /\
          same_but_name d d') /\
  (forall (h : heap) (tools : list nat),
      map (h_read h) tools = catalog self ->
      Forall (fun l => is_Some (h !! l)) tools ->
      exists out h',
        h_get_namespaced_tools (connector_name self) tools h = (Ok out, h') /\
        map (h_read h') out = namespaced_catalog self /\
        Forall (fun l => h !! l = None) out /\
        (forall l, is_Some (h !! l) -> h' !! l = h !! l) /\
        map (h_read h') tools = catalog self).
Proof.
  intros Hok. pose proof (catalog_ok_tools _ Hok) as Htools.
  split; [now apply get_tools_ok|]. split.
  - exists (namespaced_catalog self).
    split; [now apply get_namespaced_tools_ok|].
    unfold namespaced_catalog. split; [apply length_map|].
    intros i t Hi. rewrite list_lookup_fmap, Hi. simpl.
    assert (Ht : tool_ok t = true).
    { rewrite forallb_forall in Htools. apply Htools.
      apply list_elem_of_In. eapply list_elem_of_lookup_2. exact Hi. }
    destruct t as [| | | | | |d]; try discriminate.
    destruct (renamed_same_but_name (connector_name self) d Ht)
      as (d' & Hren & Hname & Hsame).
    exists d, d'. rewrite Hren. auto.
  - intros h tools Hcat Hdom.
    pose proof (h_namespaced_loop_spec (connector_name self) tools [] h
                  Hdom (List.Forall_nil _)) as Hspec.
    unfold h_get_namespaced_tools.
    destruct (h_namespaced_loop (connector_name self) tools [] h) as [r h'].
    destruct Hspec as (Hframe & Hsim & Hnew).
    rewrite Hcat in Hsim. simpl in Hsim.
    rewrite (namespaced_loop_ok _ _ _ Htools) in Hsim. simpl in Hsim.
    destruct r as [out|e]; [|discriminate]. injection Hsim as Hout.
    destruct (Hnew out eq_refl) as (new & -> & _ & Hfresh).
    exists new, h'. simpl in *. repeat split; auto.
    rewrite <- Hcat. apply map_ext_Forall.
    eapply Forall_impl; [exact Hdom|]. intros l Hl. simpl.
    unfold h_read. now rewrite Hframe.
Qed.

Lemma get_namespaced_tools_renames_witness :
  catalog_ok slack_unit = true /\
  exists out h',
    @h_get_namespaced_tools (runtime_of []) "slack" [0; 1]%nat slack_objects
    = (Ok out, h') /\
    map (h_read h') out = @namespaced_catalog (runtime_of []) slack_unit /\
    map (h_read h') [0; 1]%nat = catalog slack_unit.
Proof.
  split; [reflexivity|].
  destruct (proj2 (proj2 (@get_namespaced_tools_renames (runtime_of [])
                            slack_unit eq_refl))
              slack_objects [0; 1]%nat)
    as (out & h' & Hrun & Hout & _ & _ & Hsame).
  - vm_compute. reflexivity.
  - repeat constructor; eexists; vm_compute; reflexivity.
  - exists out, h'. repeat split; assumption.
Defined.

(** ** Loading *)

Section DictOrder.
Context {V : Type}.
Implicit Types (d : pydict V) (k : string) (v : V).

Lemma dict_get_None_keys k d : dict_get k d = None <-> k ∉ dict_keys d.
Proof.
  induction d as [|[k0 v0] r IH]; simpl.
  - split; [intros _; apply not_elem_of_nil|reflexivity].
  - rewrite not_elem_of_cons.
    destruct (String.eqb_spec k0 k) as [->|Hk].
    + split; [discriminate|]. intros [Hn _]. congruence.
    + rewrite IH. split; [intros Hn; split; [congruence|exact Hn]|tauto].
Qed.

Lemma dict_set_absent k v d :
  dict_get k d = None -> dict_set k v d = d ++ [(k, v)].
Proof.
  induction d as [|[k0 v0] r IH]; simpl; [reflexivity|].
  destruct (String.eqb k0 k); [discriminate|].
  intros Hn. now rewrite IH.
Qed.

Lemma dict_del_absent k d : dict_get k d = None -> dict_del k d = d.
Proof.
  induction d as [|[k0 v0] r IH]; simpl; [reflexivity|].
  destruct (String.eqb k0 k); [discriminate|].
  intros Hn. now rewrite IH.
Qed.

Lemma dict_keys_del_incl k d x : x ∈ dict_keys (dict_del k d) -> x ∈ dict_keys d.
Proof.
  induction d as [|[k0 v0] r IH]; simpl; [tauto|].
  destruct (String.eqb k0 k); simpl.
  - intros Hx. apply elem_of_cons. now right.
  - rewrite !elem_of_cons. intros [->|Hx]; [now left|right; now apply IH].
Qed.

Lemma dict_del_gone k d :
  NoDup (dict_keys d) -> dict_get k (dict_del k d) = None.
Proof.
  induction d as [|[k0 v0] r IH]; simpl; [reflexivity|].
  intros Hnd. apply NoDup_cons in Hnd as [Hnotin Hnd].
  destruct (String.eqb_spec k0 k) as [->|Hk].
  - now apply dict_get_None_keys.
  - simpl. destruct (String.eqb_spec k0 k); [contradiction|]. now apply IH.
Qed.

Lemma dict_del_NoDup k d : NoDup (dict_keys d) -> NoDup (dict_keys (dict_del k d)).
Proof.
  induction d as [|[k0 v0] r IH]; simpl; [auto|].
  intros Hnd. apply NoDup_cons in Hnd as [Hnotin Hnd].
  destruct (String.eqb k0 k); [exact Hnd|]. simpl.
  apply NoDup_cons. split; [|now apply IH].
  intros Hin. apply Hnotin. now apply dict_keys_del_incl in Hin.
Qed.

Lemma dict_set_NoDup k v d : NoDup (dict_keys d) -> NoDup (dict_keys (dict_set k v d)).
Proof.
  destruct (dict_mem k d) eqn:Hm.
  - now rewrite dict_keys_set_present.
  - intros Hnd. unfold dict_mem in Hm.
    destruct (dict_get k d) eqn:Hg; [discriminate|].
    rewrite (dict_set_absent _ _ _ Hg). unfold dict_keys. rewrite map_app. simpl.
    apply NoDup_app. split; [exact Hnd|]. split.
    + intros x Hx Hk. apply list_elem_of_singleton in Hk. subst x.
      now apply dict_get_None_keys in Hg.
    + apply NoDup_singleton.
Qed.

End DictOrder.

Section LoadingFacts.
Context `{PyRuntime}.
Variable fs : file_system.

Lemma _load_connector_ok name st c :
  load_instance fs name = Ok c ->
  _load_connector fs name st
  = (Ok tt,
     {| connectors := dict_set name c (connectors st);
        stdout := stdout st ++ ["Loaded connector: " +:+ name] |}).
Proof. intros Hl. unfold _load_connector. now rewrite Hl. Qed.

Lemma _load_connector_raise name st e :
  load_instance fs name = Raise e -> _load_connector fs name st = (Raise e, st).
Proof. intros Hl. unfold _load_connector. now rewrite Hl. Qed.

(** One iteration of the scan, entry by entry. *)
Lemma load_candidate_get st entry k :
  dict_get k (connectors (load_candidate fs st entry))
  = match load_instance fs (fst entry) with
    | Ok c =>
        if candidate entry && String.eqb (fst entry) k then Some c
        else dict_get k (connectors st)
    | Raise _ => dict_get k (connectors st)
    end.
Proof.
  destruct entry as [name node]. unfold load_candidate, candidate. simpl.
  destruct (is_dir node && negb (str_startswith underscore name)); simpl.
  - unfold _load_connector.
    destruct (load_instance fs name) as [c|e]; simpl; [|reflexivity].
    destruct (String.eqb_spec name k) as [->|Hne].
    + apply dict_get_set_eq.
    + now apply dict_get_set_ne.
  - now destruct (load_instance fs name).
Qed.

Lemma load_candidate_stdout st entry line :
  In line (stdout st) -> In line (stdout (load_candidate fs st entry)).
Proof.
  destruct entry as [name node]. unfold load_candidate, _load_connector.
  destruct (is_dir node && negb (str_startswith underscore name)); [|auto].
  destruct (load_instance fs name); simpl; intros Hin; apply in_or_app; auto.
Qed.

Lemma scan_stdout entries : forall st line,
  In line (stdout st) ->
  In line (stdout (fold_left (load_candidate fs) entries st)).
Proof.
  induction entries as [|entry rest IH]; intros st line Hin; simpl; [exact Hin|].
  apply IH. now apply load_candidate_stdout.
Qed.

(** A unit that loads stays registered through the rest of the scan. *)
Lemma scan_keeps entries : forall st name c,
  load_instance fs name = Ok c ->
  dict_get name (connectors st) = Some c ->
  dict_get name (connectors (fold_left (load_candidate fs) entries st)) = Some c.
Proof.
  induction entries as [|entry rest IH]; intros st name c Hl Hget; simpl;
    [exact Hget|].
  apply IH; [exact Hl|]. rewrite load_candidate_get.
  destruct (load_instance fs (fst entry)) as [c'|e] eqn:Hl'; [|exact Hget].
  destruct (candidate entry); simpl; [|exact Hget].
  destruct (String.eqb_spec (fst entry) name) as [Heq|]; [|exact Hget].
  rewrite Heq in Hl'. congruence.
Qed.

Lemma scan_registers entries : forall st name node c,
  In (name, node) entries ->
  candidate (name, node) = true ->
  load_instance fs name = Ok c ->
  dict_get name (connectors (fold_left (load_candidate fs) entries st)) = Some c.
Proof.
  induction entries as [|entry rest IH]; intros st name node c Hin Hcand Hl;
    simpl; [destruct Hin|].
  destruct Hin as [->|Hin].
  - apply scan_keeps; [exact Hl|]. rewrite load_candidate_get. simpl.
    now rewrite Hl, Hcand, String.eqb_refl.
  - now apply IH with node.
Qed.

Lemma scan_logs entries : forall st name node e,
  In (name, node) entries ->
  candidate (name, node) = true ->
  load_instance fs name = Raise e ->
  In ("Failed to load connector " +:+ name +:+ ": " +:+ exn_str e)
     (stdout (fold_left (load_candidate fs) entries st)).
Proof.
  induction entries as [|entry rest IH]; intros st name node e Hin Hcand Hl;
    simpl; [destruct Hin|].
  destruct Hin as [->|Hin].
  - apply scan_stdout. unfold load_candidate, candidate in *. simpl in Hcand.
    rewrite Hcand, (_load_connector_raise _ _ _ Hl). simpl.
    apply in_or_app. right. now left.
  - now apply IH with node.
Qed.

(** The scan registers nothing that does not load. *)
Lemma scan_skips entries : forall st name e,
  load_instance fs name = Raise e ->
  dict_get name (connectors (fold_left (load_candidate fs) entries st))
  = dict_get name (connectors st).
Proof.
  induction entries as [|entry rest IH]; intros st name e Hl; simpl;
    [reflexivity|].
  rewrite (IH _ _ _ Hl), load_candidate_get.
  destruct (load_instance fs (fst entry)) as [c'|e'] eqn:Hl'; [|reflexivity].
  destruct (candidate entry); simpl; [|reflexivity].
  destruct (String.eqb_spec (fst entry) name) as [Heq|]; [|reflexivity].
  rewrite Heq in Hl'. congruence.
Qed.

End LoadingFacts.

(** C7.  [_load_connectors] tries every directory of the source tree
    whose name does not start with an underscore: a candidate that loads
    is registered whatever happens to the others, a candidate that fails
    to load is reported on the output and left out, and the scan itself
    never raises.  [_load_connector] raises [FileNotFoundError] when the
    unit has no [connector.py] and [AttributeError] when the executed
    module has no class of the derived name, and leaves the registry as
    it was. *)
Theorem load_all_best_effort `{PyRuntime} (fs : file_system) (st : registry_state) :
  (forall entries name node c,
      connectors_dir fs = Some entries ->
      In (name, node) entries ->
      candidate (name, node) = true ->
      load_instance fs name = Ok c ->
      dict_get name (connectors (_load_connectors fs st)) = Some c) /\
  (forall entries name node e,
      connectors_dir fs = Some entries ->
      In (name, node) entries ->
      candidate (name, node) = true ->
      load_instance fs name = Raise e ->
      In ("Failed to load connector " +:+ name +:+ ": " +:+ exn_str e)
         (stdout (_load_connectors fs st)) /\
      dict_get name (connectors (_load_connectors fs st))
      = dict_get name (connectors st)) /\
  (forall name,
      dir_at fs name ≫= connector_py = None ->
      _load_connector fs name st
      = (Raise (Exn FileNotFoundError ("No connector.py found for " +:+ name)),
         st)) /\
  (forall name src module,
      dir_at fs name ≫= connector_py = Some src ->
      spec_available src = true ->
      exec_module src = Ok module ->
      dict_get (connector_class_name name) module = None ->
      _load_connector fs name st
      = (Raise (Exn AttributeError
                  ("No " +:+ connector_class_name name +:+ " class found in "
                   +:+ name)),
         st)).
Proof.
  unfold _load_connectors. split; [|split; [|split]].
  - intros entries name node c -> Hin Hcand Hl. now apply scan_registers with node.
  - intros entries name node e -> Hin Hcand Hl. split.
    + now apply scan_logs with node.
    + now apply scan_skips with e.
  - intros name Hnone. apply _load_connector_raise.
    unfold load_instance. now rewrite Hnone.
  - intros name src module Hsrc Hspec Hexec Hcls. apply _load_connector_raise.
    unfold load_instance. rewrite Hsrc, Hspec, Hexec. simpl. now rewrite Hcls.
Qed.

(** ** Reloading *)

Lemma scan_connectors_app cs more tool_name u :
  scan_connectors cs tool_name = Ok (Some u) ->
  scan_connectors (cs ++ more) tool_name = Ok (Some u).
Proof.
  induction cs as [|c rest IH]; simpl; [discriminate|].
  destruct (provides c tool_name) as [[|]|e]; simpl; auto.
Qed.

(** Removing a unit other than the one found does not change what a scan
    finds. *)
Lemma scan_connectors_del (connectors : pydict Connector) name tool_name u :
  (forall c, dict_get name connectors = Some c -> c <> u) ->
  scan_connectors (dict_values connectors) tool_name = Ok (Some u) ->
  scan_connectors (dict_values (dict_del name connectors)) tool_name
  = Ok (Some u).
Proof.
  induction connectors as [|[k c] rest IH]; simpl; [discriminate|].
  intros Hother. destruct (String.eqb k name) eqn:Hk; simpl.
  - destruct (provides c tool_name) as [[|]|e]; simpl; try discriminate; auto.
    intros [= <-]. now destruct (Hother c eq_refl).
  - destruct (provides c tool_name) as [[|]|e]; simpl; auto.
Qed.

Lemma registry_ok_del name (connectors : pydict Connector) :
  registry_ok connectors -> registry_ok (dict_del name connectors).
Proof.
  intros [Hnd Hkeys]. split; [now apply dict_del_NoDup|].
  intros k c Hget. destruct (String.eqb_spec name k) as [->|Hne].
  - now rewrite dict_del_gone in Hget.
  - rewrite dict_get_del_ne in Hget by exact Hne. now apply Hkeys.
Qed.

Lemma registry_ok_set name c (connectors : pydict Connector) :
  connector_name c = name ->
  registry_ok connectors -> registry_ok (dict_set name c connectors).
Proof.
  intros Hname [Hnd Hkeys]. split; [now apply dict_set_NoDup|].
  intros k c' Hget. destruct (String.eqb_spec name k) as [->|Hne].
  - rewrite dict_get_set_eq in Hget. congruence.
  - rewrite dict_get_set_ne in Hget by exact Hne. now apply Hkeys.
Qed.

Lemma load_instance_name `{PyRuntime} fs name c :
  load_instance fs name = Ok c -> connector_name c = name.
Proof.
  unfold load_instance, instantiate.
  destruct (dir_at fs name ≫= connector_py) as [src|]; [|discriminate].
  destruct (negb (spec_available src)); [discriminate|].
  destruct (exec_module src) as [module|e]; [|discriminate]. simpl.
  destruct (dict_get (connector_class_name name) module); [|discriminate].
  destruct (_load_manifest fs name); [|discriminate]. simpl.
  now intros [= <-].
Qed.

(** Resolution survives the removal of another unit's entry and the
    registration of a unit under an absent name. *)
Lemma resolve_after_del (connectors : pydict Connector) name tool_name u :
  registry_ok connectors ->
  connector_name u <> name ->
  get_connector_for_tool connectors tool_name = Ok (Some u) ->
  get_connector_for_tool (dict_del name connectors) tool_name = Ok (Some u).
Proof.
  intros [_ Hkeys] Hu.
  destruct (str_contains dot tool_name) eqn:Hdot.
  - rewrite !(resolve_dotted _ _ Hdot).
    destruct (dict_get (unit_part tool_name) connectors) as [c|] eqn:Hget;
      [|discriminate].
    destruct (provides c (tool_part tool_name)) as [[|]|e] eqn:Hp; simpl;
      try discriminate.
    intros [= ->].
    assert (Hne : name <> unit_part tool_name).
    { intros ->. apply Hu. now apply Hkeys. }
    rewrite (dict_get_del_ne _ _ _ Hne), Hget, Hp. reflexivity.
  - unfold get_connector_for_tool. rewrite Hdot.
    apply scan_connectors_del.
    intros c Hget <-. apply Hu. now apply Hkeys.
Qed.

Lemma resolve_after_append (connectors : pydict Connector) name c tool_name u :
  dict_get name connectors = None ->
  get_connector_for_tool connectors tool_name = Ok (Some u) ->
  get_connector_for_tool (dict_set name c connectors) tool_name = Ok (Some u).
Proof.
  intros Habsent.
  destruct (str_contains dot tool_name) eqn:Hdot.
  - rewrite !(resolve_dotted _ _ Hdot).
    destruct (String.eqb_spec name (unit_part tool_name)) as [<-|Hne].
    + now rewrite Habsent.
    + now rewrite dict_get_set_ne.
  - unfold get_connector_for_tool. rewrite Hdot.
    rewrite (dict_set_absent _ _ _ Habsent). unfold dict_values.
    rewrite map_app. apply scan_connectors_app.
Qed.

(** C8, as the code has it.  [reload_connector] deletes the entry of
    [name], if there is one, and then runs [_load_connector].  When the
    load raises, [name] is absent from the registry afterwards; when it
    succeeds, [name] is registered with the new unit.  In both cases the
    entry of every other name is what it was, every tool name that
    resolved to a unit of another name still resolves to that unit, and a
    namespaced tool name with another prefix resolves as before. *)
Theorem reload_isolated `{PyRuntime} (fs : file_system) (name : string)
    (st st' : registry_state) (r : res unit) :
  registry_ok (connectors st) ->
  reload_connector fs name st = (r, st') ->
  reload_connector fs name st
  = _load_connector fs name
      {| connectors := dict_del name (connectors st); stdout := stdout st |} /\
  (forall e, r = Raise e ->
     load_instance fs name = Raise e /\
     connectors st' = dict_del name (connectors st) /\
     dict_get name (connectors st') = None) /\
  (r = Ok tt ->
     exists c, load_instance fs name = Ok c /\
               dict_get name (connectors st') = Some c) /\
  (forall other, other <> name ->
     dict_get other (connectors st') = dict_get other (connectors st)) /\
  (forall tool_name u,
     connector_name u <> name ->
     get_connector_for_tool (connectors st) tool_name = Ok (Some u) ->
     get_connector_for_tool (connectors st') tool_name = Ok (Some u)) /\
  (forall tool_name,
     str_contains dot tool_name = true ->
     unit_part tool_name <> name ->
     get_connector_for_tool (connectors st') tool_name
     = get_connector_for_tool (connectors st) tool_name) /\
  registry_ok (connectors st').
Proof.
  intros Hok Hrun.
  assert (Hdotted : forall connectors' : pydict Connector,
            (forall other, other <> name ->
               dict_get other connectors' = dict_get other (connectors st)) ->
            forall tool_name,
              str_contains dot tool_name = true ->
              unit_part tool_name <> name ->
              get_connector_for_tool connectors' tool_name
              = get_connector_for_tool (connectors st) tool_name).
  { intros connectors' Hsame tool_name Hdot Hne.
    rewrite !(resolve_dotted _ _ Hdot), (Hsame _ Hne). reflexivity. }
  assert (Hdel : reload_connector fs name st
                 = _load_connector fs name
                     {| connectors := dict_del name (connectors st);
                        stdout := stdout st |}).
  { unfold reload_connector, dict_mem.
    destruct (dict_get name (connectors st)) eqn:Hget; [reflexivity|].
    rewrite (dict_del_absent _ _ Hget). now destruct st. }
  split; [exact Hdel|]. rewrite Hdel in Hrun. clear Hdel.
  pose proof (registry_ok_del name _ Hok) as Hok1.
  pose proof (dict_del_gone name _ (proj1 Hok)) as Hgone.
  unfold _load_connector in Hrun.
  destruct (load_instance fs name) as [c|e] eqn:Hload;
    injection Hrun as <- <-; simpl.
  - split; [discriminate|]. split.
    { intros _. exists c. split; [reflexivity|apply dict_get_set_eq]. }
    split.
    { intros other Hne.
      rewrite dict_get_set_ne, dict_get_del_ne; auto. }
    split.
    { intros tool_name u Hu Hres. apply resolve_after_append; [exact Hgone|].
      now apply resolve_after_del. }
    split.
    { apply Hdotted. intros other Hne.
      rewrite dict_get_set_ne, dict_get_del_ne; auto. }
    apply registry_ok_set; [|exact Hok1]. eapply load_instance_name; eauto.
  - split.
    { intros e' [= <-]. auto. }
    split; [discriminate|]. split.
    { intros other Hne. apply dict_get_del_ne. auto. }
    split.
    { intros tool_name u Hu Hres. now apply resolve_after_del. }
    split; [|exact Hok1].
    apply Hdotted. intros other Hne. apply dict_get_del_ne. auto.
Qed.

Lemma two_units_ok : registry_ok two_units.
Proof.
  split.
  - simpl. apply NoDup_cons. split; [|apply NoDup_singleton].
    rewrite list_elem_of_singleton. discriminate.
  - intros k c. unfold two_units. cbn [dict_get].
    destruct (String.eqb_spec "slack" k) as [<-|_]; [now intros [= <-]|].
    destruct (String.eqb_spec "google_tasks" k) as [<-|_]; [now intros [= <-]|].
    intros Hnone. discriminate Hnone.
Qed.

Lemma reload_isolated_witness :
  registry_ok two_units /\
  dict_get "slack"
    (connectors (snd (@reload_connector example_runtime empty_tree "slack"
                        {| connectors := two_units; stdout := [] |})))
  = None /\
  get_connector_for_tool
    (connectors (snd (@reload_connector example_runtime empty_tree "slack"
                        {| connectors := two_units; stdout := [] |})))
    "create_task"
  = Ok (Some google_tasks_unit).
Proof.
  split; [exact two_units_ok|].
  destruct (@reload_isolated example_runtime empty_tree "slack"
              {| connectors := two_units; stdout := [] |} _ _
              two_units_ok eq_refl)
    as (_ & Hfail & _ & _ & Hkeep & _ & _).
  split.
  - exact (proj2 (proj2 (Hfail _ eq_refl))).
  - apply Hkeep; [discriminate|reflexivity].
Defined.

(** The scan of the example tree: both loadable units are registered,
    in the order of the listing, and each failure is reported. *)
Example scan_example_tree :
  list_connectors (connectors (@new_registry example_runtime example_tree []))
  = ["slack"; "empty"; "nameless"; "google_tasks"] /\
  stdout (@new_registry example_runtime example_tree [])
  = ["Loaded connector: slack";
     "Failed to load connector no_module: No connector.py found for no_module";
     "Failed to load connector wrong_class: No WrongClassConnector class found in wrong_class";
     "Failed to load connector no_manifest: No manifest.json found for connector no_manifest";
     "Failed to load connector bad_json: Expecting value: line 1 column 1 (char 0)";
     "Loaded connector: empty";
     "Loaded connector: nameless";
     "Loaded connector: google_tasks"].
Proof. split; vm_compute; reflexivity. Qed.

Example class_name_google_calendar :
  connector_class_name "google_calendar" = "GoogleCalendarConnector".
Proof. reflexivity. Qed.

(** ** Manifests *)

Lemma load_instance_needs_manifest `{PyRuntime} fs name e :
  _load_manifest fs name = Raise e ->
  exists e', load_instance fs name = Raise e'.
Proof.
  intros Hm. unfold load_instance, instantiate.
  destruct (dir_at fs name ≫= connector_py) as [src|]; [|eauto].
  destruct (negb (spec_available src)); [eauto|].
  destruct (exec_module src) as [module|e0]; simpl; [|eauto].
  destruct (dict_get (connector_class_name name) module); [|eauto].
  rewrite Hm. simpl. eauto.
Qed.

(** C5, as the code has it.  Loading a manifest raises
    [FileNotFoundError] when the unit has no [manifest.json] and the
    parser's error when the text is not JSON, and either keeps the unit
    from being registered; any JSON document is accepted as the manifest
    as it is, with no check of its shape; a manifest object without
    [tools] gives a unit with no tools. *)
Theorem manifest_loading `{PyRuntime} (fs : file_system) (name : string) :
  (dir_at fs name ≫= manifest_json = None ->
   _load_manifest fs name
   = Raise (Exn FileNotFoundError
              ("No manifest.json found for connector " +:+ name)) /\
   forall st, exists e, _load_connector fs name st = (Raise e, st)) /\
  (forall text,
     dir_at fs name ≫= manifest_json = Some text ->
     json_loads text = None ->
     _load_manifest fs name = Raise (Exn JSONDecodeError (json_error_str text)) /\
     forall st, exists e, _load_connector fs name st = (Raise e, st)) /\
  (forall text document,
     dir_at fs name ≫= manifest_json = Some text ->
     json_loads text = Some document ->
     _load_manifest fs name = Ok document) /\
  (forall self fields,
     manifest self = JObj fields ->
     dict_get "tools" fields = None ->
     get_tools self = Ok (JArr []) /\
     get_namespaced_tools self = Ok [] /\
     forall tool, provides self tool = Ok false).
Proof.
  assert (Hblock : forall e, _load_manifest fs name = Raise e ->
            forall st, exists e', _load_connector fs name st = (Raise e', st)).
  { intros e He st. destruct (load_instance_needs_manifest _ _ _ He) as [e' He'].
    exists e'. unfold _load_connector. now rewrite He'. }
  split; [|split; [|split]].
  - intros Hnone.
    assert (Hm : _load_manifest fs name
                 = Raise (Exn FileNotFoundError
                            ("No manifest.json found for connector " +:+ name))).
    { unfold _load_manifest. now rewrite Hnone. }
    split; [exact Hm|]. exact (Hblock _ Hm).
  - intros text Htext Hparse.
    assert (Hm : _load_manifest fs name
                 = Raise (Exn JSONDecodeError (json_error_str text))).
    { unfold _load_manifest. now rewrite Htext, Hparse. }
    split; [exact Hm|]. exact (Hblock _ Hm).
  - intros text document Htext Hparse.
    unfold _load_manifest. now rewrite Htext, Hparse.
  - intros self fields Hm Htools.
    unfold provides, get_namespaced_tools, get_tools.
    rewrite Hm. simpl. rewrite Htools. simpl. auto.
Qed.

(** C5, as claimed, fails: the manifest of [nameless] has a tool without
    a [name], is loaded without error, and the unit is registered. *)
Lemma nameless_tool_manifest_loads :
  tool_ok (JObj [("description", JStr "no name here")]) = false /\
  @_load_manifest example_runtime example_tree "nameless"
  = Ok (JObj [("tools", JArr [JObj [("description", JStr "no name here")]])]) /\
  dict_mem "nameless"
    (connectors (@new_registry example_runtime example_tree [])) = true.
Proof. repeat split; vm_compute; reflexivity. Qed.

(** ** The call endpoint *)

Lemma actual_tool_name tool_name :
  (if str_contains dot tool_name
   then last_part (str_split_max dot tool_name 1)
   else tool_name) = bare_name tool_name.
Proof.
  unfold bare_name. destruct (str_contains dot tool_name) eqn:Hdot; [|reflexivity].
  now rewrite (str_split_max_1 _ Hdot).
Qed.

(** Once the name resolves, [execute_tool] is the unit's [execute] on
    the bare name. *)
Lemma execute_tool_resolved registry tool_name parameters auth_data unit :
  get_connector_for_tool registry tool_name = Ok (Some unit) ->
  execute_tool registry tool_name parameters auth_data
  = execute unit (bare_name tool_name) parameters auth_data.
Proof.
  intros Hres. unfold execute_tool. rewrite Hres. simpl.
  now rewrite actual_tool_name.
Qed.

(** C3, as the code has it.  When the tool name resolves to a unit, a
    map returned by the unit's [execute] is handed back as the [result]
    of a response with [success] true and no [error], whether or not the
    map has an ["error"] field; an exception raised by [execute] gives a
    response with [success] false whose [error] carries the text of the
    exception.  Whatever the request, [call_tool] returns a response:
    either a success without [error] or a failure with one. *)
Theorem call_tool_outcomes `{PyRuntime} (registry : pydict Connector)
    (store : AuthStore) (request : ToolCallRequest) (unit : Connector) :
  get_connector_for_tool registry (tool_name request) = Ok (Some unit) ->
  (forall d,
     execute unit (bare_name (tool_name request)) (parameters request)
       (call_auth_data store request) = Ok (JObj d) ->
     call_tool registry store request
     = {| success := true; result := d; error := None |}) /\
  (forall e,
     execute unit (bare_name (tool_name request)) (parameters request)
       (call_auth_data store request) = Raise e ->
     call_tool registry store request
     = {| success := false; result := [];
          error := Some ((if is_ValueError e then "Tool not found: "
                          else "Tool execution failed: ") +:+ exn_str e) |}) /\
  (forall registry' store' request',
     (success (call_tool registry' store' request') = true /\
      error (call_tool registry' store' request') = None) \/
     (success (call_tool registry' store' request') = false /\
      result (call_tool registry' store' request') = [] /\
      exists message, error (call_tool registry' store' request') = Some message)).
Proof.
  intros Hres. split; [|split].
  - intros d Hexec. unfold call_tool, call_tool_body.
    rewrite (execute_tool_resolved _ _ _ _ _ Hres), Hexec. reflexivity.
  - intros e Hexec. unfold call_tool, call_tool_body.
    rewrite (execute_tool_resolved _ _ _ _ _ Hres), Hexec. simpl.
    now destruct (is_ValueError e).
  - intros registry' store' request'. unfold call_tool.
    destruct (call_tool_body registry' store' request') as [response|e] eqn:Hbody.
    + left. unfold call_tool_body in Hbody.
      destruct (execute_tool _ _ _ _) as [[| | | | | |d]|e]; simpl in Hbody;
        try discriminate.
      injection Hbody as <-. auto.
    + right. destruct (is_ValueError e); simpl; eauto.
Qed.

Lemma call_tool_outcomes_witness :
  execute slack_unit "send_message" [] None
  = Ok (JObj [("error", JStr "OAuth token required for Slack API");
              ("auth_required", JBool true);
              ("auth_url", JStr "TODO: Implement OAuth2 flow");
              ("message", JStr "Please authenticate with Slack first")]) /\
  @call_tool example_runtime two_units empty_store
    {| tool_name := "slack.send_message"; parameters := []; user_id := None |}
  = {| success := true;
       result := [("error", JStr "OAuth token required for Slack API");
                  ("auth_required", JBool true);
                  ("auth_url", JStr "TODO: Implement OAuth2 flow");
                  ("message", JStr "Please authenticate with Slack first")];
       error := None |}.
Proof.
  split; [reflexivity|].
  apply (@call_tool_outcomes example_runtime two_units empty_store
           {| tool_name := "slack.send_message"; parameters := [];
              user_id := None |} slack_unit); reflexivity.
Defined.

(** C3, as claimed, fails: with no stored credentials the Slack unit
    returns a map with an ["error"] field, and the response has
    [success] true. *)
Lemma error_payload_reported_as_success :
  (exists d, execute slack_unit "send_message" [] None = Ok (JObj d) /\
             dict_mem "error" d = true) /\
  success (@call_tool example_runtime two_units empty_store
             {| tool_name := "slack.send_message"; parameters := [];
                user_id := None |}) = true /\
  error (@call_tool example_runtime two_units empty_store
           {| tool_name := "slack.send_message"; parameters := [];
              user_id := None |}) = None.
Proof.
  split; [eexists; split; reflexivity|]. split; reflexivity.
Qed.

(** C4, as the code has it.  For a call that resolves to a unit,
    [call_tool] runs the unit's [execute] with the credentials it
    fetched first.  For a namespaced tool name the unit is the one named
    by the prefix, and when the request names a known user the
    credentials are those stored for that user and that unit; for a bare
    tool name no credentials are fetched and [execute] gets none, and so
    it is when the request names no user or an unknown one. *)
Theorem call_tool_credentials `{PyRuntime} (registry : pydict Connector)
    (store : AuthStore) (request : ToolCallRequest) (unit : Connector) :
  registry_ok registry ->
  get_connector_for_tool registry (tool_name request) = Ok (Some unit) ->
  call_tool_body registry store request
  = (r ← execute unit (bare_name (tool_name request)) (parameters request)
           (call_auth_data store request);
     success_response r) /\
  (str_contains dot (tool_name request) = true ->
   connector_name unit = unit_part (tool_name request) /\
   forall uid user_data,
     user_id request = Some uid -> uid <> EmptyString ->
     get_user store uid = Some user_data -> user_data <> [] ->
     connector_name unit <> EmptyString ->
     call_auth_data store request
     = get_connector_credentials store uid (connector_name unit)) /\
  (str_contains dot (tool_name request) = false ->
   call_auth_data store request = None) /\
  ((user_id request = None \/
    exists uid, user_id request = Some uid /\ get_user store uid = None) ->
   call_auth_data store request = None).
Proof.
  intros [_ Hkeys] Hres. split; [|split; [|split]].
  - unfold call_tool_body. now rewrite (execute_tool_resolved _ _ _ _ _ Hres).
  - intros Hdot.
    assert (Hname : connector_name unit = unit_part (tool_name request)).
    { apply Hkeys. rewrite (resolve_dotted _ _ Hdot) in Hres.
      destruct (dict_get (unit_part (tool_name request)) registry) as [c|];
        [|discriminate].
      destruct (provides c (tool_part (tool_name request))) as [[|]|e];
        simpl in Hres; try discriminate.
      congruence. }
    split; [exact Hname|].
    intros uid user_data Huid Hne Huser Hdata Hunit.
    unfold call_auth_data, credential_connector.
    rewrite Huid, Huser, Hdot, str_split_hd, <- Hname.
    destruct uid; [contradiction|]. destruct user_data; [contradiction|].
    destruct (connector_name unit); [contradiction|]. reflexivity.
  - intros Hdot. unfold call_auth_data, credential_connector. rewrite Hdot.
    destruct (user_id request) as [uid|]; [|reflexivity].
    destruct (str_truthy uid); [|reflexivity].
    destruct (get_user store uid) as [d|]; [|reflexivity].
    now destruct (dict_truthy d).
  - unfold call_auth_data. intros [->|(uid & -> & ->)]; [reflexivity|].
    now destruct (str_truthy uid).
Qed.

Lemma call_tool_credentials_witness :
  call_auth_data alice_store
    {| tool_name := "google_tasks.create_task"; parameters := [];
       user_id := Some "alice" |}
  = Some alice_token.
Proof.
  destruct (@call_tool_credentials example_runtime two_units alice_store
              {| tool_name := "google_tasks.create_task"; parameters := [];
                 user_id := Some "alice" |} google_tasks_unit
              two_units_ok eq_refl)
    as (_ & Hdotted & _).
  destruct (Hdotted eq_refl) as [_ Hcreds].
  etransitivity.
  - eapply (Hcreds "alice").
    + reflexivity.
    + discriminate.
    + vm_compute. reflexivity.
    + discriminate.
    + discriminate.
  - vm_compute. reflexivity.
Defined.

(** C4, as claimed, fails: [create_task] resolves to the Google Tasks
    unit, the store holds the user's credentials for that unit, and the
    call by the bare name hands [execute] none. *)
Lemma bare_call_gets_no_credentials :
  get_connector_for_tool two_units "create_task" = Ok (Some google_tasks_unit) /\
  get_connector_credentials alice_store "alice" "google_tasks"
  = Some alice_token /\
  call_auth_data alice_store
    {| tool_name := "create_task"; parameters := []; user_id := Some "alice" |}
  = None /\
  @call_tool_body example_runtime two_units alice_store
    {| tool_name := "create_task"; parameters := []; user_id := Some "alice" |}
  = (r ← execute google_tasks_unit "create_task" [] None;
     @success_response example_runtime r).
Proof. repeat split; vm_compute; reflexivity. Qed.

(** C8, as claimed, fails: [slack] and [google_tasks] both declare
    [send_message] and [slack] is registered first.  Reloading [slack]
    succeeds and leaves the entry of [google_tasks] as it was, yet the
    bare name, which resolved to [slack], now resolves to
    [google_tasks]: the reloaded unit is registered again last. *)
Lemma reload_changes_bare_resolution :
  connectors (@new_registry example_runtime twin_tree [])
  = [("slack", twin "slack"); ("google_tasks", twin "google_tasks")] /\
  get_connector_for_tool
    (connectors (@new_registry example_runtime twin_tree [])) "send_message"
  = Ok (Some (twin "slack")) /\
  fst (@reload_connector example_runtime twin_tree "slack"
         (@new_registry example_runtime twin_tree [])) = Ok tt /\
  connectors (snd (@reload_connector example_runtime twin_tree "slack"
                     (@new_registry example_runtime twin_tree [])))
  = [("google_tasks", twin "google_tasks"); ("slack", twin "slack")] /\
  get_connector_for_tool
    (connectors (snd (@reload_connector example_runtime twin_tree "slack"
                        (@new_registry example_runtime twin_tree []))))
    "send_message"
  = Ok (Some (twin "google_tasks")) /\
  twin "google_tasks" <> twin "slack".
Proof.
  repeat split; try (vm_compute; reflexivity).
  intros Heq. discriminate (f_equal connector_name Heq).
Qed.

(** ** The string operations on sample inputs *)

Example split_first_only :
  str_split_max dot "slack.files.upload" 1 = ["slack"; "files.upload"].
Proof. reflexivity. Qed.

Example split_all :
  str_split dot "slack.files.upload" = ["slack"; "files"; "upload"].
Proof. reflexivity. Qed.

Example split_without_separator : str_split_max dot "send_message" 1 = ["send_message"].
Proof. reflexivity. Qed.

Example capitalize_lowers_the_rest : str_capitalize "gOOGLE" = "Google".
Proof. reflexivity. Qed.

(** * Further properties of the registry *)

Section ScanExactly.
Context `{PyRuntime}.
Variable fs : file_system.

Lemma load_candidate_connectors st entry :
  connectors (load_candidate fs st entry)
  = match load_instance fs (fst entry) with
    | Ok c =>
        if candidate entry then dict_set (fst entry) c (connectors st)
        else connectors st
    | Raise _ => connectors st
    end.
Proof.
  destruct entry as [name node]. unfold load_candidate, candidate, _load_connector.
  simpl. destruct (is_dir node && negb (str_startswith underscore name));
    destruct (load_instance fs name); reflexivity.
Qed.

Lemma scan_keys entries : forall st,
  NoDup (dict_keys entries) ->
  (forall k, k ∈ dict_keys entries -> dict_get k (connectors st) = None) ->
  dict_keys (connectors (fold_left (load_candidate fs) entries st))
  = dict_keys (connectors st) ++ map fst (List.filter (loads fs) entries).
Proof.
  induction entries as [|entry rest IH]; intros st Hnd Hfresh; simpl.
  - now rewrite app_nil_r.
  - apply NoDup_cons in Hnd as [Hnotin Hnd].
    assert (Habs : dict_get (fst entry) (connectors st) = None).
    { apply Hfresh. apply elem_of_cons. now left. }
    rewrite IH; [|exact Hnd|].
    + rewrite load_candidate_connectors. unfold loads.
      destruct (load_instance fs (fst entry)) as [c|e]; simpl;
        [|now rewrite andb_false_r].
      rewrite andb_true_r. destruct (candidate entry); [|reflexivity].
      rewrite (dict_set_absent _ _ _ Habs). unfold dict_keys.
      rewrite map_app, <- app_assoc. reflexivity.
    + intros k Hk. rewrite load_candidate_connectors.
      assert (Hst : dict_get k (connectors st) = None).
      { apply Hfresh. apply elem_of_cons. now right. }
      destruct (load_instance fs (fst entry)) as [c|e]; [|exact Hst].
      destruct (candidate entry); [|exact Hst].
      rewrite dict_get_set_ne; [exact Hst|]. intros Heq. apply Hnotin.
      now rewrite Heq.
Qed.

Lemma load_candidate_ok st entry :
  registry_ok (connectors st) -> registry_ok (connectors (load_candidate fs st entry)).
Proof.
  intros Hok. rewrite load_candidate_connectors.
  destruct (load_instance fs (fst entry)) as [c|e] eqn:Hl; [|exact Hok].
  destruct (candidate entry); [|exact Hok].
  apply registry_ok_set; [|exact Hok]. now apply load_instance_name with fs.
Qed.

Lemma scan_ok entries : forall st,
  registry_ok (connectors st) ->
  registry_ok (connectors (fold_left (load_candidate fs) entries st)).
Proof.
  induction entries as [|entry rest IH]; intros st Hok; simpl; [exact Hok|].
  apply IH. now apply load_candidate_ok.
Qed.

End ScanExactly.

(** X1.  When the directories of the source tree have distinct names,
    the registry built at start-up lists exactly the candidates that
    load, in the order of the directory listing. *)
Theorem new_registry_lists_loaded `{PyRuntime} (fs : file_system)
    (entries : pydict fs_node) (out : list string) :
  connectors_dir fs = Some entries ->
  NoDup (dict_keys entries) ->
  list_connectors (connectors (new_registry fs out))
  = map fst (List.filter (loads fs) entries).
Proof.
  intros Hdir Hnd. unfold new_registry, _load_connectors, list_connectors.
  rewrite Hdir. now rewrite scan_keys.
Qed.

Lemma example_tree_names :
  NoDup (dict_keys (default [] (connectors_dir example_tree))).
Proof. apply (bool_decide_unpack _). vm_compute. exact I. Qed.

Lemma new_registry_lists_loaded_witness :
  list_connectors (connectors (@new_registry example_runtime example_tree []))
  = map fst (List.filter (@loads example_runtime example_tree)
               (default [] (connectors_dir example_tree))).
Proof.
  apply (@new_registry_lists_loaded example_runtime example_tree).
  - reflexivity.
  - exact example_tree_names.
Defined.

(** X2.  The registry built at start-up is a dictionary in which every
    unit is registered under its own name, whatever the source tree
    holds. *)
Theorem new_registry_ok `{PyRuntime} (fs : file_system) (out : list string) :
  registry_ok (connectors (new_registry fs out)).
Proof.
  unfold new_registry, _load_connectors.
  assert (Hempty : registry_ok (connectors {| connectors := []; stdout := out |})).
  { split; [apply NoDup_nil_2|]. intros k c Hget. discriminate Hget. }
  destruct (connectors_dir fs) as [entries|]; [|exact Hempty].
  now apply scan_ok.
Qed.

(** ** What the catalog advertises can be called *)

Lemma dict_get_In {V} (d : pydict V) k v :
  NoDup (dict_keys d) -> In (k, v) d -> dict_get k d = Some v.
Proof.
  induction d as [|[k0 v0] r IH]; simpl; [tauto|].
  intros Hnd Hin. apply NoDup_cons in Hnd as [Hnotin Hnd].
  destruct Hin as [[= -> ->]|Hin].
  - now rewrite String.eqb_refl.
  - destruct (String.eqb_spec k0 k) as [->|_]; [|now apply IH].
    exfalso. apply Hnotin. apply list_elem_of_In.
    change k with (fst (k, v)). now apply in_map.
Qed.

(** A registered unit is found under its own name. *)
Lemma registered_under_name (connectors : pydict Connector) u :
  registry_ok connectors ->
  In u (dict_values connectors) ->
  dict_get (connector_name u) connectors = Some u.
Proof.
  intros [Hnd Hkeys] Hin. unfold dict_values in Hin.
  apply in_map_iff in Hin as ([k c] & <- & Hin). simpl.
  pose proof (dict_get_In _ _ _ Hnd Hin) as Hget.
  now rewrite (Hkeys _ _ Hget).
Qed.

Lemma scan_connectors_found cs tool_name u :
  scan_connectors cs tool_name = Ok (Some u) ->
  In u cs /\ provides u tool_name = Ok true.
Proof.
  induction cs as [|c rest IH]; simpl; [discriminate|].
  destruct (provides c tool_name) as [[|]|e] eqn:Hp; simpl; try discriminate.
  - intros [= <-]. split; [now left|exact Hp].
  - intros Hrest. destruct (IH Hrest). split; [now right|assumption].
Qed.

Lemma resolve_by_namespace (connectors : pydict Connector) u name :
  registry_ok connectors ->
  In u (dict_values connectors) ->
  str_contains dot (connector_name u) = false ->
  get_connector_for_tool connectors (connector_name u +:+ "." +:+ name)
  = (found ← provides u name; Ok (if found : bool then Some u else None)).
Proof.
  intros Hok Hin Hnodot.
  change (connector_name u +:+ "." +:+ name)
    with (connector_name u +:+ String dot name).
  rewrite (resolve_dotted _ _ (join_contains _ _)).
  destruct (split_unique (connector_name u) name Hnodot) as [-> ->].
  now rewrite (registered_under_name _ _ Hok Hin).
Qed.

Lemma find_exists {A} (f : A -> bool) (l : list A) x :
  In x l -> f x = true -> exists y, List.find f l = Some y /\ f y = true.
Proof.
  induction l as [|a r IH]; simpl; [tauto|].
  intros Hin Hx. destruct (f a) eqn:Fa; [eauto|].
  destruct Hin as [->|Hin]; [congruence|]. now apply IH.
Qed.

Lemma named_declares c t s :
  In t (catalog c) -> tool_name_of t = JStr s -> tool_ok t = true ->
  declares c s = true.
Proof.
  intros Hin Hname Hok. unfold declares. apply existsb_exists.
  exists t. split; [exact Hin|].
  destruct t as [| | | | | |d]; try discriminate.
  unfold tool_name_of in Hname. unfold named.
  unfold tool_ok, dict_mem in Hok.
  destruct (dict_get "name" d) as [v|]; [|discriminate].
  simpl in Hname. subst v. simpl. apply String.eqb_refl.
Qed.

(** X3.  In a registry of well-formed manifests whose unit names have no
    [.] and whose tool names are strings, every name [get_all_tools]
    lists can be called: the namespaced name of a tool resolves to the
    unit that lists it, and its bare name, when it has no [.], resolves
    to a unit that declares it. *)
Theorem advertised_names_resolve `{PyRuntime} (connectors : pydict Connector) :
  registry_ok connectors ->
  Forall (fun c => catalog_ok c = true) (dict_values connectors) ->
  (forall c, In c (dict_values connectors) ->
             str_contains dot (connector_name c) = false) ->
  exists tools,
    get_all_tools connectors = Ok tools /\
    forall u t s,
      In u (dict_values connectors) ->
      In t (catalog u) ->
      tool_name_of t = JStr s ->
      In (renamed (connector_name u) t) tools /\
      tool_name_of (renamed (connector_name u) t)
      = JStr (connector_name u +:+ "." +:+ s) /\
      get_connector_for_tool connectors (connector_name u +:+ "." +:+ s)
      = Ok (Some u) /\
      In t tools /\
      (str_contains dot s = false ->
       exists first,
         get_connector_for_tool connectors s = Ok (Some first) /\
         declares first s = true).
Proof.
  intros Hok Hwf Hnodot.
  exists (flat_map unit_listing (dict_values connectors)). split.
  { unfold get_all_tools. now rewrite all_tools_loop_ok. }
  intros u t s Hu Ht Hname.
  assert (Hcu : catalog_ok u = true).
  { rewrite Forall_forall in Hwf. apply Hwf. now apply list_elem_of_In. }
  assert (Htok : tool_ok t = true).
  { pose proof (catalog_ok_tools _ Hcu) as Hall.
    rewrite forallb_forall in Hall. now apply Hall. }
  assert (Hdecl : declares u s = true) by now apply named_declares with t.
  split; [|split; [|split; [|split]]].
  - apply in_flat_map. exists u. split; [exact Hu|].
    unfold unit_listing, namespaced_catalog. apply in_or_app. left.
    now apply in_map.
  - destruct t as [| | | | | |d]; try discriminate.
    unfold renamed, tool_name_of at 1. rewrite dict_get_set_eq, Hname.
    reflexivity.
  - rewrite (resolve_by_namespace _ _ _ Hok Hu (Hnodot _ Hu)).
    now rewrite (provides_ok _ _ Hcu), Hdecl.
  - apply in_flat_map. exists u. split; [exact Hu|].
    unfold unit_listing. apply in_or_app. now right.
  - intros Hbare. unfold get_connector_for_tool. rewrite Hbare.
    rewrite (scan_connectors_ok _ _ Hwf).
    destruct (find_exists (fun c => declares c s) _ u Hu Hdecl)
      as (first & Hfind & Hfirst).
    exists first. now rewrite Hfind.
Qed.

Lemma advertised_names_resolve_witness :
  get_connector_for_tool two_units "google_tasks.send_message"
  = Ok (Some google_tasks_unit) /\
  exists first,
    get_connector_for_tool two_units "send_message" = Ok (Some first) /\
    declares first "send_message" = true.
Proof.
  destruct (@advertised_names_resolve example_runtime two_units two_units_ok)
    as (tools & _ & Hall).
  - repeat constructor.
  - intros c [<-|[<-|[]]]; reflexivity.
  - destruct (Hall google_tasks_unit
                (JObj (descriptor "send_message" "Send a reminder"))
                "send_message")
      as (_ & _ & Hns & _ & Hbare).
    + right. now left.
    + right. now left.
    + reflexivity.
    + split; [exact Hns|]. now apply Hbare.
Defined.

(** X4.  When a bare tool name resolves to a unit whose name has no
    [.], calling the tool by its namespaced name runs the same unit's
    [execute] with the same arguments: both calls give the same
    outcome. *)
Theorem namespaced_call_agrees (connectors : pydict Connector)
    (tool_name : string) (u : Connector) :
  registry_ok connectors ->
  str_contains dot tool_name = false ->
  str_contains dot (connector_name u) = false ->
  get_connector_for_tool connectors tool_name = Ok (Some u) ->
  get_connector_for_tool connectors (connector_name u +:+ "." +:+ tool_name)
  = Ok (Some u) /\
  forall parameters auth_data,
    execute_tool connectors (connector_name u +:+ "." +:+ tool_name)
      parameters auth_data
    = execute_tool connectors tool_name parameters auth_data.
Proof.
  intros Hok Hbare Hnodot Hres.
  assert (Hscan : scan_connectors (dict_values connectors) tool_name = Ok (Some u)).
  { unfold get_connector_for_tool in Hres. now rewrite Hbare in Hres. }
  destruct (scan_connectors_found _ _ _ Hscan) as [Hin Hprov].
  assert (Hns : get_connector_for_tool connectors
                  (connector_name u +:+ "." +:+ tool_name) = Ok (Some u)).
  { rewrite (resolve_by_namespace _ _ _ Hok Hin Hnodot), Hprov. reflexivity. }
  split; [exact Hns|]. intros parameters auth_data.
  rewrite (execute_tool_resolved _ _ _ _ _ Hns).
  rewrite (execute_tool_resolved _ _ _ _ _ Hres).
  unfold bare_name. rewrite Hbare.
  change (connector_name u +:+ "." +:+ tool_name)
    with (connector_name u +:+ String dot tool_name).
  rewrite join_contains.
  now destruct (split_unique (connector_name u) tool_name Hnodot) as [_ ->].
Qed.

Lemma namespaced_call_agrees_witness :
  execute_tool two_units "google_tasks.create_task" [] (Some alice_token)
  = execute_tool two_units "create_task" [] (Some alice_token).
Proof.
  apply (namespaced_call_agrees two_units "create_task" google_tasks_unit
           two_units_ok); reflexivity.
Defined.

(** ** Calls that find no unit *)

(** X5.  A call whose tool name resolves to no unit is answered with
    [success] false, an empty [result] and the message of
    [execute_tool]'s [ValueError]; this is the answer to every namespaced
    name whose prefix is not a registered unit, and to every name when
    no unit is registered. *)
Theorem unknown_tool_response `{PyRuntime} (registry : pydict Connector)
    (store : AuthStore) (request : ToolCallRequest) :
  (get_connector_for_tool registry (tool_name request) = Ok None ->
   call_tool registry store request = not_found_response (tool_name request)) /\
  (str_contains dot (tool_name request) = true ->
   dict_get (unit_part (tool_name request)) registry = None ->
   call_tool registry store request = not_found_response (tool_name request)) /\
  call_tool [] store request = not_found_response (tool_name request).
Proof.
  assert (Hnone : forall reg : pydict Connector,
            get_connector_for_tool reg (tool_name request) = Ok None ->
            call_tool reg store request = not_found_response (tool_name request)).
  { intros reg Hres. unfold call_tool, call_tool_body, execute_tool.
    rewrite Hres. reflexivity. }
  split; [apply Hnone|]. split.
  - intros Hdot Habsent. apply Hnone.
    now rewrite (resolve_dotted _ _ Hdot), Habsent.
  - apply Hnone. unfold get_connector_for_tool.
    destruct (str_contains dot (tool_name request)) eqn:Hdot; [|reflexivity].
    now rewrite (str_split_max_1 _ Hdot).
Qed.

(** ** A manifest with a nameless tool *)

Lemma find_tool_nameless good d rest name :
  forallb tool_ok good = true ->
  existsb (named name) good = false ->
  dict_get "name" d = None ->
  find_tool (good ++ JObj d :: rest) name = Raise (Exn KeyError "'name'").
Proof.
  induction good as [|t more IH]; simpl.
  - intros _ _ ->. reflexivity.
  - intros Hok Hno Hd. apply andb_prop in Hok as [Ht Hmore].
    apply orb_false_elim in Hno as [Hnt Hnmore].
    destruct t as [| | | | | |dt]; try discriminate.
    unfold tool_ok, dict_mem in Ht. unfold named in Hnt. simpl.
    destruct (dict_get "name" dt) as [v|]; [|discriminate]. simpl.
    rewrite Hnt. now apply IH.
Qed.

Lemma scan_connectors_raise before bad after name e :
  Forall (fun c => catalog_ok c = true) before ->
  (forall c, In c before -> declares c name = false) ->
  provides bad name = Raise e ->
  scan_connectors (before ++ bad :: after) name = Raise e.
Proof.
  induction 1 as [|c rest Hc _ IH]; simpl; intros Hno Hbad.
  - now rewrite Hbad.
  - rewrite (provides_ok _ _ Hc), (Hno c) by now left. simpl.
    apply IH; [|exact Hbad]. intros c' Hc'. apply Hno. now right.
Qed.

(** X6.  A registered unit whose manifest has a tool without a [name]
    breaks bare-name calls for the units registered after it: when no
    earlier unit and no earlier tool of that unit has the name, the scan
    stops with [KeyError] at the nameless tool, and the caller is told
    the execution failed, even if a later unit declares the tool. *)
Theorem nameless_tool_blocks_scan `{PyRuntime}
    (before after : pydict Connector) (key : string) (bad : Connector)
    (fields : pydict json) (good rest : list json) (d : pydict json)
    (store : AuthStore) (request : ToolCallRequest) :
  str_contains dot (tool_name request) = false ->
  Forall (fun c => catalog_ok c = true) (dict_values before) ->
  (forall c, In c (dict_values before) -> declares c (tool_name request) = false) ->
  manifest bad = JObj fields ->
  dict_get "tools" fields = Some (JArr (good ++ JObj d :: rest)) ->
  forallb tool_ok good = true ->
  existsb (named (tool_name request)) good = false ->
  dict_get "name" d = None ->
  get_connector_for_tool (before ++ (key, bad) :: after) (tool_name request)
  = Raise (Exn KeyError "'name'") /\
  call_tool (before ++ (key, bad) :: after) store request
  = {| success := false; result := [];
       error := Some "Tool execution failed: 'name'" |}.
Proof.
  intros Hbare Hwf Hno Hm Htools Hgood Hnomatch Hd.
  assert (Hbad : provides bad (tool_name request) = Raise (Exn KeyError "'name'")).
  { unfold provides, get_tools. rewrite Hm. simpl. rewrite Htools. simpl.
    now apply find_tool_nameless. }
  assert (Hres : get_connector_for_tool (before ++ (key, bad) :: after)
                   (tool_name request) = Raise (Exn KeyError "'name'")).
  { unfold get_connector_for_tool. rewrite Hbare. unfold dict_values.
    rewrite map_app. simpl. now apply scan_connectors_raise. }
  split; [exact Hres|].
  unfold call_tool, call_tool_body, execute_tool. rewrite Hres. reflexivity.
Qed.

Lemma nameless_tool_blocks_scan_witness :
  dict_keys (connectors (@new_registry example_runtime example_tree []))
  = ["slack"; "empty"; "nameless"; "google_tasks"] /\
  @call_tool example_runtime
    (connectors (@new_registry example_runtime example_tree [])) empty_store
    {| tool_name := "create_task"; parameters := []; user_id := None |}
  = {| success := false; result := [];
       error := Some "Tool execution failed: 'name'" |}.
Proof.
  split; [vm_compute; reflexivity|].
  refine (proj2 (@nameless_tool_blocks_scan example_runtime
            [("slack", _); ("empty", _)] [("google_tasks", _)] "nameless" _
            [("tools", JArr [JObj [("description", JStr "no name here")]])]
            [] [] [("description", JStr "no name here")] empty_store
            {| tool_name := "create_task"; parameters := []; user_id := None |}
            _ _ _ _ _ _ _ _)).
  - reflexivity.
  - repeat constructor.
  - intros c [<-|[<-|[]]]; reflexivity.
  - reflexivity.
  - reflexivity.
  - reflexivity.
  - reflexivity.
  - reflexivity.
Defined.

(** ** Reloading again *)

Lemma dict_del_last {V} (d : pydict V) k v :
  dict_get k d = None -> dict_del k (d ++ [(k, v)]) = d.
Proof.
  induction d as [|[k0 v0] r IH]; simpl.
  - intros _. now rewrite String.eqb_refl.
  - destruct (String.eqb k0 k); [discriminate|]. intros Hn. now rewrite IH.
Qed.

Lemma reload_connectors `{PyRuntime} fs name st :
  NoDup (dict_keys (connectors st)) ->
  connectors (snd (reload_connector fs name st))
  = match load_instance fs name with
    | Ok c => dict_del name (connectors st) ++ [(name, c)]
    | Raise _ => dict_del name (connectors st)
    end /\
  fst (reload_connector fs name st)
  = match load_instance fs name with
    | Ok _ => Ok tt
    | Raise e => Raise e
    end.
Proof.
  intros Hnd. unfold reload_connector, _load_connector, dict_mem.
  destruct (dict_get name (connectors st)) eqn:Hget.
  - destruct (load_instance fs name); simpl; split; try reflexivity.
    apply dict_set_absent. now apply dict_del_gone.
  - rewrite (dict_del_absent _ _ Hget).
    destruct (load_instance fs name); simpl; split; try reflexivity.
    now apply dict_set_absent.
Qed.

(** X7.  Reloading a unit a second time against the same source tree
    changes nothing: the registry and the outcome are those of the first
    reload. *)
Theorem reload_twice `{PyRuntime} (fs : file_system) (name : string)
    (st : registry_state) :
  registry_ok (connectors st) ->
  connectors (snd (reload_connector fs name (snd (reload_connector fs name st))))
  = connectors (snd (reload_connector fs name st)) /\
  fst (reload_connector fs name (snd (reload_connector fs name st)))
  = fst (reload_connector fs name st).
Proof.
  intros [Hnd _].
  destruct (reload_connectors fs name st Hnd) as [Hc1 Hr1].
  assert (Hgone : dict_get name (dict_del name (connectors st)) = None)
    by now apply dict_del_gone.
  assert (Hnd1 : NoDup (dict_keys (connectors (snd (reload_connector fs name st))))).
  { rewrite Hc1. destruct (load_instance fs name) as [c|e].
    - rewrite <- (dict_set_absent name c _ Hgone).
      apply dict_set_NoDup. now apply dict_del_NoDup.
    - now apply dict_del_NoDup. }
  destruct (reload_connectors fs name _ Hnd1) as [Hc2 Hr2].
  rewrite Hc2, Hr2, Hr1, Hc1.
  destruct (load_instance fs name) as [c|e]; split; try reflexivity.
  - now rewrite dict_del_last.
  - now apply dict_del_absent.
Qed.

Lemma reload_twice_witness :
  registry_ok two_units /\
  dict_keys
    (connectors
       (snd (@reload_connector example_runtime twin_tree "slack"
               (snd (@reload_connector example_runtime twin_tree "slack"
                       {| connectors := two_units; stdout := [] |})))))
  = ["google_tasks"; "slack"].
Proof.
  split; [exact two_units_ok|].
  rewrite (proj1 (@reload_twice example_runtime twin_tree "slack"
                    {| connectors := two_units; stdout := [] |} two_units_ok)).
  vm_compute. reflexivity.
Defined.

(** * The credential store *)

(** X8.  Credentials stored for a user and a unit are the ones read
    back for that pair; storing them changes the credentials of no other
    pair and no user record. *)
Theorem credentials_round_trip (self : AuthStore) (user_id connector_name : string)
    (creds : pydict json) (now : Z) :
  get_connector_credentials
    (store_connector_credentials user_id connector_name creds now self)
    user_id connector_name = Some creds /\
  (forall user_id' connector_name',
     user_id' <> user_id \/ connector_name' <> connector_name ->
     get_connector_credentials
       (store_connector_credentials user_id connector_name creds now self)
       user_id' connector_name'
     = get_connector_credentials self user_id' connector_name') /\
  (forall user_id',
     get_user (store_connector_credentials user_id connector_name creds now self)
       user_id'
     = get_user self user_id').
Proof.
  unfold get_connector_credentials, store_connector_credentials, get_user. simpl.
  split; [|split].
  - rewrite lookup_insert_eq. simpl. now rewrite lookup_insert_eq.
  - intros user_id' connector_name' Hne.
    destruct (decide (user_id = user_id')) as [<-|Hu].
    + rewrite lookup_insert_eq. simpl.
      destruct Hne as [Hne|Hne]; [congruence|].
      rewrite lookup_insert_ne by congruence. reflexivity.
    + now rewrite lookup_insert_ne.
  - reflexivity.
Qed.

(** X9.  [delete_connector_credentials] answers [True] exactly when
    credentials were stored for the pair; afterwards none are read back
    for it, the credentials of every other pair and the user records are
    what they were, and a second deletion answers [False]. *)
Theorem delete_credentials (self : AuthStore) (user_id connector_name : string) :
  (fst (delete_connector_credentials user_id connector_name self) = true <->
   is_Some (get_connector_credentials self user_id connector_name)) /\
  get_connector_credentials
    (snd (delete_connector_credentials user_id connector_name self))
    user_id connector_name = None /\
  (forall user_id' connector_name',
     user_id' <> user_id \/ connector_name' <> connector_name ->
     get_connector_credentials
       (snd (delete_connector_credentials user_id connector_name self))
       user_id' connector_name'
     = get_connector_credentials self user_id' connector_name') /\
  users (snd (delete_connector_credentials user_id connector_name self))
  = users self /\
  fst (delete_connector_credentials user_id connector_name
         (snd (delete_connector_credentials user_id connector_name self)))
  = false.
Proof.
  unfold delete_connector_credentials, get_connector_credentials.
  destruct (default ∅ (connector_credentials self !! user_id) !! connector_name)
    as [entry|] eqn:Hentry; simpl.
  - split; [split; eauto|].
    rewrite !lookup_insert_eq. simpl. rewrite !lookup_delete_eq.
    split; [reflexivity|]. split; [|split; reflexivity].
    intros user_id' connector_name' Hne.
    destruct (decide (user_id = user_id')) as [<-|Hu].
    + rewrite lookup_insert_eq. simpl.
      destruct Hne as [Hne|Hne]; [congruence|].
      rewrite lookup_delete_ne by congruence. reflexivity.
    + now rewrite lookup_insert_ne.
  - split; [split; [discriminate|intros [x Hx]; discriminate]|].
    rewrite ?Hentry. simpl. rewrite ?Hentry. repeat split; reflexivity.
Qed.

Lemma dict_set_nonempty {V} k (v : V) d : dict_truthy (dict_set k v d) = true.
Proof. destruct d as [|[k0 v0] r]; simpl; [reflexivity|]. now destruct (String.eqb k0 k). Qed.

Lemma fold_dict_set_nonempty {V} (data base : pydict V) :
  dict_truthy base = true ->
  dict_truthy (fold_left (fun d kv => dict_set (fst kv) (snd kv) d) data base) = true.
Proof.
  revert base. induction data as [|[k v] rest IH]; intros base Hb; simpl;
    [exact Hb|].
  apply IH. apply dict_set_nonempty.
Qed.

(** [{**base, **data}] read key by key. *)
Lemma fold_dict_set_get {V} (data : pydict V) : forall base k,
  NoDup (dict_keys data) ->
  dict_get k (fold_left (fun d kv => dict_set (fst kv) (snd kv) d) data base)
  = match dict_get k data with
    | Some v => Some v
    | None => dict_get k base
    end.
Proof.
  induction data as [|[k0 v0] rest IH]; intros base k Hnd; simpl; [reflexivity|].
  apply NoDup_cons in Hnd as [Hnotin Hnd]. rewrite (IH _ _ Hnd).
  simpl in Hnotin.
  destruct (String.eqb_spec k0 k) as [->|Hne].
  - apply dict_get_None_keys in Hnotin. rewrite Hnotin.
    apply dict_get_set_eq.
  - destruct (dict_get k rest); [reflexivity|]. now apply dict_get_set_ne.
Qed.

(** X10.  [create_user] files a record under the user's id that is
    never empty, holds every field of [user_data], and holds the id and
    the creation time under [user_id] and [created_at] unless
    [user_data] has those keys itself; the other users and all
    credentials are untouched. *)
Theorem create_user_record (self : AuthStore) (user_id : string)
    (user_data : pydict json) (now : Z) :
  NoDup (dict_keys user_data) ->
  exists record,
    get_user (create_user user_id user_data now self) user_id = Some record /\
    dict_truthy record = true /\
    (forall k v, dict_get k user_data = Some v -> dict_get k record = Some v) /\
    (dict_get "user_id" user_data = None ->
     dict_get "user_id" record = Some (JStr user_id)) /\
    (dict_get "created_at" user_data = None ->
     dict_get "created_at" record = Some (JInt now)) /\
    (forall other, other <> user_id ->
       get_user (create_user user_id user_data now self) other
       = get_user self other) /\
    (forall u c,
       get_connector_credentials (create_user user_id user_data now self) u c
       = get_connector_credentials self u c).
Proof.
  intros Hnd. unfold create_user, get_user. simpl.
  eexists. split; [apply lookup_insert_eq|].
  split; [now apply fold_dict_set_nonempty|].
  split; [|split; [|split; [|split]]].
  - intros k v Hk. now rewrite (fold_dict_set_get _ _ _ Hnd), Hk.
  - intros Hk. now rewrite (fold_dict_set_get _ _ _ Hnd), Hk.
  - intros Hk. now rewrite (fold_dict_set_get _ _ _ Hnd), Hk.
  - intros other Hne. now rewrite lookup_insert_ne.
  - reflexivity.
Qed.

Lemma create_user_record_witness :
  exists record,
    get_user (create_user "alice" [("email", JStr "alice@example.com");
                                   ("user_id", JStr "someone else")]
                1700000000 empty_store) "alice" = Some record /\
    dict_get "user_id" record = Some (JStr "someone else") /\
    dict_get "created_at" record = Some (JInt 1700000000).
Proof.
  destruct (create_user_record empty_store "alice"
              [("email", JStr "alice@example.com");
               ("user_id", JStr "someone else")] 1700000000)
    as (record & Hget & _ & Hdata & _ & Hcreated & _).
  - apply (bool_decide_unpack _). vm_compute. exact I.
  - exists record. split; [exact Hget|]. split.
    + apply Hdata. reflexivity.
    + apply Hcreated. reflexivity.
Defined.

(** X11.  Credentials reach a unit only for a user the store knows.
    After [create_user] and [store_connector_credentials], a namespaced
    call for that user and unit hands the stored credentials to the
    registry; credentials stored for a user who was never created are
    not handed over by any call. *)
Theorem credentials_need_a_user (self : AuthStore) (uid unit_name : string)
    (creds : pydict json) :
  uid <> EmptyString ->
  unit_name <> EmptyString ->
  str_contains dot unit_name = false ->
  (forall user_data created stored tool parameters,
     call_auth_data
       (store_connector_credentials uid unit_name creds stored
          (create_user uid user_data created self))
       {| tool_name := unit_name +:+ "." +:+ tool; parameters := parameters;
          user_id := Some uid |}
     = Some creds) /\
  (forall stored request,
     get_user self uid = None ->
     user_id request = Some uid ->
     call_auth_data (store_connector_credentials uid unit_name creds stored self)
       request = None).
Proof.
  intros Huid Hunit Hnodot. split.
  - intros user_data created stored tool parameters.
    unfold call_auth_data, credential_connector. simpl.
    change (unit_name +:+ "." +:+ tool) with (unit_name +:+ String dot tool).
    rewrite join_contains, str_split_hd.
    destruct (split_unique unit_name tool Hnodot) as [-> _].
    destruct uid; [contradiction|]. simpl.
    unfold get_user, store_connector_credentials, create_user. simpl.
    rewrite lookup_insert_eq.
    rewrite fold_dict_set_nonempty by reflexivity.
    destruct unit_name; [contradiction|]. simpl.
    unfold get_connector_credentials. simpl.
    rewrite lookup_insert_eq. simpl. now rewrite lookup_insert_eq.
  - intros stored request Hnone Hreq. unfold call_auth_data. rewrite Hreq.
    destruct (str_truthy uid); [|reflexivity].
    unfold get_user in *. simpl. now rewrite Hnone.
Qed.

Lemma credentials_need_a_user_witness :
  call_auth_data alice_store
    {| tool_name := "google_tasks.create_task"; parameters := [];
       user_id := Some "alice" |} = Some alice_token /\
  call_auth_data
    (store_connector_credentials "bob" "google_tasks" alice_token 0 empty_store)
    {| tool_name := "google_tasks.create_task"; parameters := [];
       user_id := Some "bob" |} = None.
Proof.
  split.
  - apply (proj1 (credentials_need_a_user empty_store "alice" "google_tasks"
                    alice_token ltac:(discriminate) ltac:(discriminate) eq_refl)
             [("email", JStr "alice@example.com")] 1700000000%Z 1700000000%Z
             "create_task" []).
  - apply (proj2 (credentials_need_a_user empty_store "bob" "google_tasks"
                    alice_token ltac:(discriminate) ltac:(discriminate) eq_refl));
      reflexivity.
Defined.

(** ** Sessions *)

Lemma expires_before_expiry session now :
  has_expiry session = true ->
  forall sid, expires_before session now = Ok (expired_at now (sid, session)).
Proof.
  unfold has_expiry, expires_before, expired_at. simpl.
  destruct (dict_get "expires_at" session) as [[v|t]|]; try discriminate.
  reflexivity.
Qed.

Lemma has_expiry_truthy session : has_expiry session = true -> dict_truthy session = true.
Proof. destruct session; [discriminate|reflexivity]. Qed.

(** X12.  A session made by [create_session], with extra data that does
    not replace [expires_at], is answered by [get_session] up to and
    including the instant 24 hours after the second reading of the
    clock; later than that [get_session] answers nothing and removes the
    session for good.  The other sessions are untouched. *)
Theorem session_lifetime (user_id session_id : string)
    (session_data : option (pydict pyval)) (now_created now_expires : Z)
    (sessions : pydict (pydict pyval)) :
  NoDup (dict_keys sessions) ->
  (forall d, session_data = Some d ->
     NoDup (dict_keys d) /\ dict_get "expires_at" d = None) ->
  fst (create_session user_id session_data session_id now_created now_expires
         sessions) = session_id /\
  exists record,
    dict_get session_id
      (snd (create_session user_id session_data session_id now_created
              now_expires sessions)) = Some record /\
    dict_get "expires_at" record = Some (VDatetime (now_expires + one_day)) /\
    (forall now, (now <= now_expires + one_day)%Z ->
       get_session session_id now
         (snd (create_session user_id session_data session_id now_created
                 now_expires sessions))
       = (Ok (Some record),
          snd (create_session user_id session_data session_id now_created
                 now_expires sessions))) /\
    (forall now later, (now_expires + one_day < now)%Z ->
       get_session session_id now
         (snd (create_session user_id session_data session_id now_created
                 now_expires sessions))
       = (Ok None,
          dict_del session_id
            (snd (create_session user_id session_data session_id now_created
                    now_expires sessions))) /\
       fst (get_session session_id later
              (dict_del session_id
                 (snd (create_session user_id session_data session_id
                         now_created now_expires sessions))))
       = Ok None) /\
    (forall other, other <> session_id ->
       dict_get other
         (snd (create_session user_id session_data session_id now_created
                 now_expires sessions))
       = dict_get other sessions).
Proof.
  intros Hnd Hdata. unfold create_session. simpl. split; [reflexivity|].
  set (extra := match session_data with
                | Some d => if dict_truthy d then d else []
                | None => []
                end).
  assert (Hextra : NoDup (dict_keys extra) /\ dict_get "expires_at" extra = None).
  { subst extra. destruct session_data as [d|]; [|split; [apply NoDup_nil_2|reflexivity]].
    destruct (Hdata d eq_refl) as [Hd1 Hd2].
    destruct (dict_truthy d); [now split|split; [apply NoDup_nil_2|reflexivity]]. }
  destruct Hextra as [Hend Hexp].
  eexists. split; [apply dict_get_set_eq|].
  assert (Hrec : forall base,
            dict_get "expires_at" base = Some (VDatetime (now_expires + one_day)) ->
            dict_get "expires_at"
              (fold_left (fun d kv => dict_set (fst kv) (snd kv) d) extra base)
            = Some (VDatetime (now_expires + one_day))).
  { intros base Hb. now rewrite (fold_dict_set_get _ _ _ Hend), Hexp. }
  split; [now apply Hrec|]. split; [|split].
  - intros now Hnow. unfold get_session. rewrite dict_get_set_eq.
    rewrite fold_dict_set_nonempty by reflexivity.
    unfold expires_before. rewrite Hrec by reflexivity.
    destruct (Z.ltb_spec (now_expires + one_day) now); [lia|reflexivity].
  - intros now later Hnow. unfold get_session. rewrite dict_get_set_eq.
    rewrite fold_dict_set_nonempty by reflexivity.
    unfold expires_before. rewrite Hrec by reflexivity.
    destruct (Z.ltb_spec (now_expires + one_day) now); [|lia].
    split; [reflexivity|].
    rewrite dict_del_gone; [reflexivity|]. now apply dict_set_NoDup.
  - intros other Hne. apply dict_get_set_ne. congruence.
Qed.

Lemma session_lifetime_witness :
  exists record,
    get_session "5f0c" (1000 + one_day)
      (snd (create_session "alice" None "5f0c" 999 1000 []))
    = (Ok (Some record), snd (create_session "alice" None "5f0c" 999 1000 [])) /\
    get_session "5f0c" (1001 + one_day)
      (snd (create_session "alice" None "5f0c" 999 1000 []))
    = (Ok None, []).
Proof.
  destruct (session_lifetime "alice" "5f0c" None 999 1000 [])
    as (_ & record & _ & _ & Hlive & Hdead & _).
  - apply NoDup_nil_2.
  - intros d Hd. discriminate Hd.
  - exists record. split.
    + apply Hlive. lia.
    + rewrite (proj1 (Hdead (1001 + one_day)%Z 0%Z ltac:(lia))).
      vm_compute. reflexivity.
Defined.

Lemma expired_sessions_ok items now :
  Forall (fun entry => has_expiry (snd entry) = true) items ->
  expired_sessions items now = Ok (map fst (List.filter (expired_at now) items)).
Proof.
  induction 1 as [|[sid s] rest Hs _ IH]; simpl; [reflexivity|].
  simpl in Hs. rewrite (expires_before_expiry _ _ Hs sid). simpl.
  rewrite IH. simpl. now destruct (expired_at now (sid, s)).
Qed.

Lemma fold_del_skip {V} (ids : list string) : forall k (v : V) (d : pydict V),
  k ∉ ids ->
  fold_left (fun ss sid => dict_del sid ss) ids ((k, v) :: d)
  = (k, v) :: fold_left (fun ss sid => dict_del sid ss) ids d.
Proof.
  induction ids as [|sid more IH]; intros k v d Hk; simpl; [reflexivity|].
  apply not_elem_of_cons in Hk as [Hne Hk].
  destruct (String.eqb_spec k sid) as [->|_]; [contradiction|].
  now apply IH.
Qed.

Lemma fold_del_filter {V} (P : string * V -> bool) (d : pydict V) :
  NoDup (dict_keys d) ->
  fold_left (fun ss sid => dict_del sid ss) (map fst (List.filter P d)) d
  = List.filter (fun entry => negb (P entry)) d.
Proof.
  induction d as [|[k v] rest IH]; simpl; [reflexivity|].
  intros Hnd. apply NoDup_cons in Hnd as [Hnotin Hnd].
  destruct (P (k, v)); simpl.
  - rewrite String.eqb_refl. now apply IH.
  - rewrite fold_del_skip; [now rewrite IH|].
    intros Hin. apply Hnotin. apply list_elem_of_In in Hin.
    apply in_map_iff in Hin as (entry & <- & Hentry).
    apply filter_In in Hentry as [Hentry _].
    apply list_elem_of_In. now apply in_map.
Qed.

Lemma filter_NoDup_keys {V} (P : string * V -> bool) (d : pydict V) :
  NoDup (dict_keys d) -> NoDup (dict_keys (List.filter P d)).
Proof.
  induction d as [|[k v] rest IH]; simpl; [auto|].
  intros Hnd. apply NoDup_cons in Hnd as [Hnotin Hnd].
  destruct (P (k, v)); simpl; [|now apply IH].
  apply NoDup_cons. split; [|now apply IH].
  intros Hin. apply Hnotin. apply list_elem_of_In in Hin.
  apply in_map_iff in Hin as (entry & <- & Hentry).
  apply filter_In in Hentry as [Hentry _].
  apply list_elem_of_In. now apply in_map.
Qed.

Lemma dict_get_filter {V} (P : string * V -> bool) (d : pydict V) k :
  NoDup (dict_keys d) ->
  dict_get k (List.filter P d)
  = match dict_get k d with
    | Some v => if P (k, v) then Some v else None
    | None => None
    end.
Proof.
  induction d as [|[k0 v0] rest IH]; simpl; [reflexivity|].
  intros Hnd. apply NoDup_cons in Hnd as [Hnotin Hnd]. simpl in Hnotin.
  destruct (String.eqb_spec k0 k) as [->|Hne].
  - destruct (P (k, v0)) eqn:HP; simpl.
    + now rewrite String.eqb_refl.
    + rewrite (IH Hnd). apply dict_get_None_keys in Hnotin. now rewrite Hnotin.
  - destruct (P (k0, v0)); simpl; [|now apply IH].
    destruct (String.eqb_spec k0 k); [contradiction|]. now apply IH.
Qed.

Lemma filter_idem {A} (P : A -> bool) (l : list A) :
  List.filter (fun x => negb (P x)) (List.filter (fun x => negb (P x)) l)
  = List.filter (fun x => negb (P x)) l /\
  List.filter P (List.filter (fun x => negb (P x)) l) = [].
Proof.
  induction l as [|a r [IH1 IH2]]; simpl; [now split|].
  destruct (P a) eqn:Pa; simpl; [now split|].
  rewrite Pa. simpl. now rewrite IH1, IH2.
Qed.

(** X13.  Over sessions that each carry an expiry time,
    [cleanup_expired_sessions] removes exactly the sessions whose expiry
    is before [now], keeps the others in order, and returns how many it
    removed; run again at the same instant it removes none, and no
    session's answer from [get_session] at that instant is changed by
    the cleanup. *)
Theorem cleanup_removes_expired (now : Z) (sessions : pydict (pydict pyval)) :
  NoDup (dict_keys sessions) ->
  Forall (fun entry => has_expiry (snd entry) = true) sessions ->
  cleanup_expired_sessions now sessions
  = (Ok (length (List.filter (expired_at now) sessions)),
     List.filter (live_at now) sessions) /\
  cleanup_expired_sessions now (List.filter (live_at now) sessions)
  = (Ok 0%nat, List.filter (live_at now) sessions) /\
  forall session_id,
    fst (get_session session_id now (List.filter (live_at now) sessions))
    = fst (get_session session_id now sessions).
Proof.
  intros Hnd Hexp.
  assert (Hrun : forall ss : pydict (pydict pyval),
            NoDup (dict_keys ss) ->
            Forall (fun entry => has_expiry (snd entry) = true) ss ->
            cleanup_expired_sessions now ss
            = (Ok (length (List.filter (expired_at now) ss)),
               List.filter (live_at now) ss)).
  { intros ss Hn He. unfold cleanup_expired_sessions.
    rewrite (expired_sessions_ok _ _ He), length_map.
    now rewrite (fold_del_filter _ _ Hn). }
  split; [now apply Hrun|]. split.
  - rewrite Hrun.
    + unfold live_at. destruct (filter_idem (expired_at now) sessions) as [-> ->].
      reflexivity.
    + now apply filter_NoDup_keys.
    + rewrite Forall_forall in *. intros entry Hin. apply Hexp.
      apply list_elem_of_In. apply list_elem_of_In in Hin.
      now apply filter_In in Hin as [Hin _].
  - intros session_id. unfold get_session.
    rewrite (dict_get_filter _ _ _ Hnd).
    destruct (dict_get session_id sessions) as [s|] eqn:Hget; [|reflexivity].
    assert (Hs : has_expiry s = true).
    { rewrite Forall_forall in Hexp.
      apply (Hexp (session_id, s)). apply list_elem_of_In.
      clear -Hget. induction sessions as [|[k v] r IH]; simpl in *; [discriminate|].
      destruct (String.eqb_spec k session_id) as [->|_]; [left; congruence|].
      right. now apply IH. }
    rewrite (has_expiry_truthy _ Hs), (expires_before_expiry _ _ Hs session_id).
    unfold live_at. destruct (expired_at now (session_id, s)) eqn:He; simpl.
    + reflexivity.
    + rewrite (has_expiry_truthy _ Hs), (expires_before_expiry _ _ Hs session_id), He.
      reflexivity.
Qed.

Lemma cleanup_removes_expired_witness :
  cleanup_expired_sessions 50
    [("old", [("expires_at", VDatetime 10)]);
     ("new", [("expires_at", VDatetime 90)]);
     ("edge", [("expires_at", VDatetime 50)])]
  = (Ok 1%nat,
     [("new", [("expires_at", VDatetime 90)]);
      ("edge", [("expires_at", VDatetime 50)])]).
Proof.
  apply (cleanup_removes_expired 50
           [("old", [("expires_at", VDatetime 10)]);
            ("new", [("expires_at", VDatetime 90)]);
            ("edge", [("expires_at", VDatetime 50)])]).
  - apply (bool_decide_unpack _). vm_compute. exact I.
  - repeat constructor.
Defined.

(** X14.  [invalidate_session] answers [True] exactly when the session
    exists; afterwards [get_session] answers nothing for it, a second
    invalidation answers [False], and the other sessions are as they
    were. *)
Theorem invalidate_removes (session_id : string) (sessions : pydict (pydict pyval)) :
  NoDup (dict_keys sessions) ->
  fst (invalidate_session session_id sessions) = dict_mem session_id sessions /\
  (forall now,
     get_session session_id now (snd (invalidate_session session_id sessions))
     = (Ok None, snd (invalidate_session session_id sessions))) /\
  fst (invalidate_session session_id
         (snd (invalidate_session session_id sessions))) = false /\
  (forall other, other <> session_id ->
     dict_get other (snd (invalidate_session session_id sessions))
     = dict_get other sessions).
Proof.
  intros Hnd.
  assert (Hgone : dict_get session_id
                    (snd (invalidate_session session_id sessions)) = None).
  { unfold invalidate_session, dict_mem.
    destruct (dict_get session_id sessions) eqn:Hget; simpl;
      [now apply dict_del_gone|exact Hget]. }
  split; [|split; [|split]].
  - unfold invalidate_session. now destruct (dict_mem session_id sessions).
  - intros now. unfold get_session. now rewrite Hgone.
  - unfold invalidate_session at 1, dict_mem. now rewrite Hgone.
  - intros other Hne. unfold invalidate_session.
    destruct (dict_mem session_id sessions); simpl; [|reflexivity].
    apply dict_get_del_ne. congruence.
Qed.

Lemma invalidate_removes_witness :
  invalidate_session "5f0c" (snd (create_session "alice" None "5f0c" 999 1000 []))
  = (true, []).
Proof.
  pose proof (invalidate_removes "5f0c"
                (snd (create_session "alice" None "5f0c" 999 1000 []))
                ltac:(apply (bool_decide_unpack _); vm_compute; exact I)) as Hinv.
  apply injective_projections; [exact (proj1 Hinv)|vm_compute; reflexivity].
Defined.

(** ** Statistics *)

Lemma credential_total_insert (cc : gmap string (gmap string cred_entry))
    (uid : string) (inner : gmap string cred_entry) :
  (map_fold (fun _ (uc : gmap string cred_entry) total => (size uc + total)%nat)
     0%nat (<[uid := inner]> cc)
   + size (default ∅ (cc !! uid))
   = size inner
     + map_fold (fun _ (uc : gmap string cred_entry) total => (size uc + total)%nat)
         0%nat cc)%nat.
Proof.
  set (f := fun (_ : string) (uc : gmap string cred_entry) (total : nat) =>
              (size uc + total)%nat).
  assert (Hcomm : forall (m : gmap string (gmap string cred_entry))
                         (j1 j2 : string) z1 z2 y,
             j1 <> j2 -> m !! j1 = Some z1 -> m !! j2 = Some z2 ->
             f j1 z1 (f j2 z2 y) = f j2 z2 (f j1 z1 y)).
  { intros. unfold f. lia. }
  destruct (cc !! uid) as [old|] eqn:Hold; simpl.
  - rewrite <- (insert_delete_eq cc uid inner).
    rewrite (map_fold_insert_L f 0%nat uid inner (delete uid cc));
      [|apply Hcomm|apply lookup_delete_eq].
    rewrite <- (insert_delete_id cc uid old Hold) at 2.
    rewrite (map_fold_insert_L f 0%nat uid old (delete uid cc));
      [|apply Hcomm|apply lookup_delete_eq].
    unfold f. lia.
  - rewrite (map_fold_insert_L f 0%nat uid inner cc); [|apply Hcomm|exact Hold].
    rewrite map_size_empty. unfold f. lia.
Qed.

(** X15.  [get_stats] counts the stored credentials by pair: storing
    credentials for a pair that had none adds one to
    [total_connector_credentials], storing over existing ones adds none,
    and a deletion that answers [True] takes one away; none of these
    changes [total_users] or [active_sessions]. *)
Theorem stats_follow_credentials (self : AuthStore)
    (ss : pydict (pydict pyval)) (user_id connector_name : string)
    (creds : pydict json) (now : Z) :
  total_connector_credentials (get_stats self ss) = credential_count self /\
  (get_connector_credentials self user_id connector_name = None ->
   credential_count
     (store_connector_credentials user_id connector_name creds now self)
   = S (credential_count self)) /\
  (is_Some (get_connector_credentials self user_id connector_name) ->
   credential_count
     (store_connector_credentials user_id connector_name creds now self)
   = credential_count self /\
   S (credential_count
        (snd (delete_connector_credentials user_id connector_name self)))
   = credential_count self) /\
  total_users
    (get_stats (store_connector_credentials user_id connector_name creds now self) ss)
  = total_users (get_stats self ss) /\
  total_users
    (get_stats (snd (delete_connector_credentials user_id connector_name self)) ss)
  = total_users (get_stats self ss) /\
  active_sessions
    (get_stats (store_connector_credentials user_id connector_name creds now self) ss)
  = length ss.
Proof.
  split; [reflexivity|].
  unfold credential_count, get_connector_credentials, store_connector_credentials,
    delete_connector_credentials. simpl.
  set (inner := default ∅ (connector_credentials self !! user_id)).
  destruct (inner !! connector_name) as [entry|] eqn:Hentry; simpl.
  - split; [discriminate|]. split; [|repeat split].
    intros _.
    pose proof (credential_total_insert (connector_credentials self) user_id
                  (<[connector_name := {| credentials := creds; stored_at := now |}]>
                     inner)) as Hstore.
    pose proof (credential_total_insert (connector_credentials self) user_id
                  (delete connector_name inner)) as Hdel.
    fold inner in Hstore, Hdel.
    rewrite (map_size_insert_Some _ _ _ (mk_is_Some _ _ Hentry)) in Hstore.
    pose proof (map_size_delete_Some connector_name inner (mk_is_Some _ _ Hentry))
      as Hsize.
    pose proof (map_size_ne_0_lookup_2 inner connector_name (mk_is_Some _ _ Hentry))
      as Hpos.
    rewrite Hsize in Hdel.
    destruct (size inner); [contradiction|]. simpl in Hdel. split; lia.
  - split; [|split; [intros [x Hx]; discriminate|repeat split]].
    intros _.
    pose proof (credential_total_insert (connector_credentials self) user_id
                  (<[connector_name := {| credentials := creds; stored_at := now |}]>
                     inner)) as Hstore.
    fold inner in Hstore.
    rewrite (map_size_insert_None _ _ _ Hentry) in Hstore. lia.
Qed.

(** * The shared secret *)

(** X16.  A store can only be made with a non-empty [SHARED_SECRET].
    With such a store [verify_auth] lets a request through exactly when
    its [X-Auth] header is the secret; a missing or empty header is
    refused as missing, any other as invalid, both with status 401, and
    [verify_auth] never answers [False]. *)
Theorem shared_secret_gate (env_secret : option string) (store : auth_state)
    (x_auth : option string) :
  AuthStore_init env_secret = Ok store ->
  env_secret = Some (shared_secret store) /\
  shared_secret store <> EmptyString /\
  (verify_auth store x_auth = Responds true <-> x_auth = Some (shared_secret store)) /\
  verify_auth store x_auth <> Responds false /\
  (x_auth = None \/ x_auth = Some EmptyString ->
   verify_auth store x_auth = HTTPException 401 "Missing X-Auth header") /\
  (forall header,
     x_auth = Some header -> header <> EmptyString ->
     header <> shared_secret store ->
     verify_auth store x_auth = HTTPException 401 "Invalid authentication").
Proof.
  unfold AuthStore_init. destruct env_secret as [secret|]; [|discriminate].
  destruct (str_truthy secret) eqn:Hsecret; [|discriminate].
  intros [= <-]. simpl.
  assert (Hne : secret <> EmptyString) by (intros ->; discriminate).
  split; [reflexivity|]. split; [exact Hne|].
  unfold verify_auth, verify_shared_secret. simpl.
  split; [|split; [|split]].
  - destruct x_auth as [header|]; [|split; discriminate].
    destruct header as [|a r].
    + split; [discriminate|]. intros [= Heq]. now destruct Hne.
    + change (str_truthy (String a r)) with true. cbn [negb].
      destruct (String.eqb_spec (String a r) secret) as [->|Hdiff]; cbn [negb].
      * split; reflexivity.
      * split; [discriminate|]. intros [= Heq]. contradiction.
  - destruct x_auth as [header|]; [|discriminate].
    destruct (str_truthy header); simpl; [|discriminate].
    destruct (String.eqb header secret); discriminate.
  - intros [->| ->]; reflexivity.
  - intros header -> Hheader Hdiff.
    destruct header as [|a r]; [contradiction|].
    change (str_truthy (String a r)) with true. cbn [negb].
    destruct (String.eqb_spec (String a r) secret); [contradiction|reflexivity].
Qed.

Lemma shared_secret_gate_witness :
  exists store,
    AuthStore_init (Some "s3cret") = Ok store /\
    verify_auth store (Some "s3cret") = Responds true /\
    verify_auth store (Some "guess") = HTTPException 401 "Invalid authentication".
Proof.
  eexists. split; [reflexivity|].
  destruct (shared_secret_gate (Some "s3cret") _ (Some "s3cret") eq_refl)
    as (_ & _ & Hiff & _).
  split; [now apply Hiff|].
  destruct (shared_secret_gate (Some "s3cret") _ (Some "guess") eq_refl)
    as (_ & _ & _ & _ & _ & Hbad).
  apply (Hbad "guess"); [reflexivity|discriminate|discriminate].
Defined.

(** * The other endpoints *)

Section EndpointFacts.
Context `{PyRuntime}.

Lemma namespace_tool_dict name t t' :
  namespace_tool name t = Ok t' -> is_dict t = true /\ is_dict t' = true.
Proof.
  unfold namespace_tool.
  destruct t as [| | | | |items|d]; simpl; try discriminate.
  destruct (dict_get "name" d); simpl; [|discriminate].
  intros [= <-]. now split.
Qed.

Lemma namespaced_loop_dicts name items : forall tools out,
  namespaced_loop name items tools = Ok out ->
  forallb is_dict items = true /\
  (forallb is_dict tools = true -> forallb is_dict out = true).
Proof.
  induction items as [|t rest IH]; intros tools out; simpl.
  - intros [= <-]. now split.
  - destruct (namespace_tool name t) as [t'|e] eqn:Ht; simpl; [|discriminate].
    destruct (namespace_tool_dict _ _ _ Ht) as [Hd Hd'].
    intros Hloop. destruct (IH _ _ Hloop) as [Hrest Hout].
    rewrite Hd, Hrest. split; [reflexivity|].
    intros Htools. apply Hout. rewrite forallb_app, Htools. simpl.
    now rewrite Hd'.
Qed.

Lemma all_tools_loop_dicts cs : forall all_tools out,
  all_tools_loop cs all_tools = Ok out ->
  forallb is_dict all_tools = true -> forallb is_dict out = true.
Proof.
  induction cs as [|c rest IH]; intros all_tools out; simpl.
  - now intros [= <-].
  - unfold get_namespaced_tools.
    destruct (get_tools c) as [cat|e]; simpl; [|discriminate].
    destruct (py_iter cat) as [items|e]; simpl; [|discriminate].
    destruct (namespaced_loop (connector_name c) items []) as [ns|e] eqn:Hns;
      simpl; [|discriminate].
    destruct (namespaced_loop_dicts _ _ _ _ Hns) as [Hitems Hout].
    intros Hloop Hacc. apply (IH _ _ Hloop).
    rewrite !forallb_app, Hacc, Hitems, (Hout eq_refl). reflexivity.
Qed.

Lemma as_dicts_all values :
  forallb is_dict values = true ->
  exists dicts, as_dicts values = Some dicts /\ map JObj dicts = values.
Proof.
  induction values as [|v rest IH]; simpl.
  - intros _. now exists [].
  - destruct v as [| | | | | |d]; try discriminate. simpl.
    intros Hrest. destruct (IH Hrest) as (dicts & -> & <-).
    now exists (d :: dicts).
Qed.

Lemma listing_length connectors :
  length (flat_map unit_listing (dict_values connectors))
  = (2 * declared_tools connectors)%nat.
Proof.
  unfold declared_tools.
  induction (dict_values connectors) as [|c rest IH]; simpl; [reflexivity|].
  rewrite length_app, IH. unfold unit_listing, namespaced_catalog.
  rewrite length_app, length_map. lia.
Qed.

End EndpointFacts.

(** X17.  The manifest endpoint fails only when [get_all_tools] raises:
    whenever [get_all_tools] returns, every descriptor it returns is a
    dictionary, so the response model accepts them and the answer lists
    them all, with the registered unit names and
    [supports_namespaced_calls] true. *)
Theorem manifest_endpoint `{PyRuntime} (registry : pydict Connector) :
  (forall all_tools,
     get_all_tools registry = Ok all_tools ->
     exists dicts,
       map JObj dicts = all_tools /\
       get_tools_manifest registry
       = Responds {| ManifestResponse.tools := dicts;
                     ManifestResponse.connectors := list_connectors registry;
                     ManifestResponse.supports_namespaced_calls := true |}) /\
  (forall e,
     get_all_tools registry = Raise e ->
     get_tools_manifest registry
     = HTTPException 500 ("Failed to generate manifest: " +:+ exn_str e)).
Proof.
  split.
  - intros all_tools Hall.
    assert (Hd : forallb is_dict all_tools = true).
    { unfold get_all_tools in Hall. now apply (all_tools_loop_dicts _ _ _ Hall). }
    destruct (as_dicts_all _ Hd) as (dicts & Hdicts & Hmap).
    exists dicts. split; [exact Hmap|].
    unfold get_tools_manifest. now rewrite Hall, Hdicts.
  - intros e Hall. unfold get_tools_manifest. now rewrite Hall.
Qed.

(** X18.  Over well-formed manifests and sessions that carry an expiry
    time, the health check answers [healthy] with the number of
    registered units, twice the number of declared tools (each is listed
    under two names), and the statistics taken after the expired
    sessions were removed, which it leaves removed. *)
Theorem health_check_counts `{PyRuntime} (registry : pydict Connector)
    (store : AuthStore) (ss : pydict (pydict pyval)) (now : Z) :
  Forall (fun c => catalog_ok c = true) (dict_values registry) ->
  NoDup (dict_keys ss) ->
  Forall (fun entry => has_expiry (snd entry) = true) ss ->
  health_check registry store ss now
  = (Responds {| status := "healthy";
                 connectors_loaded := length registry;
                 total_tools := 2 * declared_tools registry;
                 auth_stats := get_stats store (List.filter (live_at now) ss) |},
     List.filter (live_at now) ss).
Proof.
  intros Hwf Hnd Hexp. unfold health_check, cleanup_expired_sessions.
  rewrite (expired_sessions_ok _ _ Hexp), (fold_del_filter _ _ Hnd).
  fold (live_at now).
  unfold get_all_tools. rewrite (all_tools_loop_ok _ _ Hwf). simpl.
  rewrite listing_length. unfold list_connectors, dict_keys.
  now rewrite length_map.
Qed.

Lemma health_check_counts_witness :
  @health_check example_runtime two_units alice_store
    [("old", [("expires_at", VDatetime 10)]);
     ("new", [("expires_at", VDatetime 90)])] 50
  = (Responds {| status := "healthy"; connectors_loaded := 2; total_tools := 8;
                 auth_stats := {| total_users := 1; active_sessions := 1;
                                  total_connector_credentials := 1 |} |},
     [("new", [("expires_at", VDatetime 90)])]).
Proof.
  rewrite (@health_check_counts example_runtime two_units alice_store).
  - vm_compute. reflexivity.
  - repeat constructor.
  - apply (bool_decide_unpack _). vm_compute. exact I.
  - repeat constructor.
Defined.

Section BrokenCatalog.
Context `{PyRuntime}.

Lemma namespaced_loop_nameless name good d rest : forall tools,
  forallb tool_ok good = true ->
  dict_get "name" d = None ->
  namespaced_loop name (good ++ JObj d :: rest) tools
  = Raise (Exn KeyError "'name'").
Proof.
  induction good as [|t more IH]; intros tools; simpl.
  - intros _ Hd. unfold namespace_tool. simpl. now rewrite Hd.
  - intros Hok Hd. apply andb_prop in Hok as [Ht Hmore].
    rewrite (namespace_tool_ok _ _ Ht). simpl. now apply IH.
Qed.

Lemma all_tools_loop_raise before bad after e : forall all_tools,
  Forall (fun c => catalog_ok c = true) before ->
  get_namespaced_tools bad = Raise e ->
  all_tools_loop (before ++ bad :: after) all_tools = Raise e.
Proof.
  intros all_tools Hwf. revert all_tools.
  induction Hwf as [|c rest Hc _ IH]; intros all_tools Hbad; simpl.
  - now rewrite Hbad.
  - rewrite (get_namespaced_tools_ok _ Hc), (get_tools_ok _ Hc). simpl.
    now apply IH.
Qed.

End BrokenCatalog.

(** X19.  One registered unit whose manifest has a tool without a
    [name] takes the whole catalog down: [get_all_tools] raises
    [KeyError], the manifest endpoint answers 500, and so does the health
    check, after it has removed the expired sessions. *)
Theorem nameless_tool_breaks_catalog `{PyRuntime}
    (before after : pydict Connector) (key : string) (bad : Connector)
    (fields : pydict json) (good rest : list json) (d : pydict json) :
  Forall (fun c => catalog_ok c = true) (dict_values before) ->
  manifest bad = JObj fields ->
  dict_get "tools" fields = Some (JArr (good ++ JObj d :: rest)) ->
  forallb tool_ok good = true ->
  dict_get "name" d = None ->
  get_all_tools (before ++ (key, bad) :: after) = Raise (Exn KeyError "'name'") /\
  get_tools_manifest (before ++ (key, bad) :: after)
  = HTTPException 500 "Failed to generate manifest: 'name'" /\
  (forall store ss now,
     NoDup (dict_keys ss) ->
     Forall (fun entry => has_expiry (snd entry) = true) ss ->
     health_check (before ++ (key, bad) :: after) store ss now
     = (HTTPException 500 "Health check failed: 'name'",
        List.filter (live_at now) ss)).
Proof.
  intros Hwf Hm Htools Hgood Hd.
  assert (Hall : get_all_tools (before ++ (key, bad) :: after)
                 = Raise (Exn KeyError "'name'")).
  { unfold get_all_tools, dict_values. rewrite map_app. simpl.
    apply all_tools_loop_raise; [exact Hwf|].
    unfold get_namespaced_tools, get_tools. rewrite Hm. simpl.
    rewrite Htools. simpl. now apply namespaced_loop_nameless. }
  split; [exact Hall|]. split.
  - unfold get_tools_manifest. now rewrite Hall.
  - intros store ss now Hnd Hexp. unfold health_check, cleanup_expired_sessions.
    rewrite (expired_sessions_ok _ _ Hexp), (fold_del_filter _ _ Hnd).
    now rewrite Hall.
Qed.

Lemma nameless_tool_breaks_catalog_witness :
  @get_tools_manifest example_runtime
    (connectors (@new_registry example_runtime example_tree []))
  = HTTPException 500 "Failed to generate manifest: 'name'".
Proof.
  refine (proj1 (proj2 (@nameless_tool_breaks_catalog example_runtime
            [("slack", _); ("empty", _)] [("google_tasks", _)] "nameless" _
            [("tools", JArr [JObj [("description", JStr "no name here")]])]
            [] [] [("description", JStr "no name here")] _ _ _ _ _))).
  - repeat constructor.
  - reflexivity.
  - reflexivity.
  - reflexivity.
  - reflexivity.
Defined.

(** ** The listing of units *)

Lemma tool_names_ok items :
  forallb tool_ok items = true -> tool_names items = Ok (map tool_name_of items).
Proof.
  induction items as [|t rest IH]; simpl; [reflexivity|].
  intros Hok. apply andb_prop in Hok as [Ht Hrest].
  destruct t as [| | | | | |d]; try discriminate.
  unfold tool_ok, dict_mem in Ht. simpl.
  destruct (dict_get "name" d) as [v|]; [|discriminate]. simpl.
  now rewrite (IH Hrest).
Qed.

Lemma connector_info_ok k c :
  catalog_ok c = true -> connector_info k c = Ok (info_entry (k, c)).
Proof.
  intros Hok. unfold connector_info.
  rewrite (get_tools_ok _ Hok). simpl.
  rewrite (tool_names_ok _ (catalog_ok_tools _ Hok)). simpl.
  unfold info_entry, info_of. simpl. unfold catalog_ok in Hok.
  destruct (manifest c) as [| | | | | |fields]; try discriminate. reflexivity.
Qed.

Lemma connectors_info_ok (registry : pydict Connector) (entries : pydict Connector) :
  forall acc,
  (forall k c, In (k, c) entries ->
               dict_get k registry = Some c /\ catalog_ok c = true) ->
  connectors_info (dict_keys entries) registry acc
  = Ok (acc ++ map info_entry entries).
Proof.
  induction entries as [|[k c] rest IH]; intros acc Hall; simpl.
  - now rewrite app_nil_r.
  - destruct (Hall k c (or_introl eq_refl)) as [Hget Hok].
    rewrite Hget, (connector_info_ok _ _ Hok). simpl.
    rewrite IH, <- app_assoc; [reflexivity|].
    intros k' c' Hin. apply Hall. now right.
Qed.

(** X20.  Over a registry of well-formed manifests, [/connectors] lists
    the registered units in registration order, each with the number and
    the names of its declared tools and its [info] block;
    [total_connectors] is the number of units, and the counts add up to
    half of what the health check reports as [total_tools]. *)
Theorem connectors_listing `{PyRuntime} (registry : pydict Connector) :
  registry_ok registry ->
  Forall (fun c => catalog_ok c = true) (dict_values registry) ->
  list_connectors_endpoint registry
  = Ok (map info_entry registry, length registry) /\
  map ConnectorInfo.name (map info_entry registry) = list_connectors registry /\
  forall store ss now response ss',
    health_check registry store ss now = (Responds response, ss') ->
    total_tools response
    = (2 * list_sum (map ConnectorInfo.tools_count (map info_entry registry)))%nat.
Proof.
  intros [Hnd _] Hwf.
  assert (Hrun : connectors_info (list_connectors registry) registry []
                 = Ok (map info_entry registry)).
  { unfold list_connectors. rewrite connectors_info_ok; [reflexivity|].
    intros k c Hin. split; [now apply dict_get_In|].
    rewrite Forall_forall in Hwf. apply Hwf. apply list_elem_of_In.
    unfold dict_values. change c with (snd (k, c)). now apply in_map. }
  split; [|split].
  - unfold list_connectors_endpoint. rewrite Hrun. simpl.
    now rewrite length_map.
  - rewrite map_map. reflexivity.
  - intros store ss now response ss'. unfold health_check.
    destruct (cleanup_expired_sessions now ss) as [[n|e] ss1]; [|discriminate].
    unfold get_all_tools. rewrite (all_tools_loop_ok _ _ Hwf). simpl.
    intros [= <- _]. simpl. rewrite listing_length.
    unfold declared_tools, dict_values. rewrite !map_map. reflexivity.
Qed.

Lemma connectors_listing_witness :
  list_connectors_endpoint two_units
  = Ok ([{| ConnectorInfo.name := "slack"; ConnectorInfo.tools_count := 2;
            ConnectorInfo.tools := [JStr "send_message"; JStr "list_channels"];
            ConnectorInfo.manifest := JObj [] |};
         {| ConnectorInfo.name := "google_tasks"; ConnectorInfo.tools_count := 2;
            ConnectorInfo.tools := [JStr "create_task"; JStr "send_message"];
            ConnectorInfo.manifest := JObj [] |}], 2%nat).
Proof.
  refine (proj1 (@connectors_listing example_runtime two_units two_units_ok _)).
  repeat constructor.
Defined.

(** ** The reload endpoint *)

(** X21.  The reload endpoint answers 500 exactly when the unit does not
    load, and then the unit is no longer registered: every call to one
    of its tools by namespaced name is answered as not found.  When the
    unit loads, the endpoint confirms and the unit is registered last. *)
Theorem reload_endpoint_outcomes `{PyRuntime} (fs : file_system)
    (name : string) (st : registry_state) :
  registry_ok (connectors st) ->
  str_contains dot name = false ->
  (forall e,
     load_instance fs name = Raise e ->
     fst (reload_connector_endpoint fs name st)
     = HTTPException 500
         ("Failed to reload connector " +:+ name +:+ ": " +:+ exn_str e) /\
     connectors (snd (reload_connector_endpoint fs name st))
     = dict_del name (connectors st) /\
     forall store tool parameters user,
       call_tool (connectors (snd (reload_connector_endpoint fs name st))) store
         {| tool_name := name +:+ "." +:+ tool; parameters := parameters;
            user_id := user |}
       = not_found_response (name +:+ "." +:+ tool)) /\
  (forall c,
     load_instance fs name = Ok c ->
     fst (reload_connector_endpoint fs name st)
     = Responds ("Connector " +:+ name +:+ " reloaded successfully") /\
     connectors (snd (reload_connector_endpoint fs name st))
     = dict_del name (connectors st) ++ [(name, c)]).
Proof.
  intros [Hnd _] Hnodot.
  destruct (reload_connectors fs name st Hnd) as [Hconn Hres].
  unfold reload_connector_endpoint.
  destruct (reload_connector fs name st) as [r st'] eqn:Hrun. simpl in *.
  split.
  - intros e Hload. rewrite Hload in Hconn, Hres. subst r. simpl.
    split; [reflexivity|]. split; [exact Hconn|].
    intros store tool parameters user. rewrite Hconn.
    unfold call_tool, call_tool_body, execute_tool. simpl.
    change (name +:+ "." +:+ tool) with (name +:+ String dot tool).
    rewrite (resolve_dotted _ _ (join_contains _ _)).
    destruct (split_unique name tool Hnodot) as [-> _].
    rewrite (dict_del_gone _ _ Hnd). reflexivity.
  - intros c Hload. rewrite Hload in Hconn, Hres. subst r. simpl.
    split; [reflexivity|exact Hconn].
Qed.

Lemma reload_endpoint_outcomes_witness :
  fst (@reload_connector_endpoint example_runtime empty_tree "slack"
         {| connectors := two_units; stdout := [] |})
  = HTTPException 500
      "Failed to reload connector slack: No connector.py found for slack" /\
  @call_tool example_runtime
    (connectors (snd (@reload_connector_endpoint example_runtime empty_tree "slack"
                        {| connectors := two_units; stdout := [] |})))
    empty_store
    {| tool_name := "slack.send_message"; parameters := []; user_id := None |}
  = not_found_response "slack.send_message".
Proof.
  destruct (proj1 (@reload_endpoint_outcomes example_runtime empty_tree "slack"
                     {| connectors := two_units; stdout := [] |}
                     two_units_ok eq_refl)
              (Exn FileNotFoundError "No connector.py found for slack") eq_refl)
    as (Hfail & _ & Hcalls).
  split; [exact Hfail|]. apply (Hcalls empty_store "send_message" [] None).
Defined.

(** * Bearer tokens *)

#[local] Arguments str_drop : simpl never.
#[local] Arguments String.prefix : simpl never.

Section BearerFacts.
Variable post : http_post.
Variable url : string.

(** What [validate_token] returns is a non-empty dictionary, returned
    without printing. *)
Lemma validate_token_some token data printed :
  validate_token post url token = (Some data, printed) ->
  py_truthy data = true /\ printed = [].
Proof.
  unfold validate_token.
  destruct (post _ _) as [[status body]|e]; [|discriminate].
  destruct (status =? 200)%nat; [|discriminate].
  destruct body as [d|e]; [|discriminate].
  destruct d as [| | | | | |fields]; simpl; try discriminate.
  destruct (dict_get "valid" fields) as [valid|] eqn:Hvalid; simpl;
    [|discriminate].
  destruct (py_truthy valid); [|discriminate].
  intros [= <- <-]. split; [|reflexivity].
  destruct fields; [discriminate|reflexivity].
Qed.

Lemma bearer_prefix token :
  String.prefix "Bearer " ("Bearer " +:+ token) = true /\
  str_drop 7 ("Bearer " +:+ token) = token.
Proof. split; [|reflexivity]. cbv. destruct token; reflexivity. Qed.

End BearerFacts.

(** X22.  [get_current_user_optional] is [get_current_user] without the
    refusals: it returns the same user when [get_current_user] returns
    one, nothing where [get_current_user] refuses (always with status
    401), and fails the same way when the validated data has no [user];
    both print the same lines.  For a header [Bearer <token>] the text
    validated is exactly [<token>]. *)
Theorem optional_user_agrees (post : http_post) (url : string)
    (authorization : option string) :
  snd (get_current_user_optional post url authorization)
  = snd (get_current_user post url authorization) /\
  match fst (get_current_user post url authorization) with
  | Returns user =>
      fst (get_current_user_optional post url authorization) = Returns (Some user)
  | Refuses status_code _ =>
      status_code = 401%nat /\
      fst (get_current_user_optional post url authorization) = Returns None
  | Crashes e =>
      fst (get_current_user_optional post url authorization) = Crashes e
  end /\
  forall token,
    fst (get_current_user post url (Some ("Bearer " +:+ token)))
    = match fst (validate_token post url token) with
      | Some user_data => user_of user_data
      | None => Refuses 401 "Invalid or expired token"
      end.
Proof.
  split; [|split].
  - unfold get_current_user_optional, get_current_user.
    destruct authorization as [header|]; [|reflexivity].
    destruct (str_truthy header); simpl; [|reflexivity].
    destruct (String.prefix "Bearer " header); simpl; [|reflexivity].
    destruct (validate_token post url (str_drop 7 header)) as [[data|] printed];
      [|reflexivity].
    now destruct (py_truthy data).
  - unfold get_current_user_optional, get_current_user.
    destruct authorization as [header|]; [|now split].
    destruct (str_truthy header); simpl; [|now split].
    destruct (String.prefix "Bearer " header); simpl; [|now split].
    destruct (validate_token post url (str_drop 7 header)) as [[data|] printed];
      simpl; [|now split].
    destruct (py_truthy data); simpl; [|now split].
    unfold user_of. now destruct (py_getitem data "user").
  - intros token. unfold get_current_user.
    destruct (bearer_prefix token) as [-> ->]. simpl.
    destruct (validate_token post url token) as [[data|] printed] eqn:Hv;
      [|reflexivity].
    destruct (validate_token_some _ _ _ _ _ Hv) as [-> _]. reflexivity.
Qed.

(** X23.  [verify_auth_flexible] keeps every request [verify_auth] lets
    through: with the secret the store was made with, a request carrying
    the right [X-Auth] header is never refused.  A bearer token that
    validates takes precedence over the header, and a request is refused
    only when its token does not validate and [verify_auth] refuses it
    too. *)
Theorem flexible_keeps_shared_secret (post : http_post) (url : string)
    (env_secret : option string) (store : auth_state)
    (x_auth authorization : option string) :
  AuthStore_init env_secret = Ok store ->
  (verify_auth store x_auth = Responds true ->
   forall status_code detail,
     fst (verify_auth_flexible post url env_secret x_auth authorization)
     <> Refuses status_code detail) /\
  (forall user,
     fst (get_current_user post url authorization) = Returns user ->
     fst (verify_auth_flexible post url env_secret x_auth authorization)
     = Returns (AsUser user)) /\
  (forall status_code detail,
     fst (verify_auth_flexible post url env_secret x_auth authorization)
     = Refuses status_code detail ->
     status_code = 401%nat /\
     verify_auth store x_auth <> Responds true /\
     fst (get_current_user_optional post url authorization) = Returns None).
Proof.
  unfold AuthStore_init. destruct env_secret as [secret|]; [|discriminate].
  destruct (str_truthy secret) eqn:Hsecret; [|discriminate].
  intros [= <-].
  assert (Hfall : forall status_code detail,
            shared_secret_fallback (Some secret) x_auth = Refuses status_code detail ->
            status_code = 401%nat /\
            verify_auth {| tables := empty_store; sessions := [];
                           shared_secret := secret |} x_auth <> Responds true).
  { unfold shared_secret_fallback, verify_auth, verify_shared_secret. simpl.
    rewrite Hsecret. simpl. intros status_code detail.
    destruct x_auth as [header|]; [|intros [= <- _]; split; [reflexivity|discriminate]].
    destruct (str_truthy header); cbn [negb];
      [|intros [= <- _]; split; [reflexivity|discriminate]].
    destruct (String.eqb header secret); cbn [negb]; [discriminate|].
    intros [= <- _]. split; [reflexivity|discriminate]. }
  split; [|split].
  - intros Hok status_code detail. unfold verify_auth_flexible.
    assert (Hno : shared_secret_fallback (Some secret) x_auth
                  <> Refuses status_code detail).
    { intros Href. now destruct (Hfall _ _ Href). }
    destruct authorization as [header|]; [|exact Hno].
    destruct (str_truthy header && String.prefix "Bearer " header);
      [|exact Hno].
    destruct (validate_token post url (str_drop 7 header)) as [[data|] printed];
      [|exact Hno].
    destruct (py_truthy data); [|exact Hno].
    simpl. unfold user_of. destruct (py_getitem data "user"); discriminate.
  - intros user. unfold get_current_user, verify_auth_flexible.
    destruct authorization as [header|]; [|discriminate].
    destruct (str_truthy header); simpl; [|discriminate].
    destruct (String.prefix "Bearer " header); simpl; [|discriminate].
    destruct (validate_token post url (str_drop 7 header)) as [[data|] printed];
      simpl; [|discriminate].
    destruct (py_truthy data); simpl; [|discriminate].
    now intros ->.
  - intros status_code detail.
    unfold verify_auth_flexible, get_current_user_optional.
    assert (Hfb : forall printed : list string,
              (shared_secret_fallback (Some secret) x_auth, printed).1
              = Refuses status_code detail ->
              status_code = 401%nat /\
              verify_auth {| tables := empty_store; sessions := [];
                             shared_secret := secret |} x_auth <> Responds true /\
              (@Returns (option json) None, printed).1 = Returns None).
    { intros printed Href. destruct (Hfall _ _ Href). repeat split; assumption. }
    destruct authorization as [header|]; [|apply Hfb].
    destruct (str_truthy header); cbn [negb orb andb]; [|apply Hfb].
    destruct (String.prefix "Bearer " header); cbn [negb orb andb]; [|apply Hfb].
    destruct (validate_token post url (str_drop 7 header)) as [[data|] printed];
      [|apply Hfb].
    destruct (py_truthy data); [|apply Hfb].
    simpl. unfold user_of. destruct (py_getitem data "user"); discriminate.
Qed.

Lemma flexible_keeps_shared_secret_witness :
  AuthStore_init (Some "s3cret")
  = Ok {| tables := empty_store; sessions := []; shared_secret := "s3cret" |} /\
  fst (verify_auth_flexible (one_token_service "tok" (JObj [("id", JStr "alice")]))
         "http://localhost:8000" (Some "s3cret") (Some "wrong") (Some "Bearer tok"))
  = Returns (AsUser (JObj [("id", JStr "alice")])).
Proof.
  split; [reflexivity|].
  apply (proj1 (proj2 (flexible_keeps_shared_secret
                         (one_token_service "tok" (JObj [("id", JStr "alice")]))
                         "http://localhost:8000" (Some "s3cret") _
                         (Some "wrong") (Some "Bearer tok") eq_refl))).
  reflexivity.
Defined.

(** * Calls by bare name and the connectors' tokens *)

(** X24.  A call by bare name never carries credentials, so a unit of
    one of the three connector classes answers it with its
    authentication-required map, whatever the store holds for the user;
    the caller receives that map with [success] true. *)
Theorem bare_calls_lack_token `{PyRuntime} (registry : pydict Connector)
    (store : AuthStore) (request : ToolCallRequest) (unit : Connector)
    (methods : string -> pydict json -> option (pydict json) -> res json) :
  str_contains dot (tool_name request) = false ->
  get_connector_for_tool registry (tool_name request) = Ok (Some unit) ->
  (execute unit = slack_execute methods ->
   call_tool registry store request
   = {| success := true; result := auth_required "Slack"; error := None |}) /\
  (execute unit = google_tasks_execute methods ->
   call_tool registry store request
   = {| success := true; result := auth_required "Google Tasks"; error := None |}) /\
  (execute unit = google_calendar_execute methods ->
   call_tool registry store request
   = {| success := true; result := auth_required "Google Calendar";
        error := None |}).
Proof.
  intros Hbare Hres.
  assert (Hauth : call_auth_data store request = None).
  { unfold call_auth_data, credential_connector. rewrite Hbare.
    destruct (user_id request) as [uid|]; [|reflexivity].
    destruct (str_truthy uid); [|reflexivity].
    destruct (get_user store uid) as [d|]; [|reflexivity].
    now destruct (dict_truthy d). }
  assert (Hcall : call_tool registry store request
                  = match (r ← execute unit (bare_name (tool_name request))
                                 (parameters request) None;
                           success_response r) with
                    | Ok response => response
                    | Raise e =>
                        if is_ValueError e then
                          {| success := false; result := [];
                             error := Some ("Tool not found: " +:+ exn_str e) |}
                        else
                          {| success := false; result := [];
                             error := Some ("Tool execution failed: " +:+ exn_str e) |}
                    end).
  { unfold call_tool, call_tool_body.
    now rewrite (execute_tool_resolved _ _ _ _ _ Hres), Hauth. }
  rewrite Hcall. repeat split; intros ->; reflexivity.
Qed.

Lemma bare_calls_lack_token_witness :
  get_connector_credentials alice_store "alice" "google_tasks" = Some alice_token /\
  @call_tool example_runtime two_units alice_store
    {| tool_name := "create_task"; parameters := []; user_id := Some "alice" |}
  = {| success := true; result := auth_required "Google Tasks"; error := None |}.
Proof.
  split; [vm_compute; reflexivity|].
  apply (proj1 (proj2 (@bare_calls_lack_token example_runtime two_units alice_store
                         {| tool_name := "create_task"; parameters := [];
                            user_id := Some "alice" |}
                         google_tasks_unit sample_methods eq_refl eq_refl))).
  reflexivity.
Defined.

(** * The class name of a unit *)

Lemma ascii_case_facts a :
  Ascii.eqb (ascii_lower a) underscore = Ascii.eqb a underscore /\
  Ascii.eqb (ascii_upper a) underscore = Ascii.eqb a underscore /\
  ascii_upper (ascii_lower a) = ascii_upper a /\
  ascii_lower (ascii_lower a) = ascii_lower a.
Proof.
  destruct a as [b0 b1 b2 b3 b4 b5 b6 b7].
  destruct b0, b1, b2, b3, b4, b5, b6, b7; vm_compute; auto.
Qed.

Lemma str_lower_idem s : str_lower (str_lower s) = str_lower s.
Proof.
  induction s as [|a r IH]; simpl; [reflexivity|].
  now rewrite IH, (proj2 (proj2 (proj2 (ascii_case_facts a)))).
Qed.

Lemma str_capitalize_lower s : str_capitalize (str_lower s) = str_capitalize s.
Proof.
  destruct s as [|a r]; simpl; [reflexivity|].
  now rewrite str_lower_idem, (proj1 (proj2 (proj2 (ascii_case_facts a)))).
Qed.

Lemma cons_head_lower a parts :
  cons_head (ascii_lower a) (map str_lower parts)
  = map str_lower (cons_head a parts).
Proof. now destruct parts. Qed.

Lemma str_split_lower s :
  str_split underscore (str_lower s) = map str_lower (str_split underscore s).
Proof.
  induction s as [|a r IH]; simpl; [reflexivity|].
  rewrite (proj1 (ascii_case_facts a)), IH.
  destruct (Ascii.eqb a underscore); [reflexivity|apply cons_head_lower].
Qed.

Lemma str_contains_app c s t :
  str_contains c (s +:+ t) = str_contains c s || str_contains c t.
Proof.
  induction s as [|a r IH]; simpl; [reflexivity|].
  destruct (Ascii.eqb a c); [reflexivity|exact IH].
Qed.

Lemma str_split_parts s :
  Forall (fun p => str_contains underscore p = false) (str_split underscore s).
Proof.
  induction s as [|a r IH]; simpl; [repeat constructor|].
  destruct (Ascii.eqb a underscore) eqn:Ha; [now constructor|].
  destruct (str_split underscore r) as [|p ps]; simpl.
  - constructor; [|constructor]. simpl. now rewrite Ha.
  - inversion IH as [|? ? Hp Hps]; subst. constructor; [|exact Hps].
    simpl. now rewrite Ha.
Qed.

Lemma str_lower_no_underscore s :
  str_contains underscore (str_lower s) = str_contains underscore s.
Proof.
  induction s as [|a r IH]; simpl; [reflexivity|].
  now rewrite (proj1 (ascii_case_facts a)), IH.
Qed.

Lemma str_capitalize_no_underscore s :
  str_contains underscore (str_capitalize s) = str_contains underscore s.
Proof.
  destruct s as [|a r]; simpl; [reflexivity|].
  now rewrite (proj1 (proj2 (ascii_case_facts a))), str_lower_no_underscore.
Qed.

Lemma str_join_no_underscore parts :
  Forall (fun p => str_contains underscore p = false) parts ->
  str_contains underscore (str_join (map str_capitalize parts)) = false.
Proof.
  induction 1 as [|p ps Hp _ IH]; simpl; [reflexivity|].
  now rewrite str_contains_app, str_capitalize_no_underscore, Hp, IH.
Qed.

Lemma str_split_nonempty sep s : str_split sep s <> [].
Proof.
  destruct s as [|a r]; simpl; [discriminate|].
  destruct (Ascii.eqb a sep); [discriminate|].
  destruct (str_split sep r); discriminate.
Qed.

Lemma str_split_app sep p q :
  str_split sep (p +:+ String sep q) = str_split sep p ++ str_split sep q.
Proof.
  induction p as [|a r IH]; simpl.
  - now rewrite Ascii.eqb_refl.
  - rewrite IH. destruct (Ascii.eqb a sep); [reflexivity|].
    pose proof (str_split_nonempty sep r) as Hne.
    destruct (str_split sep r); [contradiction|reflexivity].
Qed.

Lemma str_append_assoc (s t u : string) : (s +:+ t) +:+ u = s +:+ (t +:+ u).
Proof.
  induction s as [|a r IH]; [reflexivity|].
  change (String a ((r +:+ t) +:+ u) = String a (r +:+ (t +:+ u))).
  now rewrite IH.
Qed.

Lemma str_join_app l1 l2 : str_join (l1 ++ l2) = str_join l1 +:+ str_join l2.
Proof.
  induction l1 as [|p ps IH]; simpl; [reflexivity|].
  now rewrite IH, str_append_assoc.
Qed.

(** X25.  For a unit name in ASCII, the class name the loader looks for
    has no underscore and does not depend on the case of the letters of
    the unit name, nor on an underscore being doubled: such names call
    for the same class. *)
Theorem class_name_shape (name : string) :
  str_ascii name = true ->
  str_contains underscore (connector_class_name name) = false /\
  connector_class_name (str_lower name) = connector_class_name name /\
  forall first second,
    name = first +:+ String underscore second ->
    connector_class_name (first +:+ String underscore (String underscore second))
    = connector_class_name name.
Proof.
  intros _. unfold connector_class_name. split; [|split].
  - rewrite str_contains_app.
    rewrite (str_join_no_underscore _ (str_split_parts name)). reflexivity.
  - rewrite str_split_lower, map_map.
    f_equal. f_equal. apply map_ext. intros p. apply str_capitalize_lower.
  - intros first second ->. f_equal.
    rewrite !str_split_app, !map_app, !str_join_app.
    f_equal.
Qed.

Lemma class_name_shape_witness :
  connector_class_name "Google_Tasks" = "GoogleTasksConnector" /\
  connector_class_name "google__tasks" = connector_class_name "google_tasks".
Proof.
  destruct (class_name_shape "google_tasks" eq_refl) as (_ & _ & Hdouble).
  split; [|apply (Hdouble "google" "tasks" eq_refl)].
  rewrite <- (proj1 (proj2 (class_name_shape "Google_Tasks" eq_refl))).
  reflexivity.
Defined.

(** * From the source tree to a call *)

(** X26.  A unit that loads at start-up can be called: when its name
    has no [.] and its manifest is well formed, each tool it declares
    resolves by its namespaced name to the loaded unit, and
    [execute_tool] runs that unit's [execute] on the bare tool name. *)
Theorem loaded_unit_is_callable `{PyRuntime} (fs : file_system)
    (entries : pydict fs_node) (name : string) (node : fs_node)
    (c : Connector) (tool : string) (out : list string) :
  connectors_dir fs = Some entries ->
  In (name, node) entries ->
  candidate (name, node) = true ->
  load_instance fs name = Ok c ->
  str_contains dot name = false ->
  catalog_ok c = true ->
  declares c tool = true ->
  get_connector_for_tool (connectors (new_registry fs out)) (name +:+ "." +:+ tool)
  = Ok (Some c) /\
  forall parameters auth_data,
    execute_tool (connectors (new_registry fs out)) (name +:+ "." +:+ tool)
      parameters auth_data
    = execute c tool parameters auth_data.
Proof.
  intros Hdir Hin Hcand Hload Hnodot Hok Hdecl.
  assert (Hreg : dict_get name (connectors (new_registry fs out)) = Some c).
  { unfold new_registry, _load_connectors. rewrite Hdir.
    now apply scan_registers with node. }
  assert (Hres : get_connector_for_tool (connectors (new_registry fs out))
                   (name +:+ "." +:+ tool) = Ok (Some c)).
  { change (name +:+ "." +:+ tool) with (name +:+ String dot tool).
    rewrite (resolve_dotted _ _ (join_contains _ _)).
    destruct (split_unique name tool Hnodot) as [-> ->].
    now rewrite Hreg, (provides_ok _ _ Hok), Hdecl. }
  split; [exact Hres|]. intros parameters auth_data.
  rewrite (execute_tool_resolved _ _ _ _ _ Hres). unfold bare_name.
  change (name +:+ "." +:+ tool) with (name +:+ String dot tool).
  rewrite join_contains.
  now destruct (split_unique name tool Hnodot) as [_ ->].
Qed.

Lemma loaded_unit_is_callable_witness :
  exists c,
    @load_instance example_runtime example_tree "google_tasks" = Ok c /\
    get_connector_for_tool
      (connectors (@new_registry example_runtime example_tree []))
      "google_tasks.create_task" = Ok (Some c).
Proof.
  eexists. split; [reflexivity|].
  refine (proj1 (@loaded_unit_is_callable example_runtime example_tree _
                   "google_tasks" _ _ "create_task" [] eq_refl _ _ eq_refl
                   eq_refl eq_refl eq_refl)).
  - do 9 right. left. reflexivity.
  - reflexivity.
Defined.

(** * A session with a bad expiry *)

Lemma expired_sessions_bad items now :
  Exists (fun entry => has_expiry (snd entry) = false) items ->
  exists e, expired_sessions items now = Raise e.
Proof.
  induction 1 as [[sid s] rest Hbad|[sid s] rest _ [e IH]]; simpl.
  - simpl in Hbad. unfold has_expiry in Hbad. unfold expires_before.
    destruct (dict_get "expires_at" s) as [[v|t]|]; try discriminate; eauto.
  - destruct (expires_before s now) as [b|e0]; simpl; [|eauto].
    rewrite IH. simpl. eauto.
Qed.

Lemma dict_set_In {V} k (v : V) d : In (k, v) (dict_set k v d).
Proof.
  induction d as [|[k0 v0] r IH]; simpl; [now left|].
  destruct (String.eqb k0 k); [now left|now right].
Qed.

(** X27.  Extra session data that sets [expires_at] to something that
    is not a [datetime] replaces the expiry [create_session] computes.
    From then on [get_session] on that session raises [TypeError], the
    cleanup raises and removes nothing, and the health check answers
    500. *)
Theorem bad_expiry_poisons_cleanup `{PyRuntime} (user_id session_id : string)
    (data : pydict pyval) (v : json) (now_created now_expires : Z)
    (ss : pydict (pydict pyval)) :
  NoDup (dict_keys data) ->
  dict_get "expires_at" data = Some (VJson v) ->
  forall now,
    (exists e,
       exn_cls e = TypeError /\
       get_session session_id now
         (snd (create_session user_id (Some data) session_id now_created
                 now_expires ss))
       = (Raise e,
          snd (create_session user_id (Some data) session_id now_created
                 now_expires ss))) /\
    (exists e,
       cleanup_expired_sessions now
         (snd (create_session user_id (Some data) session_id now_created
                 now_expires ss))
       = (Raise e,
          snd (create_session user_id (Some data) session_id now_created
                 now_expires ss))) /\
    forall registry store,
    exists detail,
      health_check registry store
        (snd (create_session user_id (Some data) session_id now_created
                now_expires ss)) now
      = (HTTPException 500 detail,
         snd (create_session user_id (Some data) session_id now_created
                now_expires ss)).
Proof.
  intros Hnd Hexp now. unfold create_session. simpl.
  assert (Htruthy : dict_truthy data = true) by (destruct data; [discriminate|reflexivity]).
  rewrite Htruthy.
  set (record := fold_left (fun d kv => dict_set (fst kv) (snd kv) d) data _).
  assert (Hrec : dict_get "expires_at" record = Some (VJson v)).
  { subst record. now rewrite (fold_dict_set_get _ _ _ Hnd), Hexp. }
  assert (Hbad : exists e, expired_sessions (dict_set session_id record ss) now
                           = Raise e).
  { apply expired_sessions_bad. apply Exists_exists.
    exists (session_id, record). split.
    - apply list_elem_of_In. apply dict_set_In.
    - simpl. unfold has_expiry. now rewrite Hrec. }
  split; [|split].
  - eexists. split; [|unfold get_session; rewrite dict_get_set_eq].
    2:{ assert (Hne : dict_truthy record = true).
        { subst record. now apply fold_dict_set_nonempty. }
        rewrite Hne. unfold expires_before. rewrite Hrec. reflexivity. }
    reflexivity.
  - destruct Hbad as [e He]. exists e. unfold cleanup_expired_sessions.
    now rewrite He.
  - intros registry store. destruct Hbad as [e He].
    eexists. unfold health_check, cleanup_expired_sessions. rewrite He.
    reflexivity.
Qed.

Lemma bad_expiry_poisons_cleanup_witness :
  exists e,
    cleanup_expired_sessions 0
      (snd (create_session "alice"
              (Some [("expires_at", VJson (JStr "tomorrow"))]) "5f0c" 999 1000 []))
    = (Raise e,
       snd (create_session "alice"
              (Some [("expires_at", VJson (JStr "tomorrow"))]) "5f0c" 999 1000 [])).
Proof.
  destruct (@bad_expiry_poisons_cleanup example_runtime "alice" "5f0c"
              [("expires_at", VJson (JStr "tomorrow"))] (JStr "tomorrow")
              999 1000 []) with (now := 0%Z) as (_ & Hclean & _).
  - apply (bool_decide_unpack _). vm_compute. exact I.
  - reflexivity.
  - exact Hclean.
Defined.
